(** * ETL pipeline: transform, quality checks and batch loading

    A shallow embedding of [Part_3_and_4/data_quality_checks_and_batch_loading.py]
    (with the sibling transform of [Part_1/data_pipeline.py]).

    Modelling choices, each following the Python code:
    - a pandas [DataFrame] is a columnar store: a row count and a finite map
      from column names to columns; [df[c]] on a missing column raises
      [KeyError];
    - a cell is a [Value]: null ([None]/[NaN]), a boolean, a binary64 number
      or a string.  JSON integers are embedded as binary64 numbers, which is
      exact below 2^53 and is the dtype pandas gives a numeric column as soon
      as it holds a null.  On a column of integers without a null pandas
      computes in [int64], modulo 2^64: the two arithmetics agree on the
      numbers that are [in_exact_range], and the theorems about a product
      or an absolute value are stated for those;
    - strings are byte strings; the character classes [\d] and [\s] are the
      ASCII ones, and a theorem that needs them to be those of Python on
      its input assumes that the input [is_ascii];
    - a batch size is any integer, as in Python: zero makes the loader
      raise, a negative one makes it write nothing;
    - exceptions are values of [Result]; a call that can also end in the
      [RecursionError] of an unbounded retry returns an [Attempt];
    - the libraries the code calls but does not contain (dateutil's parser,
      the numeric-string reader of [pd.to_numeric], [str] on a number,
      [pd.to_datetime], the SQL engine) are parameters, gathered in
      [Externals] and in the loader's section. *)

From Stdlib Require Import Floats.PrimFloat Floats.FloatOps Floats.FloatAxioms
  Floats.SpecFloat Ascii String DecimalString.
From stdpp Require Import gmap strings list fin_maps.

Set Warnings "-inexact-float".

(** ** Values, exceptions and results *)

Inductive Value :=
| VNull
| VBool (b : bool)
| VNum (x : float)
| VStr (s : string).

Abbreviation Series := (list Value).

Inductive Exception :=
| KeyError (key : string)
| TypeError
| ValueError
| ZeroDivisionError
| OverflowError
| DatabaseError.

Inductive Result (A : Type) :=
| Ok (a : A)
| Raise (e : Exception).
Arguments Ok {A} a.
Arguments Raise {A} e.

#[global] Instance result_ret : MRet Result := fun A a => Ok a.
#[global] Instance result_bind : MBind Result := fun A B f m =>
  match m with
  | Ok a => f a
  | Raise e => Raise e
  end.

Definition is_ok {A} (r : Result A) : bool :=
  match r with Ok _ => true | Raise _ => false end.

(** ** Cells and columns *)

(** [pd.isna] on one cell. *)
Definition isna (v : Value) : bool :=
  match v with
  | VNull => true
  | VNum x => PrimFloat.is_nan x
  | _ => false
  end.

Definition notna (v : Value) : bool := negb (isna v).

(** The number a numeric operation reads in a cell: a null is [NaN], a
    boolean is 0 or 1, a string makes the operation raise [TypeError]. *)
Definition to_float (v : Value) : Result float :=
  match v with
  | VNull => Ok PrimFloat.nan
  | VBool b => Ok (if b then PrimFloat.one else PrimFloat.zero)
  | VNum x => Ok x
  | VStr _ => Raise TypeError
  end.

(** [Series.fillna(fill)]. *)
Definition fillna (fill : Value) (s : Series) : Series :=
  map (fun v => if isna v then fill else v) s.

(** [series < c], [series <= c], [series > c]: a boolean mask. *)
Definition compare_scalar (op : float -> float -> bool) (s : Series) (c : float)
  : Result (list bool) :=
  mapM (fun v => x ← to_float v; mret (op x c)) s.

Definition series_lt := compare_scalar PrimFloat.ltb.
Definition series_le := compare_scalar PrimFloat.leb.
Definition series_gt := compare_scalar (fun x c => PrimFloat.ltb c x).

(** [series.abs()].  The numbers of a column are held as binary64 floats,
    whatever the dtype pandas gives the column.  On a [float64] column this
    is the operation of pandas; on an [int64] column it is too for every
    value but -2^63, which the arithmetic of pandas, modulo 2^64, leaves as
    it is.  A theorem that reads a repaired quantity assumes that the
    quantity is [in_exact_range]. *)
Definition series_abs (s : Series) : Result Series :=
  mapM (fun v => x ← to_float v; mret (VNum (PrimFloat.abs x))) s.

(** [a * b], element by element, in binary64.  This is the product of
    pandas when one of the columns is [float64]; on two [int64] columns
    pandas multiplies modulo 2^64, which is the same number as long as the
    operands and the product are integers that binary64 holds (up to
    2^53), and another one beyond.  A string operand raises [TypeError],
    as the product of a string and a float does; the product of a string
    and an integer repeats the string instead, and the [TypeError] then
    comes from the comparison of the quantities with zero, in the detector
    that follows.  A theorem that reads a product assumes that its
    operands are [in_exact_range]. *)
Definition series_mul (a b : Series) : Result Series :=
  mapM (fun '(u, v) => x ← to_float u; y ← to_float v; mret (VNum (PrimFloat.mul x y)))
       (zip a b).

(** Python's [==] on two non-null cells. *)
Definition py_eq (u v : Value) : bool :=
  match u, v with
  | VStr s, VStr t => String.eqb s t
  | VStr _, _ | _, VStr _ => false
  | VNull, VNull => true
  | VNull, _ | _, VNull => false
  | _, _ =>
      match to_float u, to_float v with
      | Ok x, Ok y => PrimFloat.eqb x y
      | _, _ => false
      end
  end.

(** [a != b] on object columns: a null on either side compares unequal. *)
Definition value_ne (u v : Value) : bool :=
  if isna u || isna v then true else negb (py_eq u v).

Definition series_ne (a b : Series) : list bool :=
  zip_with value_ne a b.

(** Equality as [drop_duplicates] sees it: two nulls are the same value. *)
Definition same_value (u v : Value) : bool :=
  if isna u && isna v then true
  else if isna u || isna v then false
  else py_eq u v.

Definition mask_or (a b : list bool) : list bool := zip_with orb a b.
Definition mask_and (a b : list bool) : list bool := zip_with andb a b.

(** [mask.sum()]. *)
Definition mask_sum (m : list bool) : nat := length (filter (fun b => b = true) m).

Definition mask_series (m : list bool) : Series := map VBool m.

(** ** Data frames *)

Record DataFrame := {
  index : nat;
  columns : gmap string (list Value)
}.

(** [df[c]]. *)
Definition getitem (df : DataFrame) (c : string) : Result Series :=
  match columns df !! c with
  | Some s => Ok s
  | None => Raise (KeyError c)
  end.

(** [df[c] = s]. *)
Definition setitem (df : DataFrame) (c : string) (s : Series) : DataFrame :=
  {| index := index df; columns := <[c := s]> (columns df) |}.

(** [df[c] = v] for a scalar [v]. *)
Definition setitem_scalar (df : DataFrame) (c : string) (v : Value) : DataFrame :=
  setitem df c (replicate (index df) v).

(** [df.drop(c, axis=1)] for a column that exists. *)
Definition drop_column (df : DataFrame) (c : string) : DataFrame :=
  {| index := index df; columns := delete c (columns df) |}.

(** [df.rename(columns={old: new})]: a column that does not exist is skipped. *)
Definition rename_column (old new : string) (df : DataFrame) : DataFrame :=
  match columns df !! old with
  | Some s => {| index := index df; columns := <[new := s]> (delete old (columns df)) |}
  | None => df
  end.

(** [df.empty]. *)
Definition empty (df : DataFrame) : bool :=
  bool_decide (index df = 0) || bool_decide (columns df = ∅).

(** The cell of column [c] in row [i]. *)
Definition cell (df : DataFrame) (c : string) (i : nat) : option Value :=
  s ← columns df !! c; s !! i.

(** Every column has one cell per row. *)
Definition well_formed (df : DataFrame) : Prop :=
  ∀ c s, columns df !! c = Some s → length s = index df.

(** ** Raw records and [pd.json_normalize] *)

(** The nested [product] mapping.  A field is [None] when its key is absent. *)
Record Product := {
  id : option Value;
  name : option Value;
  category : option Value;
  price : option Value
}.

(** What a record holds under the key [product]: a mapping, or any other
    JSON value (a null, for instance). *)
Inductive ProductField :=
| PMapping (p : Product)
| PScalar (v : Value).

(** One element of the input array.  A field is [None] when its key is
    absent from the JSON object. *)
Record RawRecord := {
  transaction_id : option Value;
  customer_id : option Value;
  product : option ProductField;
  quantity : option Value;
  date : option Value;
  region : option Value
}.

(** The column [json_normalize] builds for one flattened key: it exists when
    at least one record has the key, and a record without it gets a null. *)
Definition column_of {A} (get : A -> option Value) (data : list A) : option Series :=
  if existsb (fun r => bool_decide (is_Some (get r))) data
  then Some (map (fun r => default VNull (get r)) data)
  else None.

Definition add_column (c : string) (s : option Series) (m : gmap string (list Value))
  : gmap string (list Value) :=
  match s with
  | Some s => <[c := s]> m
  | None => m
  end.

(** The key [product] stays a column only for the records where it is not a
    mapping; a mapping is flattened into [product.<key>] columns. *)
Definition product_scalar (r : RawRecord) : option Value :=
  match product r with
  | Some (PScalar v) => Some v
  | _ => None
  end.

Definition product_key (get : Product -> option Value) (r : RawRecord) : option Value :=
  match product r with
  | Some (PMapping p) => get p
  | _ => None
  end.

Definition json_normalize (data : list RawRecord) : DataFrame :=
  {| index := length data;
     columns :=
       add_column "transaction_id" (column_of transaction_id data)
      (add_column "customer_id" (column_of customer_id data)
      (add_column "product" (column_of product_scalar data)
      (add_column "product.id" (column_of (product_key id) data)
      (add_column "product.name" (column_of (product_key name) data)
      (add_column "product.category" (column_of (product_key category) data)
      (add_column "product.price" (column_of (product_key price) data)
      (add_column "quantity" (column_of quantity data)
      (add_column "date" (column_of date data)
      (add_column "region" (column_of region data) ∅))))))))) |}.

(** ** Dates *)

Record datetime := {
  year : nat;
  month : nat;
  day : nat
}.

(** What [date_parser.parse(s, fuzzy=True, ignoretz=True)] does on [s]. *)
Inductive ParseOutcome :=
| Parsed (dt : datetime)
| ParseRaises (e : Exception).

(** The library functions the transform calls. *)
Record Externals := {
  (** [dateutil.parser.parse(s, fuzzy=True, ignoretz=True)] *)
  date_parse : string -> ParseOutcome;
  (** what [pd.to_numeric] reads in a string, if it is numeric *)
  numeric_of_string : string -> option float;
  (** [str(x)] for a number *)
  str_of_float : float -> string;
  (** [pd.to_datetime(v, errors='coerce')] on one cell *)
  to_datetime : Value -> Value
}.

(** Strings are sequences of 8-bit characters.  On the characters of
    ASCII, [is_digit] and [is_space] are the classes [\d] and [\s] of
    Python's regular expressions, and [is_space] is [str.isspace]; Python
    classes further characters of Unicode as digits and as white space
    (the no-break space, for one), which this file does not: a theorem
    that needs the classes of Python on its input assumes that the input
    [is_ascii]. *)
Definition is_digit (c : ascii) : bool :=
  let n := nat_of_ascii c in (48 <=? n)%nat && (n <=? 57)%nat.

(** [str.isspace] on an ASCII character: the tab, the line feed, the
    vertical tab, the form feed, the carriage return, the four separators
    from 28 to 31, and the space. *)
Definition is_space (c : ascii) : bool :=
  let n := nat_of_ascii c in
  ((9 <=? n)%nat && (n <=? 13)%nat) || ((28 <=? n)%nat && (n <=? 32)%nat).

Fixpoint lstrip (s : list ascii) : list ascii :=
  match s with
  | c :: s' => if is_space c then lstrip s' else s
  | [] => []
  end.

(** [s.strip()]. *)
Definition strip (s : string) : string :=
  string_of_list_ascii (rev (lstrip (rev (lstrip (list_ascii_of_string s))))).

(** One attempt of [(\d{2})\s+(\d{2})([-/\s])] at the head of [s]: the
    replacement [\1\2\3] and the number of characters matched.  [\s+] is
    greedy, and giving back a space never helps: the next character would
    be a space where a digit is required. *)
Definition match_split_year (s : list ascii) : option (list ascii * nat) :=
  match s with
  | a :: b :: w :: rest =>
      if is_digit a && is_digit b && is_space w then
        let spaces := S (length rest - length (lstrip rest)) in
        match lstrip rest with
        | c :: d :: e :: _ =>
            if is_digit c && is_digit d
               && (Ascii.eqb e "-" || Ascii.eqb e "/" || is_space e)
            then Some ([a; b; c; d; e], 2 + spaces + 3)
            else None
        | _ => None
        end
      else None
  | _ => None
  end.

(** [re.sub(r'(\d{2})\s+(\d{2})([-/\s])', r'\1\2\3', s)]: matches are found
    from left to right and do not overlap; [skip] counts the characters of
    the last match still to be passed over. *)
Fixpoint sub_split_year (skip : nat) (s : list ascii) : list ascii :=
  match s with
  | [] => []
  | c :: s' =>
      match skip with
      | S k => sub_split_year k s'
      | O =>
          match match_split_year s with
          | Some (repl, n) => repl ++ sub_split_year (pred n) s'
          | None => c :: sub_split_year 0 s'
          end
      end
  end.

(** [re.sub(r'\s+', '-', s)]: [in_run] tells that the previous character
    was a space, whose run already gave its hyphen. *)
Fixpoint sub_spaces (in_run : bool) (s : list ascii) : list ascii :=
  match s with
  | [] => []
  | c :: s' =>
      if is_space c
      then (if in_run then sub_spaces true s' else "-"%char :: sub_spaces true s')
      else c :: sub_spaces false s'
  end.

Definition fix_malformed (s : string) : string :=
  string_of_list_ascii
    (sub_spaces false (sub_split_year 0 (list_ascii_of_string s))).

(** The decimal digit of the units of [n]. *)
Definition digit (n : nat) : ascii :=
  match n mod 10 with
  | 0 => "0" | 1 => "1" | 2 => "2" | 3 => "3" | 4 => "4"
  | 5 => "5" | 6 => "6" | 7 => "7" | 8 => "8" | _ => "9"
  end%char.

(** The last [width] decimal digits of [n]. *)
Fixpoint last_digits (width n : nat) : list ascii :=
  match width with
  | O => []
  | S w => last_digits w (n / 10) ++ [digit n]
  end.

(** [n] in decimal, padded with zeros to [width] digits; a number with
    more digits is written in full. *)
Definition zfill (width n : nat) : string :=
  if (n <? 10 ^ width)%nat then string_of_list_ascii (last_digits width n)
  else NilEmpty.string_of_uint (Nat.to_uint n).

(** The number of decimal digits of [n]; [fuel] bounds the recursion, and
    [n] itself is enough. *)
Fixpoint count_digits (fuel n : nat) : nat :=
  match fuel with
  | O => 1
  | S fuel' => if (n <? 10)%nat then 1 else S (count_digits fuel' (n / 10))
  end.

(** [n] in decimal, without padding. *)
Definition decimal (n : nat) : string :=
  string_of_list_ascii (last_digits (count_digits n n) n).

(** [dt.strftime("%Y-%m-%d")].  The interpreter hands the format to the C
    library, and the one of Linux writes [%Y] without padding (["999"] for
    the year 999); [%m] and [%d] have two digits. *)
Definition strftime_Ymd (dt : datetime) : string :=
  decimal (year dt) +:+ "-" +:+ zfill 2 (month dt) +:+ "-" +:+ zfill 2 (day dt).

(** [str(v)] for a cell that is not null. *)
Definition py_str (E : Externals) (v : Value) : string :=
  match v with
  | VNull => "None"
  | VBool b => if b then "True" else "False"
  | VNum x => str_of_float E x
  | VStr s => s
  end.

Definition is_value_or_type_error (e : Exception) : bool :=
  match e with
  | ValueError | TypeError => true
  | _ => false
  end.

(** [DataTransformer.standardize_date]: the first [try] lets through
    every exception that is neither a [ValueError] nor a [TypeError]; the
    second one catches them all. *)
Definition standardize_date (E : Externals) (date_str : Value) : Result Value :=
  if isna date_str then Ok VNull
  else
    let date_str := strip (py_str E date_str) in
    match date_parse E date_str with
    | Parsed dt => Ok (VStr (strftime_Ymd dt))
    | ParseRaises e =>
        if is_value_or_type_error e then
          let date_str := fix_malformed date_str in
          match date_parse E date_str with
          | Parsed dt => Ok (VStr (strftime_Ymd dt))
          | ParseRaises _ => Ok VNull
          end
        else Raise e
    end.

(** [for x in l: state = f(state, x)], stopping at the first exception. *)
Fixpoint for_each {S A} (f : S -> A -> Result S) (s : S) (l : list A) : Result S :=
  match l with
  | [] => Ok s
  | a :: l' => s' ← f s a; for_each f s' l'
  end.

(** ** DataTransformer *)

Section Transform.
Context (E : Externals).

(** [pd.to_numeric(s, errors='coerce')]. *)
Definition to_numeric (s : Series) : Series :=
  map (fun v =>
         match v with
         | VNull => VNum PrimFloat.nan
         | VBool b => VNum (if b then PrimFloat.one else PrimFloat.zero)
         | VNum x => VNum x
         | VStr t => VNum (default PrimFloat.nan (numeric_of_string E t))
         end) s.

Definition product_cols : list string := ["id"; "name"; "category"; "price"].

(** [f'product_{col}' if col == 'id' or col == 'name' else col]. *)
Definition col_name (col : string) : string :=
  if String.eqb col "id" || String.eqb col "name" then "product_" +:+ col else col.

(** [lambda x: x.get(col, None) if isinstance(x, dict) else None]: a cell of
    the column [product] is never a mapping ([json_normalize] flattens every
    mapping), so the answer is [None]. *)
Definition product_get (col : string) (x : Value) : Value := VNull.

(** The first part of [_initial_prep] (and of Part 1's [transform]):
    flatten the product structure. *)
Definition flatten_product (df : DataFrame) : Result DataFrame :=
  if bool_decide (is_Some (columns df !! "product.id")) then
    Ok (rename_column "product.price" "price"
       (rename_column "product.category" "category"
       (rename_column "product.name" "product_name"
       (rename_column "product.id" "product_id" df))))
  else
    df ← for_each (fun df col =>
                     p ← getitem df "product";
                     mret (setitem df (col_name col) (map (product_get col) p)))
                  df product_cols;
    mret (drop_column df "product").

Definition _initial_prep (data : list RawRecord) : Result DataFrame :=
  let df := json_normalize data in
  df ← flatten_product df;
  c ← getitem df "customer_id";
  let df := setitem df "customer_id" (fillna (VStr "GUEST") c) in
  d ← getitem df "date";
  ds ← mapM (standardize_date E) d;
  let df := setitem df "date_std" ds in
  p ← getitem df "price";
  let df := setitem df "price" (to_numeric p) in
  q ← getitem df "quantity";
  p ← getitem df "price";
  tv ← series_mul q p;
  let df := setitem df "total_value" tv in
  d ← getitem df "date";
  ds ← getitem df "date_std";
  let df := setitem df "had_date_format_issue" (mask_series (series_ne d ds)) in
  mret df.

(** The names [json_normalize] and [_initial_prep] give to columns. *)
Definition prepared_columns : list string :=
  [ "transaction_id"; "customer_id"; "product"; "product.id"; "product.name";
    "product.category"; "product.price"; "quantity"; "date"; "region";
    "product_id"; "product_name"; "category"; "price";
    "date_std"; "total_value"; "had_date_format_issue" ].

(** ** DataQualityChecker *)

Definition _check_missing_customer (df : DataFrame) : Result (DataFrame * nat) :=
  c ← getitem df "customer_id";
  let missing := map isna c in
  let count := mask_sum missing in
  if (0 <? count)%nat then
    let df := setitem df "has_missing_customer" (mask_series missing) in
    c ← getitem df "customer_id";
    let df := setitem df "customer_id" (fillna (VStr "Unknown") c) in
    mret (df, count)
  else mret (df, count).

Definition _check_negative_quantities (df : DataFrame) : Result (DataFrame * nat) :=
  q ← getitem df "quantity";
  negative ← series_lt q PrimFloat.zero;
  let count := mask_sum negative in
  if (0 <? count)%nat then
    let df := setitem df "had_negative_quantity" (mask_series negative) in
    q ← getitem df "quantity";
    a ← series_abs q;
    let df := setitem df "quantity" a in
    mret (df, count)
  else mret (df, count).

(** [series.duplicated(keep=False)]: every cell whose value occurs at least
    twice in the column. *)
Definition duplicated_all (s : Series) : list bool :=
  map (fun v => (2 <=? length (filter (fun u => same_value v u = true) s))%nat) s.

Definition _check_duplicate_transactions (df : DataFrame) : Result (DataFrame * nat) :=
  t ← getitem df "transaction_id";
  let duplicates := duplicated_all t in
  let count := mask_sum duplicates in
  mret (df, count).

Definition _check_missing_product_info (df : DataFrame) : Result (DataFrame * nat) :=
  a ← getitem df "product_id";
  b ← getitem df "product_name";
  c ← getitem df "price";
  let missing := mask_or (mask_or (map isna a) (map isna b)) (map isna c) in
  let count := mask_sum missing in
  mret (df, count).

Definition _check_invalid_prices (df : DataFrame) : Result (DataFrame * nat) :=
  p ← getitem df "price";
  le0 ← series_le p PrimFloat.zero;
  p' ← getitem df "price";
  let invalid := mask_or le0 (map isna p') in
  let count := mask_sum invalid in
  mret (df, count).

Definition _check_date_issues (df : DataFrame) : Result (DataFrame * nat) :=
  ds ← getitem df "date_std";
  d ← getitem df "date";
  let issues := mask_and (map isna ds) (map notna d) in
  let count := mask_sum issues in
  if (0 <? count)%nat then
    let df := setitem df "had_date_format_issue" (mask_series issues) in
    mret (df, count)
  else mret (df, count).

Definition _check_missing_transaction_ids (df : DataFrame) : Result (DataFrame * nat) :=
  t ← getitem df "transaction_id";
  let missing := map isna t in
  let count := mask_sum missing in
  mret (df, count).

(** One row of the mask of [_check_suspicious_values]. *)
Definition suspicious_row (q p tv : float) : bool :=
  PrimFloat.ltb 1000 q || PrimFloat.ltb p 0.01 || PrimFloat.ltb 100000 tv.

Definition _check_suspicious_values (df : DataFrame) : Result (DataFrame * nat) :=
  q ← getitem df "quantity";
  high_q ← series_gt q 1000%float;
  p ← getitem df "price";
  low_p ← series_lt p 0.01%float;
  tv ← getitem df "total_value";
  high_tv ← series_gt tv 100000%float;
  let suspicious := mask_or (mask_or high_q low_p) high_tv in
  let count := mask_sum suspicious in
  if (0 <? count)%nat then
    let df := setitem df "has_suspicious_values" (mask_series suspicious) in
    mret (df, count)
  else mret (df, count).

(** The detectors of [perform_checks], in the order of the calls, each with
    the key its count is stored under. *)
Definition detectors : list (string * (DataFrame -> Result (DataFrame * nat))) :=
  [ ("missing_customer", _check_missing_customer);
    ("negative_quantities", _check_negative_quantities);
    ("duplicate_transactions", _check_duplicate_transactions);
    ("missing_product_info", _check_missing_product_info);
    ("invalid_prices", _check_invalid_prices);
    ("date_issues", _check_date_issues);
    ("missing_transaction_ids", _check_missing_transaction_ids);
    ("suspicious_values", _check_suspicious_values) ].

(** "Initialize quality flag columns". *)
Definition init_flags (df : DataFrame) : DataFrame :=
  let df := setitem_scalar df "has_missing_customer" (VBool false) in
  let df := setitem_scalar df "had_negative_quantity" (VBool false) in
  let df := setitem_scalar df "has_suspicious_values" (VBool false) in
  df.

Definition run_detector (st : DataFrame * list (string * nat))
    (d : string * (DataFrame -> Result (DataFrame * nat)))
  : Result (DataFrame * list (string * nat)) :=
  '(df, count) ← d.2 st.1;
  mret (df, st.2 ++ [(d.1, count)]).

Definition perform_checks (df : DataFrame) : Result (DataFrame * list (string * nat)) :=
  for_each run_detector (init_flags df, []) detectors.

(** The lines of the summary [_log_issues] writes: the categories whose
    count is not zero. *)
Definition _log_issues (issues : list (string * nat)) : list (string * nat) :=
  filter (fun i => (0 < i.2)%nat) issues.

Definition transform (data : list RawRecord) : Result DataFrame :=
  df ← _initial_prep data;
  r ← perform_checks df;
  mret r.1.

(** The frames a run of the detectors goes through: the frame each
    detector leaves, in order. *)
Fixpoint frames_after (ds : list (string * (DataFrame -> Result (DataFrame * nat))))
    (df : DataFrame) : Result (list DataFrame) :=
  match ds with
  | [] => Ok []
  | d :: ds' =>
      r ← d.2 df;
      rest ← frames_after ds' r.1;
      mret (r.1 :: rest)
  end.

(** The frames of one run of [transform]: after [_initial_prep], after the
    initialisation of the flags, and after each of the eight detectors. *)
Definition transform_frames (data : list RawRecord) : Result (list DataFrame) :=
  df ← _initial_prep data;
  rest ← frames_after detectors (init_flags df);
  mret (df :: init_flags df :: rest).

End Transform.

(** ** BatchDataLoader *)

(** A projection ready for loading: its column names and its rows. *)
Record Table := {
  header : list string;
  rows : list (list Value)
}.

(** [df[[c1, ..., cn]]], read row by row. *)
Definition select (df : DataFrame) (cols : list string) : Result Table :=
  ss ← mapM (getitem df) cols;
  mret {| header := cols;
          rows := map (fun i => map (fun s : Series => default VNull (s !! i)) ss)
                      (seq 0 (index df)) |}.

Definition same_row (r1 r2 : list Value) : bool :=
  bool_decide (length r1 = length r2) && forallb (fun uv => same_value uv.1 uv.2) (zip r1 r2).

(** [drop_duplicates()]: the first occurrence of every row is kept. *)
Fixpoint drop_duplicates_from (seen rs : list (list Value)) : list (list Value) :=
  match rs with
  | [] => []
  | r :: rs' =>
      if existsb (same_row r) seen then drop_duplicates_from seen rs'
      else r :: drop_duplicates_from (r :: seen) rs'
  end.

Definition drop_duplicates (t : Table) : Table :=
  {| header := header t; rows := drop_duplicates_from [] (rows t) |}.

(** [dropna()]: rows with a null in any column are dropped. *)
Definition dropna (t : Table) : Table :=
  {| header := header t; rows := filter (fun r => forallb notna r = true) (rows t) |}.

(** [dropna(subset=[c])] for the column at position [k]. *)
Definition dropna_subset (k : nat) (t : Table) : Table :=
  {| header := header t;
     rows := filter (fun r => notna (default VNull (r !! k)) = true) (rows t) |}.

Definition table_empty (t : Table) : bool :=
  bool_decide (length (rows t) = 0) || bool_decide (length (header t) = 0).

(** [df.iloc[i:j]]. *)
Definition iloc (t : Table) (i j : nat) : Table :=
  {| header := header t; rows := take (j - i) (drop i (rows t)) |}.

Definition _prepare_customers_df (df : DataFrame) : Result Table :=
  t ← select df ["customer_id"];
  mret (drop_duplicates (dropna t)).

Definition _prepare_products_df (df : DataFrame) : Result Table :=
  t ← select df ["product_id"; "product_name"; "category"; "price"];
  mret (dropna_subset 0 (drop_duplicates t)).

Definition transaction_columns : list string :=
  [ "transaction_id"; "customer_id"; "product_id"; "quantity";
    "date"; "date_std"; "region"; "total_value";
    "has_missing_customer"; "had_negative_quantity";
    "had_date_format_issue"; "has_suspicious_values" ].

Definition _prepare_transactions_df (E : Externals) (df : DataFrame) : Result Table :=
  _ ← select df transaction_columns;
  ds ← getitem df "date_std";
  select (setitem df "date_std" (map (to_datetime E) ds)) transaction_columns.

(** [for i in range(0, stop, step)]: the values [i] takes.  [fuel] bounds
    the number of iterations; [stop] of them are enough for a positive step. *)
Fixpoint range_from (fuel i stop step : nat) : list nat :=
  match fuel with
  | O => []
  | S fuel' => if (i <? stop)%nat then i :: range_from fuel' (i + step) stop step else []
  end.

(** [range(0, stop, step)] for a [stop] that is not negative: a negative
    step gives no value. *)
Definition py_range (stop : nat) (step : Z) : Result (list nat) :=
  if (step =? 0)%Z then Raise ValueError
  else if (step <? 0)%Z then Ok []
  else Ok (range_from stop 0 stop (Z.to_nat step)).

(** [a // b]. *)
Definition floor_div (a b : Z) : Result Z :=
  if (b =? 0)%Z then Raise ZeroDivisionError else Ok (a / b)%Z.

(** The end [j] of a slice [i:j] of [n] rows: a negative end counts from
    the last row. *)
Definition slice_end (n : nat) (j : Z) : nat :=
  if (j <? 0)%Z then Z.to_nat (Z.of_nat n + j) else Z.to_nat j.

(** One call of [to_sql(name=..., if_exists='append')]. *)
Record WriteCall := {
  target : string;
  batch : Table
}.

Section Loader.
(** The state of the database server, and what one append of a batch does
    to it: the new state, and whether the write raised. *)
Context {DB : Type}.
Context (to_sql : DB -> string -> Table -> DB * Result ()).

(** The database, and the writes issued so far, the failed one included. *)
Record LoadState := {
  db : DB;
  calls : list WriteCall
}.

Definition issue (table_name : string) (b : Table) (st : LoadState)
  : LoadState * Result () :=
  let '(db', r) := to_sql (db st) table_name b in
  ({| db := db'; calls := calls st ++ [{| target := table_name; batch := b |}] |}, r).

(** The loop of [_load_table_in_batches]: an exception of [to_sql] is
    logged and raised again, which ends the loop. *)
Fixpoint load_batches (t : Table) (table_name : string) (batch_size : Z)
    (starts : list nat) (st : LoadState) : LoadState * Result () :=
  match starts with
  | [] => (st, Ok ())
  | i :: starts' =>
      let batch_df :=
        iloc t i (slice_end (length (rows t)) (Z.of_nat i + batch_size)) in
      match issue table_name batch_df st with
      | (st', Ok _) => load_batches t table_name batch_size starts' st'
      | (st', Raise e) => (st', Raise e)
      end
  end.

(** [_load_table_in_batches].  The batch size is whatever integer the
    caller gave: with zero the division raises [ZeroDivisionError]; with
    a negative one the range is empty and nothing is written. *)
Definition _load_table_in_batches (t : Table) (table_name : string)
    (batch_size : Z) (st : LoadState) : LoadState * Result () :=
  if table_empty t then (st, Ok ())
  else
    let total_rows := length (rows t) in
    match floor_div (Z.of_nat total_rows + batch_size - 1) batch_size with
    | Raise e => (st, Raise e)
    | Ok batches =>
        match py_range total_rows batch_size with
        | Raise e => (st, Raise e)
        | Ok starts => load_batches t table_name batch_size starts st
        end
    end.

(** The body of the [try] of [load_with_batch_processing]. *)
Definition load_tables (E : Externals) (df : DataFrame) (batch_size : Z)
    (st : LoadState) : LoadState * Result () :=
  match _prepare_customers_df df with
  | Raise e => (st, Raise e)
  | Ok customers_df =>
  match _prepare_products_df df with
  | Raise e => (st, Raise e)
  | Ok products_df =>
  match _prepare_transactions_df E df with
  | Raise e => (st, Raise e)
  | Ok transactions_df =>
  match _load_table_in_batches customers_df "customers" batch_size st with
  | (st, Raise e) => (st, Raise e)
  | (st, Ok _) =>
  match _load_table_in_batches products_df "products" batch_size st with
  | (st, Raise e) => (st, Raise e)
  | (st, Ok _) =>
      _load_table_in_batches transactions_df "transactions" batch_size st
  end end end end end.

(** [load_with_batch_processing]: [engine] is what
    [create_sqlalchemy_engine] returned.  The result is the writes issued,
    the database they leave and the boolean returned. *)
Definition load_with_batch_processing (E : Externals) (df : DataFrame)
    (engine : option DB) (batch_size : Z) : option LoadState * bool :=
  match engine with
  | None => (None, false)
  | Some d =>
      let '(st, r) := load_tables E df batch_size {| db := d; calls := [] |} in
      (Some st, is_ok r)
  end.

End Loader.

(** The row of the Transactions projection built from row [i] of [df]. *)
Definition transaction_row (E : Externals) (df : DataFrame) (i : nat) : list Value :=
  map (fun c =>
         let v := default VNull (cell df c i) in
         if String.eqb c "date_std" then to_datetime E v else v)
      transaction_columns.

(** ** Canonical dates, in the words of the specification *)


(** The canonical form [YYYY-MM-DD]. *)
Definition is_canonical_date (s : string) : bool :=
  match list_ascii_of_string s with
  | [y1; y2; y3; y4; s1; m1; m2; s2; d1; d2] =>
      forallb is_digit [y1; y2; y3; y4; m1; m2; d1; d2]
      && Ascii.eqb s1 "-" && Ascii.eqb s2 "-"
  | _ => false
  end.


(** ** The batch plan, in the words of the specification

    The definitions of this section do not come from the code: they say
    what the specification asks of the loader, and the loader of the code
    is compared with them below. *)

(** [ceil(n / batch_size)]. *)
Definition ceil_div (n b : nat) : nat := ((n + b - 1) / b)%nat.

(** The consecutive chunks of [batch_size] rows of a table. *)
Definition chunks (t : Table) (batch_size : nat) : list Table :=
  map (fun k => iloc t (k * batch_size) (k * batch_size + batch_size))
      (seq 0 (ceil_div (length (rows t)) batch_size)).

(** One append write per chunk, in ascending order. *)
Definition chunk_writes (table_name : string) (t : Table) (batch_size : nat)
  : list WriteCall :=
  map (fun b => {| target := table_name; batch := b |}) (chunks t batch_size).

(** The writes of a list are issued in order; the first one that fails is
    the last one issued. *)
Fixpoint issue_in_order {DB : Type} (to_sql : DB -> string -> Table -> DB * Result ())
    (ws : list WriteCall) (st : LoadState) : LoadState * Result () :=
  match ws with
  | [] => (st, Ok ())
  | w :: ws' =>
      match issue to_sql (target w) (batch w) st with
      | (st', Ok _) => issue_in_order to_sql ws' st'
      | (st', Raise e) => (st', Raise e)
      end
  end.

(** ** DatabaseManager *)

(** The statements the pipelines send to the server. *)
Inductive Statement :=
| CreateDatabase (database : string)
| CreateDatabaseIfNotExists (database : string)
| CreateTableIfNotExists (table : string)
| CreateIndex (index_name table column : string)
| DeleteFrom (table : string).

(** What [mysql.connector.connect] does: it returns a connection, with the
    answer of its [is_connected()], or it raises an [Error], whose message
    holds ["Unknown database"] or not. *)
Inductive ConnectOutcome :=
| Connection (is_connected : bool)
| ConnectError (unknown_database : bool).

(** A call returns, or it exceeds the recursion limit of the interpreter:
    the [RecursionError] is no [Error] of the connector, and no handler of
    these functions catches it. *)
Inductive Attempt (A : Type) :=
| Returned (a : A)
| RecursionError.
Arguments Returned {A} a.
Arguments RecursionError {A}.

Section DatabaseManager.
Context {Server : Type}.
(** [mysql.connector.connect(host, database, user, password)], with the
    database or without one *)
Context (connect : Server -> option string -> ConnectOutcome).
(** [cursor.execute(statement)]: the new state of the server, and whether
    the statement was executed ([false]: it raised an [Error]) *)
Context (execute : Server -> Statement -> Server * bool).
(** [conn.commit()] *)
Context (commit : Server -> Server * bool).

(** [DatabaseManager._create_database]: every [Error] is logged and
    dropped. *)
Definition _create_database (s : Server) (database : string) : Server :=
  match connect s None with
  | Connection true => (execute s (CreateDatabaseIfNotExists database)).1
  | Connection false => s
  | ConnectError _ => s
  end.

(** [DatabaseManager.create_connection]: [depth] is the number of calls the
    recursion limit still allows; the result is the state of the server and
    the connection, if one was made. *)
Fixpoint create_connection (depth : nat) (s : Server) (database : string)
  : Attempt (Server * option ()) :=
  match depth with
  | O => RecursionError
  | S depth' =>
      match connect s (Some database) with
      | Connection true => Returned (s, Some ())
      | Connection false => Returned (s, None)
      | ConnectError true =>
          create_connection depth' (_create_database s database) database
      | ConnectError false => Returned (s, None)
      end
  end.

Definition schema_commands : list Statement :=
  [ CreateTableIfNotExists "customers";
    CreateTableIfNotExists "products";
    CreateTableIfNotExists "transactions" ].

Definition index_commands : list Statement :=
  [ CreateIndex "idx_transactions_region" "transactions" "region";
    CreateIndex "idx_transactions_date_std" "transactions" "date_std";
    CreateIndex "idx_transactions_product_id" "transactions" "product_id" ].

(** [for command in commands: cursor.execute(command)]: the first [Error]
    ends the loop. *)
Fixpoint execute_each (commands : list Statement) (s : Server) : Server * bool :=
  match commands with
  | [] => (s, true)
  | command :: commands' =>
      match execute s command with
      | (s', true) => execute_each commands' s'
      | (s', false) => (s', false)
      end
  end.

(** [DatabaseManager.create_schema_and_indexes]. *)
Definition create_schema_and_indexes (depth : nat) (s : Server) (database : string)
  : Attempt (Server * bool) :=
  match create_connection depth s database with
  | RecursionError => RecursionError
  | Returned (s, None) => Returned (s, false)
  | Returned (s, Some _) =>
      match execute_each schema_commands s with
      | (s, false) => Returned (s, false)
      | (s, true) =>
          match execute_each index_commands s with
          | (s, false) => Returned (s, false)
          | (s, true) =>
              match commit s with
              | (s, false) => Returned (s, false)
              | (s, true) => Returned (s, true)
              end
          end
      end
  end.

End DatabaseManager.

(** ** DataExtractor *)

(** What [json.load] makes of a file that exists: it raises, or it returns
    the array of records. *)
Inductive FileContent :=
| Malformed
| JsonArray (records : list RawRecord).

(** [DataExtractor.from_json]: a file system maps the paths that exist to
    their content. *)
Definition from_json (fs : gmap string FileContent) (json_file_path : string)
  : list RawRecord :=
  match fs !! json_file_path with
  | None => []
  | Some Malformed => []
  | Some (JsonArray data) => data
  end.

(** ** ETLPipeline *)

Inductive Stage :=
| SchemaSetup
| Extraction
| Transformation
| Loading
| Analytics.

#[global] Instance Stage_eq_dec : EqDecision Stage.
Proof. solve_decision. Defined.

(** What one run did: the stages it entered, the batch writes it issued,
    and how it ended: what [run] returned, the exception of the transform
    that left it, or the [RecursionError] of the schema setup. *)
Record Run := {
  stages : list Stage;
  writes : list WriteCall;
  returned : Attempt (Result bool)
}.

Section Pipeline.
Context {DB : Type}.
Context (E : Externals).
(** [DatabaseManager.create_schema_and_indexes]: it returns, or the
    connection it asks for first is retried up to the recursion limit *)
Context (create_schema_and_indexes : DB -> Attempt (DB * bool)).
(** [DatabaseManager.create_sqlalchemy_engine]: the engine, when one is made *)
Context (create_sqlalchemy_engine : DB -> option DB).
Context (to_sql : DB -> string -> Table -> DB * Result ()).

(** [ETLPipeline.run].  The schema setup is called outside any handler.
    What [run_analytics_queries] returns is not read, and it catches its
    own exceptions: the stage is entered, no more. *)
Definition run (fs : gmap string FileContent) (input_file : string)
    (server : DB) (batch_size : Z) (run_analytics : bool) : Run :=
  match create_schema_and_indexes server with
  | RecursionError =>
      {| stages := [SchemaSetup]; writes := []; returned := RecursionError |}
  | Returned (server, schema_ok) =>
  if negb schema_ok then
    {| stages := [SchemaSetup]; writes := []; returned := Returned (Ok false) |}
  else
    let data := from_json fs input_file in
    if bool_decide (length data = 0) then
      {| stages := [SchemaSetup; Extraction]; writes := [];
         returned := Returned (Ok false) |}
    else
      match transform E data with
      | Raise e =>
          {| stages := [SchemaSetup; Extraction; Transformation];
             writes := []; returned := Returned (Raise e) |}
      | Ok df =>
          if empty df then
            {| stages := [SchemaSetup; Extraction; Transformation];
               writes := []; returned := Returned (Ok false) |}
          else
            let '(st, success) :=
              load_with_batch_processing to_sql E df
                (create_sqlalchemy_engine server) batch_size in
            let ws := from_option calls [] st in
            if negb success then
              {| stages := [SchemaSetup; Extraction; Transformation; Loading];
                 writes := ws; returned := Returned (Ok false) |}
            else if run_analytics then
              {| stages := [SchemaSetup; Extraction; Transformation; Loading; Analytics];
                 writes := ws; returned := Returned (Ok true) |}
            else
              {| stages := [SchemaSetup; Extraction; Transformation; Loading];
                 writes := ws; returned := Returned (Ok true) |}
      end
  end.

End Pipeline.

(** The value of a result that is [Ok], and [d] otherwise. *)
Definition ok_value {A} (d : A) (r : Result A) : A :=
  match r with Ok a => a | Raise _ => d end.

Definition empty_frame : DataFrame := {| index := 0; columns := ∅ |}.

Definition empty_table : Table := {| header := []; rows := [] |}.

(** ** Sample collaborators and inputs

    The closed examples below need the library functions at a few strings.
    [sample_date_parse] is a table of what dateutil's parser does on the
    date strings of these examples: ["2023-01-05"], ["2023/01/05"] and
    ["2023-07-22"] are read as written; ["08335394550"] is read as a year
    beyond the range of a C [int], on which [datetime.replace] raises
    [OverflowError]; ["20 23-07-22"], ["not a date"] and ["not-a-date"]
    are not read by it, which is a [ParserError], a [ValueError].  Every
    other string gets that last answer too: the table says nothing of
    dateutil there, and no example reads it there. *)

Definition sample_date_parse (s : string) : ParseOutcome :=
  if String.eqb s "2023-01-05" || String.eqb s "2023/01/05"
  then Parsed {| year := 2023; month := 1; day := 5 |}
  else if String.eqb s "2023-07-22"
  then Parsed {| year := 2023; month := 7; day := 22 |}
  else if String.eqb s "08335394550"
  then ParseRaises OverflowError
  else ParseRaises ValueError.

Definition sample_externals : Externals :=
  {| date_parse := sample_date_parse;
     numeric_of_string := fun _ => None;
     str_of_float := fun _ => "nan";
     to_datetime := fun v => v |}.


(** The record of the end-to-end scenario:
    [{"transaction_id":"T001","customer_id":null,
      "product":{"id":"P01","name":"Mouse","category":"Accessories","price":25.0},
      "quantity":-3,"date":"2023-01-05","region":"North"}]. *)
Definition scenario_record : RawRecord :=
  {| transaction_id := Some (VStr "T001");
     customer_id := Some VNull;
     product := Some (PMapping {| id := Some (VStr "P01");
                                  name := Some (VStr "Mouse");
                                  category := Some (VStr "Accessories");
                                  price := Some (VNum 25.0) |});
     quantity := Some (VNum (-3));
     date := Some (VStr "2023-01-05");
     region := Some (VStr "North") |}.

(** The transformed table of the scenario, and its three projections. *)
Definition scenario_frame : DataFrame :=
  ok_value empty_frame (transform sample_externals [scenario_record]).
Definition scenario_customers : Table :=
  ok_value empty_table (_prepare_customers_df scenario_frame).
Definition scenario_products : Table :=
  ok_value empty_table (_prepare_products_df scenario_frame).
Definition scenario_transactions : Table :=
  ok_value empty_table (_prepare_transactions_df sample_externals scenario_frame).

(** A database that accepts every write and records nothing. *)
Definition accept_all : () -> string -> Table -> () * Result () :=
  fun d _ _ => (d, Ok ()).

(** A complete record with the quantity [q] and the price [p]. *)
Definition priced_record (q p : float) : RawRecord :=
  {| transaction_id := Some (VStr "T001");
     customer_id := Some (VStr "C001");
     product := Some (PMapping {| id := Some (VStr "P01");
                                  name := Some (VStr "Mouse");
                                  category := Some (VStr "Accessories");
                                  price := Some (VNum p) |});
     quantity := Some (VNum q);
     date := Some (VStr "2023-01-05");
     region := Some (VStr "North") |}.

(** A complete record whose date is [d]. *)
Definition dated_record (d : Value) : RawRecord :=
  {| transaction_id := Some (VStr "T002");
     customer_id := Some (VStr "C001");
     product := Some (PMapping {| id := Some (VStr "P01");
                                  name := Some (VStr "Mouse");
                                  category := Some (VStr "Accessories");
                                  price := Some (VNum 25.0) |});
     quantity := Some (VNum 2);
     date := Some d;
     region := Some (VStr "North") |}.

(** A record with no key [product]:
    [{"transaction_id":"T003","customer_id":"C001","quantity":1,
      "date":"2023-01-05","region":"North"}]. *)
Definition no_product_record : RawRecord :=
  {| transaction_id := Some (VStr "T003");
     customer_id := Some (VStr "C001");
     product := None;
     quantity := Some (VNum 1);
     date := Some (VStr "2023-01-05");
     region := Some (VStr "North") |}.

(** A server on which the schema is created and an engine is made. *)
Definition schema_created : () -> Attempt (() * bool) := fun d => Returned (d, true).
Definition engine_made : () -> option () := fun d => Some d.

(** A database that rejects the writes to the table [products]. *)
Definition reject_products : () -> string -> Table -> () * Result () :=
  fun d table_name _ =>
    (d, if String.eqb table_name "products" then Raise DatabaseError else Ok ()).

(** A string in which no character is white space. *)
Definition no_whitespace (s : string) : bool :=
  forallb (fun c => negb (is_space c)) (list_ascii_of_string s).

(** A string of ASCII characters.  The character classes of this file,
    [is_space] and [is_digit], are those of ASCII; on an ASCII string they
    are Python's [\s] and [\d], which class further characters of Unicode. *)
Definition is_ascii (s : string) : bool :=
  forallb (fun c => (nat_of_ascii c <? 128)%nat) (list_ascii_of_string s).

(** A number on which the binary64 arithmetic of this file is the
    arithmetic of pandas whatever the dtype of the column, [int64] or
    [float64]: a NaN, or a magnitude of at most 2^26, so that integers and
    the products of two of them are exact.  Beyond 2^53 a JSON integer has
    no exact embedding, and [int64] columns wrap around. *)
Definition in_exact_range (x : float) : bool :=
  PrimFloat.is_nan x || PrimFloat.leb (PrimFloat.abs x) 67108864.

(** The row of the Products projection built from row [i] of [df]. *)
Definition product_row (df : DataFrame) (i : nat) : list Value :=
  map (fun c => default VNull (cell df c i))
      ["product_id"; "product_name"; "category"; "price"].

(** ** Part 1: the transform of [data_pipeline.py]

    The first pipeline has one [transform], with no separate detectors: it
    repairs the quantities row by row, leaves a null customer null, and
    computes [total_value] last. *)

Module Part1.
Section Transform.
Context (E : Externals).

(** [lambda x: abs(x) if isinstance(x, (int, float)) and x < 0 else x]:
    a boolean is an [int] that is not below zero. *)
Definition abs_if_negative (x : Value) : Value :=
  match x with
  | VNum n => if PrimFloat.ltb n PrimFloat.zero then VNum (PrimFloat.abs n) else x
  | _ => x
  end.

Definition transform (data : list RawRecord) : Result DataFrame :=
  let df := json_normalize data in
  df ← flatten_product df;
  d ← getitem df "date";
  ds ← mapM (standardize_date E) d;
  let df := setitem df "standardized_date" ds in
  p ← getitem df "price";
  let df := setitem df "price" (to_numeric E p) in
  q ← getitem df "quantity";
  let df := setitem df "original_quantity" q in
  q ← getitem df "quantity";
  let df := setitem df "quantity" (map abs_if_negative q) in
  c ← getitem df "customer_id";
  let df := setitem df "has_missing_customer" (mask_series (map isna c)) in
  oq ← getitem df "original_quantity";
  negative ← series_lt oq PrimFloat.zero;
  let df := setitem df "had_negative_quantity" (mask_series negative) in
  d ← getitem df "date";
  ds ← getitem df "standardized_date";
  let df := setitem df "had_date_format_issue" (mask_series (series_ne d ds)) in
  q ← getitem df "quantity";
  p ← getitem df "price";
  tv ← series_mul q p;
  let df := setitem df "total_value" tv in
  let df := rename_column "standardized_date" "date_std" df in
  let df := if bool_decide (is_Some (columns df !! "original_quantity"))
            then drop_column df "original_quantity" else df in
  mret df.

End Transform.

Section DatabaseManager.
Context {Server : Type}.
Context (connect : Server -> option string -> ConnectOutcome).
Context (execute : Server -> Statement -> Server * bool).

(** Part 1's [DatabaseManager.create_connection]: the database is created
    in the handler, and the connection is tried again only after the
    [CREATE DATABASE] was executed. *)
Fixpoint create_connection (depth : nat) (s : Server) (database : string)
  : Attempt (Server * option ()) :=
  match depth with
  | O => RecursionError
  | S depth' =>
      match connect s (Some database) with
      | Connection true => Returned (s, Some ())
      | Connection false => Returned (s, None)
      | ConnectError true =>
          match connect s None with
          | Connection true =>
              match execute s (CreateDatabase database) with
              | (s', true) => create_connection depth' s' database
              | (s', false) => Returned (s', None)
              end
          | Connection false => Returned (s, None)
          | ConnectError _ => Returned (s, None)
          end
      | ConnectError false => Returned (s, None)
      end
  end.

End DatabaseManager.

(** The columns of the table [sales], in the order of the [INSERT]. *)
Definition sales_columns : list string :=
  [ "transaction_id"; "customer_id"; "product_id"; "product_name"; "category";
    "price"; "quantity"; "date"; "date_std"; "region"; "total_value";
    "has_missing_customer"; "had_negative_quantity"; "had_date_format_issue" ].

(** [DataLoader._prepare_data_for_insertion]: one tuple
    [tuple(row[col] for col in columns)] per row; a frame without rows
    gives no tuple, and looks no column up. *)
Definition _prepare_data_for_insertion (df : DataFrame) : Result (list (list Value)) :=
  if bool_decide (index df = 0) then Ok []
  else
    t ← select df sales_columns;
    mret (rows t).

Section Pipeline.
Context {Server : Type}.
Context (E : Externals).
Context (connect : Server -> option string -> ConnectOutcome).
Context (execute : Server -> Statement -> Server * bool).
(** [cursor.executemany(insert_sql, data_values)] *)
Context (executemany : Server -> list (list Value) -> Server * bool).
Context (commit : Server -> Server * bool).

(** [DataLoader.to_mysql]: an [Error] of the connector gives [False]; any
    other exception leaves the function. *)
Definition to_mysql (depth : nat) (s : Server) (database : string) (df : DataFrame)
  : Attempt (Server * Result bool) :=
  match create_connection connect execute depth s database with
  | RecursionError => RecursionError
  | Returned (s, None) => Returned (s, Ok false)
  | Returned (s, Some _) =>
      match execute s (CreateTableIfNotExists "sales") with
      | (s, false) => Returned (s, Ok false)
      | (s, true) =>
          match execute s (DeleteFrom "sales") with
          | (s, false) => Returned (s, Ok false)
          | (s, true) =>
              match _prepare_data_for_insertion df with
              | Raise e => Returned (s, Raise e)
              | Ok data_values =>
                  match executemany s data_values with
                  | (s, false) => Returned (s, Ok false)
                  | (s, true) =>
                      match commit s with
                      | (s, false) => Returned (s, Ok false)
                      | (s, true) => Returned (s, Ok true)
                      end
                  end
              end
          end
      end
  end.

(** Part 1's [ETLPipeline.run]. *)
Definition run (fs : gmap string FileContent) (input_file : string)
    (depth : nat) (s : Server) (database : string) : Attempt (Server * Result bool) :=
  let data := from_json fs input_file in
  if bool_decide (length data = 0) then Returned (s, Ok false)
  else
    match transform E data with
    | Raise e => Returned (s, Raise e)
    | Ok df =>
        if empty df then Returned (s, Ok false)
        else to_mysql depth s database df
    end.

End Pipeline.
End Part1.

(** ** A sample server

    A server that knows a list of databases and a list of indexes: a
    database that is not in the list is unknown; [CREATE DATABASE] and
    [CREATE INDEX] fail on a name that exists. *)

Record SampleServer := {
  databases : list string;
  indexes : list string
}.

Definition sample_connect (s : SampleServer) (database : option string)
  : ConnectOutcome :=
  match database with
  | None => Connection true
  | Some d => if bool_decide (d ∈ databases s) then Connection true
              else ConnectError true
  end.

Definition sample_execute (s : SampleServer) (c : Statement) : SampleServer * bool :=
  match c with
  | CreateDatabase d =>
      if bool_decide (d ∈ databases s) then (s, false)
      else ({| databases := d :: databases s; indexes := indexes s |}, true)
  | CreateDatabaseIfNotExists d =>
      if bool_decide (d ∈ databases s) then (s, true)
      else ({| databases := d :: databases s; indexes := indexes s |}, true)
  | CreateTableIfNotExists _ => (s, true)
  | DeleteFrom _ => (s, true)
  | CreateIndex i _ _ =>
      if bool_decide (i ∈ indexes s) then (s, false)
      else ({| databases := databases s; indexes := i :: indexes s |}, true)
  end.

Definition sample_commit (s : SampleServer) : SampleServer * bool := (s, true).

Definition sample_has_index (s : SampleServer) (i : string) : bool :=
  bool_decide (i ∈ indexes s).

(** The sample server after one schema setup. *)
Definition sample_server_set_up : SampleServer :=
  {| databases := ["sales_db"];
     indexes := ["idx_transactions_product_id"; "idx_transactions_date_std";
                 "idx_transactions_region"] |}.

(** A server on which the database is unknown and cannot be created. *)
Definition no_database_connect (s : ()) (database : option string) : ConnectOutcome :=
  match database with
  | None => ConnectError false
  | Some _ => ConnectError true
  end.



(** A record with no key [region], and one with no key [customer_id]. *)
Definition regionless_record : RawRecord :=
  {| transaction_id := Some (VStr "T004");
     customer_id := Some (VStr "C001");
     product := Some (PMapping {| id := Some (VStr "P01");
                                  name := Some (VStr "Mouse");
                                  category := Some (VStr "Accessories");
                                  price := Some (VNum 25.0) |});
     quantity := Some (VNum 2);
     date := Some (VStr "2023-01-05");
     region := None |}.

Definition anonymous_record : RawRecord :=
  {| transaction_id := Some (VStr "T005");
     customer_id := None;
     product := Some (PMapping {| id := Some (VStr "P01");
                                  name := Some (VStr "Mouse");
                                  category := Some (VStr "Accessories");
                                  price := Some (VNum 25.0) |});
     quantity := Some (VNum 2);
     date := Some (VStr "2023-01-05");
     region := Some (VStr "North") |}.

(** * Properties *)

(** ** Results *)

Lemma bind_Ok {A B} (m : Result A) (f : A -> Result B) (b : B) :
  m ≫= f = Ok b ↔ ∃ a, m = Ok a ∧ f a = Ok b.
Proof.
  destruct m as [a|e]; simpl; split.
  - intros H. exists a. done.
  - intros (a' & [= <-] & H). done.
  - intros H. discriminate H.
  - intros (a' & H & _). discriminate H.
Qed.

Lemma bind_Raise {A B} (m : Result A) (f : A -> Result B) (e : Exception) :
  m = Raise e → m ≫= f = Raise e.
Proof. intros ->. done. Qed.

Lemma ok_value_eq {A} (d : A) (r : Result A) : is_ok r = true → r = Ok (ok_value d r).
Proof. by destruct r. Qed.

Lemma lookup_default_eq {A} (d : A) (l : list A) i :
  (i <? length l)%nat = true → l !! i = Some (default d (l !! i)).
Proof.
  intros H. apply Nat.ltb_lt in H. destruct (lookup_lt_is_Some_2 l i H) as [x ->]. done.
Qed.

(** Splits a hypothesis [m ≫= f = Ok b] into its two steps. *)
Ltac inv_bind H :=
  let a := fresh "a" in
  let H1 := fresh H "_l" in
  apply bind_Ok in H as (a & H1 & H).

Ltac inv_ok :=
  repeat match goal with
  | H : _ ≫= _ = Ok _ |- _ => inv_bind H
  | H : mret _ = Ok _ |- _ => injection H as H
  | H : Ok _ = Ok _ |- _ => injection H as H
  | H : Raise _ = Ok _ |- _ => discriminate H
  end.

(** Chooses the frame at a position of a list of frames written out. *)
Ltac pick_frame i Hi :=
  destruct i as [|[|[|[|[|[|[|[|[|[|i]]]]]]]]]];
  simpl in Hi; try discriminate Hi; injection Hi as <-.

(** Proves that a string is not in a list of strings written out. *)
Ltac not_in_list :=
  rewrite ?not_elem_of_cons; repeat split; try discriminate; apply not_elem_of_nil.

Lemma mapM_Ok_length {A B} (f : A -> Result B) (l : list A) (k : list B) :
  mapM f l = Ok k → length k = length l.
Proof.
  revert k. induction l as [|x l IH]; intros k H; simpl in H.
  - injection H as <-. done.
  - inv_bind H. inv_bind H. injection H as <-. simpl. f_equal. by apply IH.
Qed.

Lemma mapM_Ok_lookup {A B} (f : A -> Result B) (l : list A) (k : list B) i x :
  mapM f l = Ok k → l !! i = Some x → ∃ y, f x = Ok y ∧ k !! i = Some y.
Proof.
  revert k i. induction l as [|x' l IH]; intros k i H Hi; [done|].
  simpl in H. inv_bind H. inv_bind H. injection H as <-.
  destruct i as [|i]; simpl in Hi.
  - injection Hi as ->. eexists. split; [done|]. done.
  - simpl. by eapply IH.
Qed.

(** ** Masks *)

Lemma mask_sum_0 (m : list bool) i b :
  mask_sum m = 0 → m !! i = Some b → b = false.
Proof.
  unfold mask_sum. revert i. induction m as [|c m IH]; intros i H Hi; [done|].
  rewrite filter_cons in H. destruct c; simpl in H.
  - discriminate H.
  - destruct i; simpl in Hi; [by injection Hi as <-|].
    by eapply IH.
Qed.

Lemma mask_series_lookup (m : list bool) i :
  mask_series m !! i = VBool <$> m !! i.
Proof. unfold mask_series. apply list_lookup_fmap. Qed.

(** ** Columns of a frame *)

Lemma cell_setitem_eq df c s i : cell (setitem df c s) c i = s !! i.
Proof. unfold cell, setitem. simpl. by rewrite lookup_insert_eq. Qed.

Lemma columns_setitem_ne df c c' s :
  c ≠ c' → columns (setitem df c s) !! c' = columns df !! c'.
Proof. intros H. unfold setitem. simpl. by rewrite lookup_insert_ne. Qed.

Lemma columns_setitem_eq df c s : columns (setitem df c s) !! c = Some s.
Proof. unfold setitem. simpl. by rewrite lookup_insert_eq. Qed.

Lemma getitem_Ok df c s : getitem df c = Ok s ↔ columns df !! c = Some s.
Proof.
  unfold getitem. destruct (columns df !! c); split; intros H; try done.
  - by injection H as ->.
  - by injection H as ->.
Qed.

Lemma index_setitem df c s : index (setitem df c s) = index df.
Proof. done. Qed.

(** ** What each detector does to the frame *)

Section DetectorFacts.
Context (E : Externals).

Lemma _check_missing_customer_inv df df' n :
  _check_missing_customer df = Ok (df', n) →
  ∃ c, columns df !! "customer_id" = Some c ∧ n = mask_sum (map isna c) ∧
       df' = if (0 <? n)%nat
             then setitem (setitem df "has_missing_customer" (mask_series (map isna c)))
                          "customer_id" (fillna (VStr "Unknown") c)
             else df.
Proof.
  unfold _check_missing_customer. intros H. inv_bind H.
  apply getitem_Ok in H_l. exists a. split; [done|].
  destruct (0 <? mask_sum (map isna a))%nat eqn:Hc.
  - inv_bind H. injection H as <- <-. rewrite Hc.
    apply getitem_Ok in H_l0. rewrite columns_setitem_ne in H_l0 by done.
    rewrite H_l in H_l0. injection H_l0 as <-. done.
  - injection H as <- <-. by rewrite Hc.
Qed.

Lemma _check_negative_quantities_inv df df' n :
  _check_negative_quantities df = Ok (df', n) →
  ∃ q negative,
    columns df !! "quantity" = Some q ∧
    series_lt q PrimFloat.zero = Ok negative ∧ n = mask_sum negative ∧
    ((0 <? n)%nat = false ∧ df' = df ∨
     (0 <? n)%nat = true ∧ ∃ a, series_abs q = Ok a ∧
       df' = setitem (setitem df "had_negative_quantity" (mask_series negative))
                     "quantity" a).
Proof.
  unfold _check_negative_quantities. intros H. inv_bind H. inv_bind H.
  apply getitem_Ok in H_l. exists a, a0. split; [done|]. split; [done|].
  destruct (0 <? mask_sum a0)%nat eqn:Hc.
  - inv_bind H. inv_bind H. injection H as <- <-. split; [done|]. right.
    split; [done|].
    apply getitem_Ok in H_l1. rewrite columns_setitem_ne in H_l1 by done.
    rewrite H_l in H_l1. injection H_l1 as <-. by exists a2.
  - injection H as <- <-. split; [done|]. by left.
Qed.

Lemma _check_duplicate_transactions_inv df df' n :
  _check_duplicate_transactions df = Ok (df', n) → df' = df.
Proof.
  unfold _check_duplicate_transactions. intros H. inv_bind H. by injection H as <- _.
Qed.

Lemma _check_missing_product_info_inv df df' n :
  _check_missing_product_info df = Ok (df', n) → df' = df.
Proof.
  unfold _check_missing_product_info. intros H. do 3 inv_bind H. by injection H as <- _.
Qed.

Lemma _check_invalid_prices_inv df df' n :
  _check_invalid_prices df = Ok (df', n) → df' = df.
Proof.
  unfold _check_invalid_prices. intros H. do 3 inv_bind H. by injection H as <- _.
Qed.

Lemma _check_missing_transaction_ids_inv df df' n :
  _check_missing_transaction_ids df = Ok (df', n) → df' = df.
Proof.
  unfold _check_missing_transaction_ids. intros H. inv_bind H. by injection H as <- _.
Qed.

Lemma _check_date_issues_inv df df' n :
  _check_date_issues df = Ok (df', n) →
  ∃ ds d, columns df !! "date_std" = Some ds ∧ columns df !! "date" = Some d ∧
    n = mask_sum (mask_and (map isna ds) (map notna d)) ∧
    df' = if (0 <? n)%nat
          then setitem df "had_date_format_issue"
                       (mask_series (mask_and (map isna ds) (map notna d)))
          else df.
Proof.
  unfold _check_date_issues. intros H. inv_bind H. inv_bind H.
  apply getitem_Ok in H_l, H_l0. exists a, a0. split; [done|]. split; [done|].
  destruct (0 <? _)%nat eqn:Hc; injection H as <- <-; by rewrite Hc.
Qed.

Lemma _check_suspicious_values_inv df df' n :
  _check_suspicious_values df = Ok (df', n) →
  ∃ q p tv high_q low_p high_tv,
    columns df !! "quantity" = Some q ∧ columns df !! "price" = Some p ∧
    columns df !! "total_value" = Some tv ∧
    series_gt q 1000%float = Ok high_q ∧ series_lt p 0.01%float = Ok low_p ∧
    series_gt tv 100000%float = Ok high_tv ∧
    n = mask_sum (mask_or (mask_or high_q low_p) high_tv) ∧
    df' = if (0 <? n)%nat
          then setitem df "has_suspicious_values"
                       (mask_series (mask_or (mask_or high_q low_p) high_tv))
          else df.
Proof.
  unfold _check_suspicious_values. intros H. do 6 inv_bind H.
  apply getitem_Ok in H_l, H_l1, H_l3.
  exists a, a1, a3, a0, a2, a4. do 6 (split; [done|]).
  destruct (0 <? _)%nat eqn:Hc; injection H as <- <-; by rewrite Hc.
Qed.

(** The run of the eight detectors, one at a time. *)
Lemma perform_checks_inv df df' issues :
  perform_checks df = Ok (df', issues) →
  ∃ f1 f2 f3 f4 f5 f6 f7 n1 n2 n3 n4 n5 n6 n7 n8,
    _check_missing_customer (init_flags df) = Ok (f1, n1) ∧
    _check_negative_quantities f1 = Ok (f2, n2) ∧
    _check_duplicate_transactions f2 = Ok (f3, n3) ∧
    _check_missing_product_info f3 = Ok (f4, n4) ∧
    _check_invalid_prices f4 = Ok (f5, n5) ∧
    _check_date_issues f5 = Ok (f6, n6) ∧
    _check_missing_transaction_ids f6 = Ok (f7, n7) ∧
    _check_suspicious_values f7 = Ok (df', n8).
Proof.
  unfold perform_checks, detectors. simpl. unfold run_detector. simpl.
  intros H.
  repeat match goal with
  | H : _ ≫= _ = Ok _ |- _ => inv_bind H
  | a : (DataFrame * nat)%type |- _ => destruct a; simpl in *
  | a : (DataFrame * list (string * nat))%type |- _ => destruct a; simpl in *
  | H : mret _ = Ok _ |- _ => injection H as <- <-
  | H : Ok _ = Ok _ |- _ => injection H as <- <-
  end.
  repeat eexists; eassumption.
Qed.

Lemma frames_after_detectors_inv df frames :
  frames_after detectors df = Ok frames →
  ∃ f1 f2 f3 f4 f5 f6 f7 f8 n1 n2 n3 n4 n5 n6 n7 n8,
    _check_missing_customer df = Ok (f1, n1) ∧
    _check_negative_quantities f1 = Ok (f2, n2) ∧
    _check_duplicate_transactions f2 = Ok (f3, n3) ∧
    _check_missing_product_info f3 = Ok (f4, n4) ∧
    _check_invalid_prices f4 = Ok (f5, n5) ∧
    _check_date_issues f5 = Ok (f6, n6) ∧
    _check_missing_transaction_ids f6 = Ok (f7, n7) ∧
    _check_suspicious_values f7 = Ok (f8, n8) ∧
    frames = [f1; f2; f3; f4; f5; f6; f7; f8].
Proof.
  unfold detectors. simpl. intros H.
  repeat match goal with
  | H : _ ≫= _ = Ok _ |- _ => inv_bind H
  | a : (DataFrame * nat)%type |- _ => destruct a; simpl in *
  | H : mret _ = Ok _ |- _ => injection H as <-
  | H : Ok _ = Ok _ |- _ => injection H as <-
  end.
  repeat eexists; eassumption.
Qed.

End DetectorFacts.

(** ** Well-formed frames *)

Lemma well_formed_setitem df c s :
  well_formed df → length s = index df → well_formed (setitem df c s).
Proof.
  intros Hwf Hs c' s'. unfold setitem. simpl.
  rewrite lookup_insert. case_decide.
  - intros [= <-]. done.
  - apply Hwf.
Qed.

Lemma well_formed_setitem_scalar df c v :
  well_formed df → well_formed (setitem_scalar df c v).
Proof. intros Hwf. apply well_formed_setitem; [done|]. apply length_replicate. Qed.

Lemma well_formed_drop_column df c : well_formed df → well_formed (drop_column df c).
Proof.
  intros Hwf c' s'. unfold drop_column. simpl.
  rewrite lookup_delete. case_decide; [done|]. apply Hwf.
Qed.

Lemma well_formed_rename_column old new df :
  well_formed df → well_formed (rename_column old new df).
Proof.
  intros Hwf. unfold rename_column. destruct (columns df !! old) as [s|] eqn:Hs; [|done].
  intros c' s'. simpl. rewrite lookup_insert. case_decide.
  - intros [= <-]. by eapply Hwf.
  - rewrite lookup_delete. case_decide; [done|]. apply Hwf.
Qed.

Lemma column_of_length {A} (get : A -> option Value) data s :
  column_of get data = Some s → length s = length data.
Proof.
  unfold column_of. case_match; [|done]. intros [= <-]. apply length_map.
Qed.

Lemma add_column_lengths n c col (m : gmap string (list Value)) :
  (∀ s, col = Some s → length s = n) →
  (∀ c' s, m !! c' = Some s → length s = n) →
  ∀ c' s, add_column c col m !! c' = Some s → length s = n.
Proof.
  intros Hcol Hm c' s. unfold add_column. destruct col as [s0|]; [|apply Hm].
  rewrite lookup_insert. case_decide; [|apply Hm].
  intros [= <-]. by apply Hcol.
Qed.

Lemma well_formed_json_normalize data : well_formed (json_normalize data).
Proof.
  unfold well_formed, json_normalize. simpl.
  repeat (apply add_column_lengths; [intros s; apply column_of_length|]).
  intros c s. by rewrite lookup_empty.
Qed.

Lemma well_formed_flatten_product df df' :
  well_formed df → flatten_product df = Ok df' → well_formed df' ∧ index df' = index df.
Proof.
  intros Hwf. unfold flatten_product. case_bool_decide.
  - intros [= <-]. split; [by do 4 apply well_formed_rename_column|].
    unfold rename_column. by repeat case_match.
  - unfold product_cols. simpl. intros Hf.
    repeat match goal with
    | H : _ ≫= _ = Ok _ |- _ => inv_bind H
    | H : mret _ = Ok _ |- _ => injection H as <-
    | H : Ok _ = Ok _ |- _ => injection H as <-
    | H : getitem _ _ = Ok _ |- _ => apply getitem_Ok in H
    end.
    change (col_name "id") with "product_id" in *.
    change (col_name "name") with "product_name" in *.
    change (col_name "category") with "category" in *.
    change (col_name "price") with "price" in *.
    repeat match goal with
    | H : columns (setitem _ _ _) !! "product" = Some _ |- _ =>
        rewrite columns_setitem_ne in H by done
    end.
    split; [|done]. apply well_formed_drop_column.
    repeat (apply well_formed_setitem; [|rewrite length_map; by eapply Hwf]). done.
Qed.

Lemma series_mul_length a b r :
  series_mul a b = Ok r → length r = min (length a) (length b).
Proof.
  unfold series_mul. intros H. apply mapM_Ok_length in H. rewrite H.
  apply length_zip_with.
Qed.

Lemma fillna_length v s : length (fillna v s) = length s.
Proof. apply length_map. Qed.

Lemma mask_series_length m : length (mask_series m) = length m.
Proof. apply length_map. Qed.

Lemma mask_or_length a b : length (mask_or a b) = min (length a) (length b).
Proof. apply length_zip_with. Qed.

Lemma mask_and_length a b : length (mask_and a b) = min (length a) (length b).
Proof. apply length_zip_with. Qed.

Lemma compare_scalar_length op s c m :
  compare_scalar op s c = Ok m → length m = length s.
Proof. apply mapM_Ok_length. Qed.

Lemma well_formed_initial_prep E data df :
  _initial_prep E data = Ok df → well_formed df ∧ index df = length data.
Proof.
  unfold _initial_prep. intros H. inv_bind H.
  destruct (well_formed_flatten_product _ _ (well_formed_json_normalize data) H_l)
    as [Hwf Hidx].
  simpl in Hidx.
  repeat match goal with
  | H : _ ≫= _ = Ok _ |- _ => inv_bind H
  end.
  injection H as <-.
  repeat match goal with
  | H : getitem _ _ = Ok _ |- _ => apply getitem_Ok in H
  end.
  assert (Hw1 : well_formed (setitem a "customer_id" (fillna (VStr "GUEST") a0))).
  { apply well_formed_setitem; [done|]. rewrite fillna_length. by eapply Hwf. }
  assert (Hw2 : well_formed (setitem (setitem a "customer_id" (fillna (VStr "GUEST") a0))
                                     "date_std" a2)).
  { apply well_formed_setitem; [done|]. apply mapM_Ok_length in H_l2. rewrite H_l2.
    by eapply Hw1. }
  match goal with
  | H : columns ?d !! "price" = Some a3 |- _ =>
      assert (Hw3 : well_formed (setitem d "price" (to_numeric E a3)))
  end.
  { apply well_formed_setitem; [done|]. unfold to_numeric. rewrite length_map.
    by eapply Hw2. }
  match goal with
  | H : series_mul a4 a5 = Ok ?tv |- _ =>
      match goal with
      | Hq : columns ?d !! "quantity" = Some a4 |- _ =>
          assert (Hw4 : well_formed (setitem d "total_value" tv))
      end
  end.
  { apply well_formed_setitem; [done|]. apply series_mul_length in H_l6.
    rewrite H_l6. rewrite (Hw3 _ _ H_l4), (Hw3 _ _ H_l5). simpl. lia. }
  split; [|done].
  apply well_formed_setitem; [done|]. rewrite mask_series_length.
  unfold series_ne. rewrite length_zip_with.
  rewrite (Hw4 _ _ H_l7), (Hw4 _ _ H_l8). simpl. lia.
Qed.

(** ** The columns each detector leaves alone *)

Lemma _check_missing_customer_other df df' n c :
  _check_missing_customer df = Ok (df', n) →
  c ≠ "has_missing_customer" → c ≠ "customer_id" →
  columns df' !! c = columns df !! c.
Proof.
  intros H H1 H2. apply _check_missing_customer_inv in H as (s & _ & _ & ->).
  case_match; [|done]. by rewrite !columns_setitem_ne.
Qed.

Lemma _check_negative_quantities_other df df' n c :
  _check_negative_quantities df = Ok (df', n) →
  c ≠ "had_negative_quantity" → c ≠ "quantity" →
  columns df' !! c = columns df !! c.
Proof.
  intros H H1 H2.
  apply _check_negative_quantities_inv in H
    as (q & m & _ & _ & _ & [[_ ->]|[_ (a & _ & ->)]]); [done|].
  by rewrite !columns_setitem_ne.
Qed.

Lemma _check_date_issues_other df df' n c :
  _check_date_issues df = Ok (df', n) →
  c ≠ "had_date_format_issue" →
  columns df' !! c = columns df !! c.
Proof.
  intros H H1. apply _check_date_issues_inv in H as (ds & d & _ & _ & _ & ->).
  case_match; [|done]. by rewrite columns_setitem_ne.
Qed.

Lemma _check_suspicious_values_other df df' n c :
  _check_suspicious_values df = Ok (df', n) →
  c ≠ "has_suspicious_values" →
  columns df' !! c = columns df !! c.
Proof.
  intros H H1.
  apply _check_suspicious_values_inv in H
    as (q & p & tv & hq & lp & htv & _ & _ & _ & _ & _ & _ & _ & ->).
  case_match; [|done]. by rewrite columns_setitem_ne.
Qed.

(** ** The detectors keep frames well formed *)

Lemma _check_missing_customer_wf df df' n :
  well_formed df → _check_missing_customer df = Ok (df', n) →
  well_formed df' ∧ index df' = index df.
Proof.
  intros Hwf H. apply _check_missing_customer_inv in H as (s & Hs & _ & ->).
  case_match; [|done]. split; [|done].
  pose proof (Hwf _ _ Hs) as Hlen.
  apply well_formed_setitem; [apply well_formed_setitem; [done|]|].
  - by rewrite mask_series_length, length_map.
  - by rewrite fillna_length.
Qed.

Lemma _check_negative_quantities_wf df df' n :
  well_formed df → _check_negative_quantities df = Ok (df', n) →
  well_formed df' ∧ index df' = index df.
Proof.
  intros Hwf H.
  apply _check_negative_quantities_inv in H
    as (q & m & Hq & Hm & _ & [[_ ->]|[_ (a & Ha & ->)]]); [done|].
  split; [|done]. pose proof (Hwf _ _ Hq) as Hlen.
  apply compare_scalar_length in Hm. apply mapM_Ok_length in Ha.
  apply well_formed_setitem; [apply well_formed_setitem; [done|]|].
  - rewrite mask_series_length. congruence.
  - simpl. congruence.
Qed.

Lemma _check_date_issues_wf df df' n :
  well_formed df → _check_date_issues df = Ok (df', n) →
  well_formed df' ∧ index df' = index df.
Proof.
  intros Hwf H. apply _check_date_issues_inv in H as (ds & d & Hds & Hd & _ & ->).
  case_match; [|done]. split; [|done].
  apply well_formed_setitem; [done|].
  rewrite mask_series_length, mask_and_length, !length_map.
  rewrite (Hwf _ _ Hds), (Hwf _ _ Hd). lia.
Qed.

Lemma _check_suspicious_values_wf df df' n :
  well_formed df → _check_suspicious_values df = Ok (df', n) →
  well_formed df' ∧ index df' = index df.
Proof.
  intros Hwf H.
  apply _check_suspicious_values_inv in H
    as (q & p & tv & hq & lp & htv & Hq & Hp & Htv & Hhq & Hlp & Hhtv & _ & ->).
  case_match; [|done]. split; [|done].
  apply well_formed_setitem; [done|].
  apply compare_scalar_length in Hhq, Hlp, Hhtv.
  rewrite mask_series_length, !mask_or_length, Hhq, Hlp, Hhtv.
  rewrite (Hwf _ _ Hq), (Hwf _ _ Hp), (Hwf _ _ Htv). lia.
Qed.

Lemma well_formed_init_flags df : well_formed df → well_formed (init_flags df).
Proof. intros Hwf. unfold init_flags. by do 3 apply well_formed_setitem_scalar. Qed.

(** ** The frame the detectors hand to the last one *)

Lemma transform_inv E data df :
  transform E data = Ok df →
  ∃ f0 issues, _initial_prep E data = Ok f0 ∧ perform_checks f0 = Ok (df, issues).
Proof.
  unfold transform. intros H. inv_bind H. inv_bind H. injection H as <-.
  destruct a0 as [df' issues]. by exists a, issues.
Qed.

Lemma zip_with_lookup_Some {A B C} (f : A -> B -> C) (l : list A) (k : list B) i x y :
  l !! i = Some x → k !! i = Some y → zip_with f l k !! i = Some (f x y).
Proof. intros Hx Hy. rewrite lookup_zip_with, Hx. simpl. by rewrite Hy. Qed.

Lemma compare_scalar_lookup op s c m i v :
  compare_scalar op s c = Ok m → s !! i = Some v →
  ∃ x, to_float v = Ok x ∧ m !! i = Some (op x c).
Proof.
  intros Hm Hv. destruct (mapM_Ok_lookup _ _ _ _ _ Hm Hv) as (b & Hb & Hi).
  inv_bind Hb. injection Hb as <-. by exists a.
Qed.

(** What the first seven detectors leave of the frame [init_flags f0]:
    it is well formed, has the rows of [f0], and its column
    [has_suspicious_values] is still the initial one. *)
Lemma before_suspicious_values f0 f1 f2 f3 f4 f5 f6 f7 n1 n2 n3 n4 n5 n6 n7 :
  well_formed f0 →
  _check_missing_customer (init_flags f0) = Ok (f1, n1) →
  _check_negative_quantities f1 = Ok (f2, n2) →
  _check_duplicate_transactions f2 = Ok (f3, n3) →
  _check_missing_product_info f3 = Ok (f4, n4) →
  _check_invalid_prices f4 = Ok (f5, n5) →
  _check_date_issues f5 = Ok (f6, n6) →
  _check_missing_transaction_ids f6 = Ok (f7, n7) →
  well_formed f7 ∧ index f7 = index f0 ∧
  columns f7 !! "has_suspicious_values" = Some (replicate (index f0) (VBool false)).
Proof.
  intros Hwf H1 H2 H3 H4 H5 H6 H7.
  apply _check_duplicate_transactions_inv in H3 as ->.
  apply _check_missing_product_info_inv in H4 as ->.
  apply _check_invalid_prices_inv in H5 as ->.
  apply _check_missing_transaction_ids_inv in H7 as ->.
  pose proof (well_formed_init_flags _ Hwf) as Hw0.
  destruct (_check_missing_customer_wf _ _ _ Hw0 H1) as [Hw1 Hi1].
  destruct (_check_negative_quantities_wf _ _ _ Hw1 H2) as [Hw2 Hi2].
  destruct (_check_date_issues_wf _ _ _ Hw2 H6) as [Hw6 Hi6].
  split; [done|]. split; [by rewrite Hi6, Hi2, Hi1|].
  rewrite (_check_date_issues_other _ _ _ _ H6) by done.
  rewrite (_check_negative_quantities_other _ _ _ _ H2) by done.
  rewrite (_check_missing_customer_other _ _ _ _ H1) by done.
  unfold init_flags, setitem_scalar. by rewrite columns_setitem_eq.
Qed.

(** ** Closed examples of the string functions *)

Example fix_malformed_split_year : fix_malformed "20 23-07-22" = "2023-07-22".
Proof. reflexivity. Qed.

Example fix_malformed_words : fix_malformed "not a date" = "not-a-date".
Proof. reflexivity. Qed.

Example fix_malformed_runs : fix_malformed "on 20  23/07/22 at  9" = "on-2023/07/22-at-9".
Proof. reflexivity. Qed.

Example strftime_year_not_padded :
  strftime_Ymd {| year := 999; month := 1; day := 5 |} = "999-01-05".
Proof. reflexivity. Qed.

Example strftime_pads : strftime_Ymd {| year := 2023; month := 7; day := 5 |} = "2023-07-05".
Proof. reflexivity. Qed.

Example strip_both_ends : strip "  2023-07-22 " = "2023-07-22".
Proof. reflexivity. Qed.

(** ** Suspicious business values *)

Lemma transform_well_formed E data df :
  transform E data = Ok df → well_formed df ∧ index df = length data.
Proof.
  intros Ht. apply transform_inv in Ht as (f0 & issues & Hprep & Hchecks).
  apply well_formed_initial_prep in Hprep as [Hwf0 Hlen].
  apply perform_checks_inv in Hchecks
    as (f1 & f2 & f3 & f4 & f5 & f6 & f7 & n1 & n2 & n3 & n4 & n5 & n6 & n7 & n8
        & H1 & H2 & H3 & H4 & H5 & H6 & H7 & H8).
  destruct (before_suspicious_values _ _ _ _ _ _ _ _ _ _ _ _ _ _ _
              Hwf0 H1 H2 H3 H4 H5 H6 H7) as (Hwf7 & Hidx7 & _).
  destruct (_check_suspicious_values_wf _ _ _ Hwf7 H8) as [Hwf Hidx].
  split; [done|]. congruence.
Qed.

(** C7: the transformed table has one row for each input record, and
    after the quality checks, in every row the flag
    [has_suspicious_values] is the boolean [quantity > 1000 or price < 0.01
    or total_value > 100000], read on the row's own cells; the comparisons
    are strict: the quantity 1000 adds nothing to the disjunction while 1001
    makes it true, and the total value 100000 adds nothing while 100000.01
    makes it true. *)
Theorem suspicious_flag_iff_thresholds E data df :
  transform E data = Ok df →
  index df = length data ∧
  (∀ i, i < length data →
     ∃ vq vp vtv q p tv,
       cell df "quantity" i = Some vq ∧ to_float vq = Ok q ∧
       cell df "price" i = Some vp ∧ to_float vp = Ok p ∧
       cell df "total_value" i = Some vtv ∧ to_float vtv = Ok tv ∧
       cell df "has_suspicious_values" i = Some (VBool (suspicious_row q p tv)) ∧
       (suspicious_row q p tv = true ↔
          PrimFloat.ltb 1000 q = true ∨ PrimFloat.ltb p 0.01 = true
          ∨ PrimFloat.ltb 100000 tv = true)) ∧
  (∀ p tv, suspicious_row 1000 p tv = PrimFloat.ltb p 0.01 || PrimFloat.ltb 100000 tv) ∧
  (∀ p tv, suspicious_row 1001 p tv = true) ∧
  (∀ q p, suspicious_row q p 100000 = PrimFloat.ltb 1000 q || PrimFloat.ltb p 0.01) ∧
  (∀ q p, suspicious_row q p 100000.01 = true).
Proof.
  intros Ht. destruct (transform_well_formed _ _ _ Ht) as [_ Hlen].
  split; [done|]. split.
  - intros i Hi. rewrite <- Hlen in Hi.
    apply transform_inv in Ht as (f0 & issues & Hprep & Hchecks).
    apply well_formed_initial_prep in Hprep as [Hwf0 _].
    apply perform_checks_inv in Hchecks
      as (f1 & f2 & f3 & f4 & f5 & f6 & f7 & n1 & n2 & n3 & n4 & n5 & n6 & n7 & n8
          & H1 & H2 & H3 & H4 & H5 & H6 & H7 & H8).
    destruct (before_suspicious_values _ _ _ _ _ _ _ _ _ _ _ _ _ _ _
                Hwf0 H1 H2 H3 H4 H5 H6 H7) as (Hwf7 & Hidx7 & Hflag7).
    destruct (_check_suspicious_values_wf _ _ _ Hwf7 H8) as [_ Hidx].
    apply _check_suspicious_values_inv in H8
      as (cq & cp & ctv & hq & lp & htv & Hq & Hp & Htv & Hhq & Hlp & Hhtv & Hn & Hdf).
    rewrite Hidx in Hi.
    destruct (lookup_lt_is_Some_2 cq i) as [vq Hvq]; [by rewrite (Hwf7 _ _ Hq)|].
    destruct (lookup_lt_is_Some_2 cp i) as [vp Hvp]; [by rewrite (Hwf7 _ _ Hp)|].
    destruct (lookup_lt_is_Some_2 ctv i) as [vtv Hvtv]; [by rewrite (Hwf7 _ _ Htv)|].
    destruct (compare_scalar_lookup _ _ _ _ _ _ Hhq Hvq) as (q & Hfq & Hmq).
    destruct (compare_scalar_lookup _ _ _ _ _ _ Hlp Hvp) as (p & Hfp & Hmp).
    destruct (compare_scalar_lookup _ _ _ _ _ _ Hhtv Hvtv) as (tv & Hftv & Hmtv).
    assert (Hmask : mask_or (mask_or hq lp) htv !! i = Some (suspicious_row q p tv)).
    { unfold mask_or, suspicious_row.
      by apply zip_with_lookup_Some; [apply zip_with_lookup_Some|]. }
    exists vq, vp, vtv, q, p, tv.
    assert (Hcells : cell df "quantity" i = Some vq ∧ cell df "price" i = Some vp
                     ∧ cell df "total_value" i = Some vtv
                     ∧ cell df "has_suspicious_values" i
                       = Some (VBool (suspicious_row q p tv))).
    { rewrite Hdf. unfold cell. destruct (0 <? n8)%nat eqn:Hc.
      - rewrite !columns_setitem_ne by done. rewrite columns_setitem_eq, Hq, Hp, Htv.
        simpl. rewrite mask_series_lookup, Hmask. done.
      - rewrite Hq, Hp, Htv, Hflag7. simpl. do 3 (split; [done|]).
        apply Nat.ltb_ge in Hc. assert (n8 = 0) as Hz by lia. rewrite Hz in Hn.
        rewrite (mask_sum_0 _ _ _ (eq_sym Hn) Hmask).
        apply lookup_replicate_2. by rewrite <- Hidx7. }
    destruct Hcells as (? & ? & ? & ?). do 7 (split; [done|]).
    unfold suspicious_row. rewrite !orb_true_iff. tauto.
  - unfold suspicious_row. split; [|split; [|split]]; intros.
    + reflexivity.
    + reflexivity.
    + replace (PrimFloat.ltb 100000 100000) with false by reflexivity.
      by rewrite orb_false_r.
    + replace (PrimFloat.ltb 100000 100000.01) with true by reflexivity.
      by rewrite orb_true_r.
Qed.

(** Four records at the thresholds: the quantities 1000 and 1001 at the
    price 1, the total value 100000 (1000 at 100) and the total value
    100000.01 (1 at 100000.01).  The table has four rows; the second and
    the fourth are flagged, the first and the third are not. *)
Lemma suspicious_flag_iff_thresholds_witness :
  ∃ df,
    transform sample_externals
      [priced_record 1000 1; priced_record 1001 1;
       priced_record 1000 100; priced_record 1 100000.01] = Ok df ∧
    index df = 4 ∧
    cell df "quantity" 0 = Some (VNum 1000) ∧
    cell df "has_suspicious_values" 0 = Some (VBool false) ∧
    cell df "quantity" 1 = Some (VNum 1001) ∧
    cell df "has_suspicious_values" 1 = Some (VBool true) ∧
    cell df "total_value" 2 = Some (VNum 100000) ∧
    cell df "has_suspicious_values" 2 = Some (VBool false) ∧
    cell df "total_value" 3 = Some (VNum 100000.01) ∧
    cell df "has_suspicious_values" 3 = Some (VBool true).
Proof.
  set (data := [priced_record 1000 1; priced_record 1001 1;
                priced_record 1000 100; priced_record 1 100000.01]).
  set (df := ok_value empty_frame (transform sample_externals data)).
  assert (Ht : transform sample_externals data = Ok df)
    by (apply ok_value_eq; vm_compute; reflexivity).
  exists df. split; [exact Ht|].
  destruct (suspicious_flag_iff_thresholds sample_externals data df Ht)
    as (Hlen & Hrows & _).
  split; [exact Hlen|].
  destruct (Hrows 0 ltac:(simpl; lia))
    as (vq0 & vp0 & vtv0 & q0 & p0 & tv0 & Hq0 & Hfq0 & Hp0 & Hfp0 & Htv0 & Hftv0 & Hs0 & _).
  destruct (Hrows 1 ltac:(simpl; lia))
    as (vq1 & vp1 & vtv1 & q1 & p1 & tv1 & Hq1 & Hfq1 & Hp1 & Hfp1 & Htv1 & Hftv1 & Hs1 & _).
  destruct (Hrows 2 ltac:(simpl; lia))
    as (vq2 & vp2 & vtv2 & q2 & p2 & tv2 & Hq2 & Hfq2 & Hp2 & Hfp2 & Htv2 & Hftv2 & Hs2 & _).
  destruct (Hrows 3 ltac:(simpl; lia))
    as (vq3 & vp3 & vtv3 & q3 & p3 & tv3 & Hq3 & Hfq3 & Hp3 & Hfp3 & Htv3 & Hftv3 & Hs3 & _).
  vm_compute in Hq0, Hp0, Htv0, Hq1, Hp1, Htv1, Hq2, Hp2, Htv2, Hq3, Hp3, Htv3.
  injection Hq0 as <-. injection Hp0 as <-. injection Htv0 as <-.
  injection Hq1 as <-. injection Hp1 as <-. injection Htv1 as <-.
  injection Hq2 as <-. injection Hp2 as <-. injection Htv2 as <-.
  injection Hq3 as <-. injection Hp3 as <-. injection Htv3 as <-.
  injection Hfq0 as <-. injection Hfp0 as <-. injection Hftv0 as <-.
  injection Hfq1 as <-. injection Hfp1 as <-. injection Hftv1 as <-.
  injection Hfq2 as <-. injection Hfp2 as <-. injection Hftv2 as <-.
  injection Hfq3 as <-. injection Hfp3 as <-. injection Hftv3 as <-.
  rewrite Hs0, Hs1, Hs2, Hs3.
  repeat split; vm_compute; reflexivity.
Defined.

(** ** The end-to-end scenario *)

(** C1: on the scenario record, whose [customer_id] is null, the transform
    leaves [has_missing_customer] false and the customer ["GUEST"]:
    [_initial_prep] has filled the null before detector 1 looks for it. *)
Theorem missing_customer_filled_before_detection :
  ∃ df, transform sample_externals [scenario_record] = Ok df ∧
    customer_id scenario_record = Some VNull ∧
    cell df "has_missing_customer" 0 = Some (VBool false) ∧
    cell df "customer_id" 0 = Some (VStr "GUEST").
Proof.
  exists (ok_value empty_frame (transform sample_externals [scenario_record])).
  split; [apply ok_value_eq; vm_compute; reflexivity|].
  repeat split; vm_compute; reflexivity.
Qed.

(** C2: the run on the scenario record writes one customer, ["GUEST"], one
    product, and one transaction whose quantity is 3, whose total value is
    -75.0, and whose flags are: missing customer false, negative quantity
    true. *)
Theorem scenario_run_writes :
  let r := run sample_externals schema_created engine_made accept_all
               {[ "sales_data.json" := JsonArray [scenario_record] ]}
               "sales_data.json" () 1000 true in
  returned r = Returned (Ok true) ∧
  writes r =
    [ {| target := "customers";
         batch := {| header := ["customer_id"]; rows := [[VStr "GUEST"]] |} |};
      {| target := "products";
         batch := {| header := ["product_id"; "product_name"; "category"; "price"];
                     rows := [[VStr "P01"; VStr "Mouse"; VStr "Accessories"; VNum 25]] |} |};
      {| target := "transactions";
         batch := {| header := transaction_columns;
                     rows := [[VStr "T001"; VStr "GUEST"; VStr "P01"; VNum 3;
                               VStr "2023-01-05"; VStr "2023-01-05"; VStr "North";
                               VNum (-75); VBool false; VBool true; VBool false;
                               VBool false]] |} |} ].
Proof. split; vm_compute; reflexivity. Qed.

(** C4: on the scenario record the final row has the quantity 3 and the
    price 25.0, whose product is 75.0, and the total value -75.0: the total
    is computed from the quantity as read, before detector 2 takes its
    absolute value. *)
Theorem total_value_predates_quantity_repair :
  ∃ df, transform sample_externals [scenario_record] = Ok df ∧
    cell df "quantity" 0 = Some (VNum 3) ∧
    cell df "price" 0 = Some (VNum 25) ∧
    cell df "total_value" 0 = Some (VNum (-75)) ∧
    PrimFloat.mul 3 25 = 75%float ∧
    PrimFloat.eqb (-75) (PrimFloat.mul 3 25) = false.
Proof.
  exists (ok_value empty_frame (transform sample_externals [scenario_record])).
  split; [apply ok_value_eq; vm_compute; reflexivity|].
  repeat split; vm_compute; reflexivity.
Qed.

(** ** Records without a product *)

(** C8: on a batch whose only record has no key [product], the flattening
    step raises [KeyError('product')], whatever the library functions do,
    and so does the transform. *)
Theorem missing_product_column_raises E :
  product no_product_record = None ∧
  flatten_product (json_normalize [no_product_record]) = Raise (KeyError "product") ∧
  _initial_prep E [no_product_record] = Raise (KeyError "product") ∧
  transform E [no_product_record] = Raise (KeyError "product").
Proof. repeat split; vm_compute; reflexivity. Qed.

(** ** Dates *)

(** C6: when the first parse raises an exception that is neither a
    [ValueError] nor a [TypeError], [standardize_date] raises it. *)
Theorem standardize_date_raises_other_exceptions E (date_str : Value) (e : Exception) :
  isna date_str = false →
  date_parse E (strip (py_str E date_str)) = ParseRaises e →
  is_value_or_type_error e = false →
  standardize_date E date_str = Raise e.
Proof.
  intros Hna Hparse He. unfold standardize_date. by rewrite Hna, Hparse, He.
Qed.

Lemma standardize_date_raises_other_exceptions_witness :
  standardize_date sample_externals (VStr "08335394550") = Raise OverflowError.
Proof.
  apply (standardize_date_raises_other_exceptions sample_externals
           (VStr "08335394550") OverflowError); reflexivity.
Defined.

(** ** The columns of the prepared frame *)

Lemma add_column_other c k col (m : gmap string (list Value)) :
  k ≠ c → add_column k col m !! c = m !! c.
Proof. intros H. unfold add_column. destruct col; [|done]. by rewrite lookup_insert_ne. Qed.

Lemma rename_column_other old new df c :
  old ≠ c → new ≠ c → columns (rename_column old new df) !! c = columns df !! c.
Proof.
  intros H1 H2. unfold rename_column. destruct (columns df !! old); [|done].
  simpl. by rewrite lookup_insert_ne, lookup_delete_ne.
Qed.

Lemma json_normalize_other data c :
  c ∉ prepared_columns → columns (json_normalize data) !! c = None.
Proof.
  unfold prepared_columns. rewrite !not_elem_of_cons. intros H. destruct_and!.
  unfold json_normalize. simpl.
  rewrite !add_column_other by done. apply lookup_empty.
Qed.

Lemma flatten_product_other df df' c :
  c ∉ prepared_columns → flatten_product df = Ok df' →
  columns df' !! c = columns df !! c.
Proof.
  unfold prepared_columns. rewrite !not_elem_of_cons. intros H. destruct_and!.
  unfold flatten_product. case_bool_decide.
  - intros [= <-]. by rewrite !rename_column_other.
  - unfold product_cols. simpl. intros Hf.
    repeat match goal with
    | H : _ ≫= _ = Ok _ |- _ => inv_bind H
    | H : mret _ = Ok _ |- _ => injection H as <-
    | H : Ok _ = Ok _ |- _ => injection H as <-
    end.
    change (col_name "id") with "product_id".
    change (col_name "name") with "product_name".
    change (col_name "category") with "category".
    change (col_name "price") with "price".
    unfold drop_column. simpl. rewrite lookup_delete_ne by done.
    by rewrite !lookup_insert_ne.
Qed.

Lemma initial_prep_other E data df c :
  c ∉ prepared_columns → _initial_prep E data = Ok df → columns df !! c = None.
Proof.
  intros Hc H. unfold _initial_prep in H. inv_bind H.
  pose proof (flatten_product_other _ _ _ Hc H_l) as Hflat.
  rewrite json_normalize_other in Hflat by done.
  revert Hc. unfold prepared_columns. rewrite !not_elem_of_cons. intros Hc.
  destruct_and!.
  repeat match goal with
  | H : _ ≫= _ = Ok _ |- _ => inv_bind H
  end.
  injection H as <-. by rewrite !columns_setitem_ne.
Qed.

(** The last statement of [_initial_prep] seeds the flag with
    [date != date_std]. *)
Lemma initial_prep_seed E data df :
  _initial_prep E data = Ok df →
  ∃ d ds, columns df !! "date" = Some d ∧ columns df !! "date_std" = Some ds ∧
    columns df !! "had_date_format_issue" = Some (mask_series (series_ne d ds)).
Proof.
  intros H. unfold _initial_prep in H.
  repeat match goal with
  | H : _ ≫= _ = Ok _ |- _ => inv_bind H
  end.
  injection H as <-.
  match goal with
  | H1 : getitem ?f "date" = Ok ?d, H2 : getitem ?f "date_std" = Ok ?ds
    |- context [series_ne ?d ?ds] =>
      apply getitem_Ok in H1, H2; exists d, ds
  end.
  split; [by rewrite columns_setitem_ne|]. split; [by rewrite columns_setitem_ne|].
  by rewrite columns_setitem_eq.
Qed.

(** ** The flags along a run *)

Lemma transform_frames_inv E data frames :
  transform_frames E data = Ok frames →
  ∃ f0 f1 f2 f3 f4 f5 f6 f7 f8 n1 n2 n3 n4 n5 n6 n7 n8,
    _initial_prep E data = Ok f0 ∧
    _check_missing_customer (init_flags f0) = Ok (f1, n1) ∧
    _check_negative_quantities f1 = Ok (f2, n2) ∧
    _check_duplicate_transactions f2 = Ok (f3, n3) ∧
    _check_missing_product_info f3 = Ok (f4, n4) ∧
    _check_invalid_prices f4 = Ok (f5, n5) ∧
    _check_date_issues f5 = Ok (f6, n6) ∧
    _check_missing_transaction_ids f6 = Ok (f7, n7) ∧
    _check_suspicious_values f7 = Ok (f8, n8) ∧
    frames = [f0; init_flags f0; f1; f2; f3; f4; f5; f6; f7; f8].
Proof.
  unfold transform_frames. intros H. inv_bind H. inv_bind H. injection H as <-.
  apply frames_after_detectors_inv in H_l0
    as (f1 & f2 & f3 & f4 & f5 & f6 & f7 & f8 & n1 & n2 & n3 & n4 & n5 & n6 & n7 & n8
        & H1 & H2 & H3 & H4 & H5 & H6 & H7 & H8 & ->).
  exists a, f1, f2, f3, f4, f5, f6, f7, f8, n1, n2, n3, n4, n5, n6, n7, n8.
  done.
Qed.

(** The last frame of a run is the result of [transform]. *)
Lemma transform_frames_last E data frames :
  transform_frames E data = Ok frames →
  ∃ df, transform E data = Ok df ∧ last frames = Some df.
Proof.
  intros H. apply transform_frames_inv in H
    as (f0 & f1 & f2 & f3 & f4 & f5 & f6 & f7 & f8 & n1 & n2 & n3 & n4 & n5 & n6 & n7 & n8
        & H0 & H1 & H2 & H3 & H4 & H5 & H6 & H7 & H8 & ->).
  exists f8. split; [|done].
  unfold transform. rewrite H0. simpl.
  unfold perform_checks, detectors. simpl. unfold run_detector. simpl.
  rewrite H1. simpl. rewrite H2. simpl. rewrite H3. simpl. rewrite H4. simpl.
  rewrite H5. simpl. rewrite H6. simpl. rewrite H7. simpl. rewrite H8. done.
Qed.

Lemma cell_replicate_false df c n row :
  columns df !! c = Some (replicate n (VBool false)) →
  cell df c row ≠ Some (VBool true).
Proof.
  intros H. unfold cell. rewrite H. simpl. intros Hr.
  apply lookup_replicate_1 in Hr as [Hr _]. discriminate Hr.
Qed.

Lemma cell_absent df c row : columns df !! c = None → cell df c row ≠ Some (VBool true).
Proof. intros H. unfold cell. by rewrite H. Qed.

Lemma cell_same_column df df' c row :
  columns df' !! c = columns df !! c → cell df' c row = cell df c row.
Proof. intros H. unfold cell. by rewrite H. Qed.

(** C3, as the code has it: a counterexample to the claim.  In a batch of
    two records, the first with the date ["2023/01/05"] and the second with
    ["not a date"], the first row has [had_date_format_issue] true after
    [_initial_prep] (the date changed form) and false after detector 6. *)
Lemma date_flag_reset_by_detector_6 :
  ∃ frames f0 f5 f6,
    transform_frames sample_externals
      [dated_record (VStr "2023/01/05"); dated_record (VStr "not a date")] = Ok frames ∧
    frames !! 0 = Some f0 ∧ frames !! 6 = Some f5 ∧ frames !! 7 = Some f6 ∧
    cell f0 "date_std" 0 = Some (VStr "2023-01-05") ∧
    cell f0 "had_date_format_issue" 0 = Some (VBool true) ∧
    cell f5 "had_date_format_issue" 0 = Some (VBool true) ∧
    cell f6 "had_date_format_issue" 0 = Some (VBool false).
Proof.
  set (frames := ok_value []
         (transform_frames sample_externals
            [dated_record (VStr "2023/01/05"); dated_record (VStr "not a date")])).
  exists frames, (default empty_frame (frames !! 0)),
         (default empty_frame (frames !! 6)), (default empty_frame (frames !! 7)).
  split; [apply ok_value_eq; vm_compute; reflexivity|].
  do 3 (split; [apply lookup_default_eq; vm_compute; reflexivity|]).
  repeat split; vm_compute; reflexivity.
Qed.

Lemma init_flags_other df c :
  c ≠ "has_missing_customer" → c ≠ "had_negative_quantity" →
  c ≠ "has_suspicious_values" →
  columns (init_flags df) !! c = columns df !! c.
Proof.
  intros H1 H2 H3. unfold init_flags, setitem_scalar. by rewrite !columns_setitem_ne.
Qed.

(** The three flags [perform_checks] initialises are never set back. *)
Lemma initialised_flags_never_reset E data frames :
  transform_frames E data = Ok frames →
  ∀ c, c ∈ ["has_missing_customer"; "had_negative_quantity"; "has_suspicious_values"] →
   ∀ i j fi fj row, i ≤ j → frames !! i = Some fi → frames !! j = Some fj →
     cell fi c row = Some (VBool true) → cell fj c row = Some (VBool true).
Proof.
  intros H. apply transform_frames_inv in H
    as (f0 & f1 & f2 & f3 & f4 & f5 & f6 & f7 & f8 & n1 & n2 & n3 & n4 & n5 & n6 & n7 & n8
        & H0 & H1 & H2 & H3 & H4 & H5 & H6 & H7 & H8 & ->).
  apply _check_duplicate_transactions_inv in H3 as ->.
  apply _check_missing_product_info_inv in H4 as ->.
  apply _check_invalid_prices_inv in H5 as ->.
  apply _check_missing_transaction_ids_inv in H7 as ->.
  intros c Hc i j fi fj row Hij Hi Hj Hcell.
  assert (Hfresh : c ∉ prepared_columns).
  { unfold prepared_columns. rewrite !elem_of_cons, elem_of_nil in Hc.
    rewrite !not_elem_of_cons. destruct Hc as [->|[->|[->|[]]]];
      repeat split; try discriminate; apply not_elem_of_nil. }
  pose proof (cell_absent _ _ row (initial_prep_other _ _ _ _ Hfresh H0)) as C0.
  rewrite !elem_of_cons, elem_of_nil in Hc. destruct Hc as [->|[->|[->|[]]]].
  - assert (CI : cell (init_flags f0) "has_missing_customer" row ≠ Some (VBool true)).
    { apply (cell_replicate_false _ _ (index f0)).
      unfold init_flags, setitem_scalar.
      rewrite !columns_setitem_ne by done. by rewrite columns_setitem_eq. }
    pose proof (cell_same_column _ _ _ row
      (_check_negative_quantities_other _ _ _ "has_missing_customer" H2
         ltac:(done) ltac:(done))) as C2.
    pose proof (cell_same_column _ _ _ row
      (_check_date_issues_other _ _ _ "has_missing_customer" H6 ltac:(done))) as C6.
    pose proof (cell_same_column _ _ _ row
      (_check_suspicious_values_other _ _ _ "has_missing_customer" H8 ltac:(done)))
      as C8.
    pick_frame i Hi; pick_frame j Hj; solve [lia | congruence].
  - assert (CI : cell (init_flags f0) "had_negative_quantity" row ≠ Some (VBool true)).
    { apply (cell_replicate_false _ _ (index f0)).
      unfold init_flags, setitem_scalar.
      rewrite !columns_setitem_ne by done. by rewrite columns_setitem_eq. }
    pose proof (cell_same_column _ _ _ row
      (_check_missing_customer_other _ _ _ "had_negative_quantity" H1
         ltac:(done) ltac:(done))) as C1.
    pose proof (cell_same_column _ _ _ row
      (_check_date_issues_other _ _ _ "had_negative_quantity" H6 ltac:(done))) as C6.
    pose proof (cell_same_column _ _ _ row
      (_check_suspicious_values_other _ _ _ "had_negative_quantity" H8 ltac:(done)))
      as C8.
    pick_frame i Hi; pick_frame j Hj; solve [lia | congruence].
  - assert (CI : cell (init_flags f0) "has_suspicious_values" row ≠ Some (VBool true)).
    { apply (cell_replicate_false _ _ (index f0)).
      unfold init_flags, setitem_scalar. by rewrite columns_setitem_eq. }
    pose proof (cell_same_column _ _ _ row
      (_check_missing_customer_other _ _ _ "has_suspicious_values" H1
         ltac:(done) ltac:(done))) as C1.
    pose proof (cell_same_column _ _ _ row
      (_check_negative_quantities_other _ _ _ "has_suspicious_values" H2
         ltac:(done) ltac:(done))) as C2.
    pose proof (cell_same_column _ _ _ row
      (_check_date_issues_other _ _ _ "has_suspicious_values" H6 ltac:(done))) as C6.
    pick_frame i Hi; pick_frame j Hj; solve [lia | congruence].
Qed.

(** The column [had_date_format_issue] along a run: the seed up to
    detector 6, and what detector 6 leaves from there on. *)
Lemma date_flag_columns E data frames :
  transform_frames E data = Ok frames →
  ∃ f5 f6 d ds,
    frames !! 6 = Some f5 ∧ frames !! 7 = Some f6 ∧
    columns f5 !! "date" = Some d ∧ columns f5 !! "date_std" = Some ds ∧
    columns f5 !! "had_date_format_issue" = Some (mask_series (series_ne d ds)) ∧
    (∀ k fk, k ≤ 6 → frames !! k = Some fk →
       columns fk !! "had_date_format_issue" = columns f5 !! "had_date_format_issue") ∧
    (∀ k fk, 7 ≤ k → frames !! k = Some fk →
       columns fk !! "had_date_format_issue" = columns f6 !! "had_date_format_issue") ∧
    columns f6 !! "had_date_format_issue" =
      let issues := mask_and (map isna ds) (map notna d) in
      if (0 <? mask_sum issues)%nat then Some (mask_series issues)
      else Some (mask_series (series_ne d ds)).
Proof.
  intros H. apply transform_frames_inv in H
    as (f0 & f1 & f2 & f3 & f4 & f5 & f6 & f7 & f8 & n1 & n2 & n3 & n4 & n5 & n6 & n7 & n8
        & H0 & H1 & H2 & H3 & H4 & H5 & H6 & H7 & H8 & ->).
  apply _check_duplicate_transactions_inv in H3 as ->.
  apply _check_missing_product_info_inv in H4 as ->.
  apply _check_invalid_prices_inv in H5 as ->.
  apply _check_missing_transaction_ids_inv in H7 as ->.
  destruct (initial_prep_seed _ _ _ H0) as (d & ds & Hd & Hds & Hseed).
  assert (K : ∀ c, c ≠ "has_missing_customer" → c ≠ "had_negative_quantity" →
              c ≠ "has_suspicious_values" → c ≠ "customer_id" → c ≠ "quantity" →
              columns f2 !! c = columns f0 !! c).
  { intros c ? ? ? ? ?.
    rewrite (_check_negative_quantities_other _ _ _ c H2) by done.
    rewrite (_check_missing_customer_other _ _ _ c H1) by done.
    by apply init_flags_other. }
  pose proof (_check_suspicious_values_other _ _ _ "had_date_format_issue" H8
                ltac:(done)) as K8.
  apply _check_date_issues_inv in H6 as (ds' & d' & Hds' & Hd' & Hn6 & Hf6).
  rewrite K in Hds', Hd' by done.
  rewrite Hds in Hds'. rewrite Hd in Hd'. injection Hds' as <-. injection Hd' as <-.
  exists f2, f6, d, ds.
  split; [done|]. split; [done|].
  split; [by rewrite K|]. split; [by rewrite K|]. split; [by rewrite K|].
  split; [|split].
  - intros k fk Hk Hfk. rewrite (K "had_date_format_issue") by done.
    pick_frame k Hfk; try lia; try done.
    + by apply init_flags_other.
    + rewrite (_check_missing_customer_other _ _ _ _ H1) by done.
      by apply init_flags_other.
    + by apply K.
    + by apply K.
    + by apply K.
    + by apply K.
  - intros k fk Hk Hfk. pick_frame k Hfk; try lia; done.
  - rewrite Hf6, Hn6. cbv zeta.
    destruct (0 <? mask_sum (mask_and (map isna ds) (map notna d)))%nat.
    + by rewrite columns_setitem_eq.
    + by rewrite K.
Qed.

(** C3, as amended: along the frames of a run (after [_initial_prep], after
    the initialisation of the flags, after each detector),
    [has_missing_customer], [had_negative_quantity] and
    [has_suspicious_values] are never set back from true to false in any
    row.  [had_date_format_issue] is seeded with [date != date_std];
    detector 6 leaves it as it is when no row has a null [date_std] with a
    non-null [date], and otherwise overwrites the whole column with that
    mask.  So the flag of a row is never set back from true to false,
    except by detector 6 in a batch where some date failed to parse, on the
    rows of that batch whose own date did not fail. *)
Theorem flags_along_a_run E data frames :
  transform_frames E data = Ok frames →
  (∀ c, c ∈ ["has_missing_customer"; "had_negative_quantity"; "has_suspicious_values"] →
   ∀ i j fi fj row, i ≤ j → frames !! i = Some fi → frames !! j = Some fj →
     cell fi c row = Some (VBool true) → cell fj c row = Some (VBool true)) ∧
  ∃ f5 f6 d ds,
    frames !! 6 = Some f5 ∧ frames !! 7 = Some f6 ∧
    columns f5 !! "date" = Some d ∧ columns f5 !! "date_std" = Some ds ∧
    columns f5 !! "had_date_format_issue" = Some (mask_series (series_ne d ds)) ∧
    columns f6 !! "had_date_format_issue" =
      (if (0 <? mask_sum (mask_and (map isna ds) (map notna d)))%nat
       then Some (mask_series (mask_and (map isna ds) (map notna d)))
       else Some (mask_series (series_ne d ds))) ∧
    ∀ i j fi fj row, i ≤ j → frames !! i = Some fi → frames !! j = Some fj →
      cell fi "had_date_format_issue" row = Some (VBool true) →
      j ≤ 6 ∨ 7 ≤ i ∨ mask_sum (mask_and (map isna ds) (map notna d)) = 0
      ∨ mask_and (map isna ds) (map notna d) !! row = Some true →
      cell fj "had_date_format_issue" row = Some (VBool true).
Proof.
  intros H. split; [by apply (initialised_flags_never_reset E data)|].
  destruct (date_flag_columns _ _ _ H)
    as (f5 & f6 & d & ds & Hf5 & Hf6 & Hd & Hds & Hseed & Hle & Hge & H67).
  exists f5, f6, d, ds. do 5 (split; [done|]). split; [done|].
  intros i j fi fj row Hij Hi Hj Hcell Hcond.
  destruct (decide (j ≤ 6)) as [Hj6|Hj7].
  { rewrite <- Hcell. apply cell_same_column.
    rewrite (Hle j fj), (Hle i fi) by (done || lia). done. }
  destruct (decide (7 ≤ i)) as [Hi7|Hi6].
  { rewrite <- Hcell. apply cell_same_column.
    rewrite (Hge j fj), (Hge i fi) by (done || lia). done. }
  assert (Hfi : cell f5 "had_date_format_issue" row = Some (VBool true)).
  { rewrite <- Hcell. apply cell_same_column. symmetry. apply (Hle i); [lia|done]. }
  rewrite (cell_same_column _ _ _ row (Hge j fj ltac:(lia) Hj)).
  cbv zeta in H67.
  destruct (0 <? mask_sum (mask_and (map isna ds) (map notna d)))%nat eqn:Hcount.
  - destruct Hcond as [?|[?|[Hz|Hrow]]]; try lia.
    + rewrite Hz in Hcount. discriminate Hcount.
    + unfold cell. rewrite H67. simpl. by rewrite mask_series_lookup, Hrow.
  - rewrite <- Hfi. apply cell_same_column. by rewrite H67, Hseed.
Qed.

Lemma flags_along_a_run_witness :
  ∃ f5 f6 d ds,
    ok_value [] (transform_frames sample_externals
       [dated_record (VStr "2023/01/05"); dated_record (VStr "not a date")]) !! 6
      = Some f5 ∧
    ok_value [] (transform_frames sample_externals
       [dated_record (VStr "2023/01/05"); dated_record (VStr "not a date")]) !! 7
      = Some f6 ∧
    columns f5 !! "date" = Some d ∧ columns f5 !! "date_std" = Some ds ∧
    columns f5 !! "had_date_format_issue" = Some (mask_series (series_ne d ds)) ∧
    columns f6 !! "had_date_format_issue" =
      (if (0 <? mask_sum (mask_and (map isna ds) (map notna d)))%nat
       then Some (mask_series (mask_and (map isna ds) (map notna d)))
       else Some (mask_series (series_ne d ds))) ∧
    ∀ i j fi fj row, i ≤ j →
      ok_value [] (transform_frames sample_externals
         [dated_record (VStr "2023/01/05"); dated_record (VStr "not a date")]) !! i
        = Some fi →
      ok_value [] (transform_frames sample_externals
         [dated_record (VStr "2023/01/05"); dated_record (VStr "not a date")]) !! j
        = Some fj →
      cell fi "had_date_format_issue" row = Some (VBool true) →
      j ≤ 6 ∨ 7 ≤ i ∨ mask_sum (mask_and (map isna ds) (map notna d)) = 0
      ∨ mask_and (map isna ds) (map notna d) !! row = Some true →
      cell fj "had_date_format_issue" row = Some (VBool true).
Proof.
  apply (flags_along_a_run sample_externals
           [dated_record (VStr "2023/01/05"); dated_record (VStr "not a date")]).
  apply ok_value_eq. vm_compute. reflexivity.
Defined.

(** ** The transformed table and its projection *)

Lemma map_lookup {A B} (f : A -> B) (l : list A) i : map f l !! i = f <$> l !! i.
Proof. apply list_lookup_fmap. Qed.

Lemma mapM_getitem_row df cols ss i :
  mapM (getitem df) cols = Ok ss →
  map (fun s : Series => default VNull (s !! i)) ss
  = map (fun c => default VNull (cell df c i)) cols.
Proof.
  revert ss. induction cols as [|c cols IH]; intros ss H; simpl in H.
  - by injection H as <-.
  - inv_bind H. inv_bind H. injection H as <-. simpl.
    apply getitem_Ok in H_l. unfold cell at 1. rewrite H_l. simpl.
    f_equal. by apply IH.
Qed.

Lemma select_rows df cols t :
  select df cols = Ok t →
  header t = cols ∧ length (rows t) = index df ∧
  ∀ i, i < index df →
    rows t !! i = Some (map (fun c => default VNull (cell df c i)) cols).
Proof.
  unfold select. intros H. inv_bind H. injection H as <-. simpl.
  split; [done|]. split; [by rewrite length_map, length_seq|].
  intros i Hi. rewrite list_lookup_fmap, lookup_seq_lt by done. simpl.
  f_equal. by apply mapM_getitem_row.
Qed.

Lemma _prepare_transactions_df_rows E df t :
  well_formed df → _prepare_transactions_df E df = Ok t →
  header t = transaction_columns ∧ length (rows t) = index df ∧
  ∀ i, i < index df → rows t !! i = Some (transaction_row E df i).
Proof.
  intros Hwf H. unfold _prepare_transactions_df in H. inv_bind H. inv_bind H.
  apply getitem_Ok in H_l0.
  apply select_rows in H as (Hh & Hlen & Hrows).
  split; [done|]. split; [done|].
  intros i Hi. rewrite (Hrows i Hi). f_equal.
  destruct (lookup_lt_is_Some_2 a0 i) as [x Hx]; [by rewrite (Hwf _ _ H_l0)|].
  unfold transaction_row, transaction_columns. simpl.
  unfold cell. rewrite columns_setitem_eq. rewrite !columns_setitem_ne by done.
  rewrite H_l0. simpl. rewrite map_lookup, Hx. done.
Qed.

(** ** Extraction and the empty input *)




(** ** The batch loader *)

Lemma ceil_div_0 b : 0 < b → ceil_div 0 b = 0.
Proof. intros Hb. unfold ceil_div. apply Nat.div_small. lia. Qed.

Lemma ceil_div_step n b : 0 < b → 0 < n → ceil_div n b = S (ceil_div (n - b) b).
Proof.
  intros Hb Hn. unfold ceil_div. destruct (decide (n ≤ b)) as [Hle|Hgt].
  - replace (n - b + b - 1) with (b - 1) by lia.
    replace (n + b - 1) with ((n - 1) + 1 * b) by lia.
    rewrite Nat.div_add by lia.
    rewrite (Nat.div_small (n - 1)), (Nat.div_small (b - 1)) by lia. done.
  - replace (n + b - 1) with ((n - b + b - 1) + 1 * b) by lia.
    rewrite Nat.div_add by lia. lia.
Qed.

Lemma ceil_div_bounds n b : 0 < b → n ≤ ceil_div n b * b < n + b.
Proof.
  intros Hb. unfold ceil_div.
  pose proof (Nat.div_mod_eq (n + b - 1) b) as Hdm.
  pose proof (Nat.mod_upper_bound (n + b - 1) b) as Hm. nia.
Qed.

(** The loop [for i in range(0, stop, step)] visits the multiples of
    [step] below [stop], of which there are [ceil(stop / step)]. *)
Lemma range_from_closed_form fuel i stop step :
  0 < step → stop - i ≤ fuel →
  range_from fuel i stop step
  = map (fun k => i + k * step) (seq 0 (ceil_div (stop - i) step)).
Proof.
  intros Hstep. revert i. induction fuel as [|fuel IH]; intros i Hfuel; simpl.
  - replace (stop - i) with 0 by lia. by rewrite ceil_div_0.
  - destruct (i <? stop) eqn:Hlt.
    + apply Nat.ltb_lt in Hlt.
      rewrite (ceil_div_step (stop - i) step) by lia. simpl.
      f_equal; [lia|]. rewrite IH by lia.
      rewrite <- seq_shift, map_map.
      replace (stop - i - step) with (stop - (i + step)) by lia.
      apply map_ext. intros k. lia.
    + apply Nat.ltb_ge in Hlt. replace (stop - i) with 0 by lia.
      by rewrite ceil_div_0.
Qed.

Lemma py_range_closed_form stop (step : nat) :
  0 < step →
  py_range stop (Z.of_nat step)
  = Ok (map (fun k => k * step) (seq 0 (ceil_div stop step))).
Proof.
  intros Hstep. unfold py_range.
  destruct (Z.of_nat step =? 0)%Z eqn:Hz; [apply Z.eqb_eq in Hz; lia|].
  destruct (Z.of_nat step <? 0)%Z eqn:Hn; [apply Z.ltb_lt in Hn; lia|].
  rewrite Nat2Z.id, range_from_closed_form by lia. rewrite Nat.sub_0_r. done.
Qed.

Lemma slice_end_of_nat n (j : nat) : slice_end n (Z.of_nat j) = j.
Proof.
  unfold slice_end. destruct (Z.of_nat j <? 0)%Z eqn:Hn; [apply Z.ltb_lt in Hn; lia|].
  apply Nat2Z.id.
Qed.

Section LoaderFacts.
Context {DB : Type}.
Context (to_sql : DB -> string -> Table -> DB * Result ()).

Lemma load_batches_in_order t table_name (batch_size : nat) starts st :
  load_batches to_sql t table_name (Z.of_nat batch_size) starts st
  = issue_in_order to_sql
      (map (fun i => {| target := table_name; batch := iloc t i (i + batch_size) |}) starts)
      st.
Proof.
  revert st. induction starts as [|i starts IH]; intros st; [done|].
  simpl. rewrite <- Nat2Z.inj_add, slice_end_of_nat.
  destruct (issue to_sql table_name _ st) as [st' [[]|e]]; [apply IH|done].
Qed.

Lemma _load_table_in_batches_in_order t table_name (batch_size : nat) st :
  0 < batch_size → header t ≠ [] →
  _load_table_in_batches to_sql t table_name (Z.of_nat batch_size) st
  = issue_in_order to_sql (chunk_writes table_name t batch_size) st.
Proof.
  intros Hb Hh. unfold _load_table_in_batches, table_empty, chunk_writes, chunks.
  case_bool_decide as Hrows; simpl.
  - rewrite Hrows, ceil_div_0 by done. done.
  - case_bool_decide as Hhead; [by destruct (header t)|]. simpl.
    unfold floor_div.
    destruct (Z.of_nat batch_size =? 0)%Z eqn:Hz; [apply Z.eqb_eq in Hz; lia|].
    rewrite py_range_closed_form by done.
    rewrite load_batches_in_order, !map_map. done.
Qed.

Lemma issue_in_order_app ws1 ws2 st :
  issue_in_order to_sql (ws1 ++ ws2) st
  = match issue_in_order to_sql ws1 st with
    | (st', Ok _) => issue_in_order to_sql ws2 st'
    | (st', Raise e) => (st', Raise e)
    end.
Proof.
  revert st. induction ws1 as [|w ws1 IH]; intros st; [done|].
  simpl. destruct (issue to_sql (target w) (batch w) st) as [st' [[]|e]]; [apply IH|done].
Qed.

(** What a run of [issue_in_order] leaves in the log of calls. *)
Lemma issue_in_order_calls ws st st' r :
  issue_in_order to_sql ws st = (st', r) →
  ∃ issued, calls st' = calls st ++ issued ∧ issued `prefix_of` ws ∧
    (is_ok r = true → issued = ws) ∧
    (is_ok r = false →
       ∃ before w rest st1 e,
         ws = before ++ w :: rest ∧ issued = before ++ [w] ∧
         issue_in_order to_sql before st = (st1, Ok ()) ∧
         (to_sql (db st1) (target w) (batch w)).2 = Raise e).
Proof.
  revert st. induction ws as [|[tg b] ws IH]; intros st H; simpl in H.
  - injection H as <- <-. exists []. rewrite app_nil_r. repeat split; try done.
  - set (w := {| target := tg; batch := b |}) in *. unfold issue in H at 1.
    destruct (to_sql (db st) tg b) as [db' [[]|e]] eqn:Hw.
    + apply IH in H as (issued & Hcalls & Hpre & Hok & Hfail). simpl in Hcalls.
      exists (w :: issued). split; [by rewrite Hcalls, <- app_assoc|].
      split; [by apply prefix_cons|]. split; [intros Hr; f_equal; auto|].
      intros Hr. destruct (Hfail Hr) as (before & w' & rest & st1 & e & -> & -> & Hb & He).
      exists (w :: before), w', rest, st1, e. repeat split; try done.
      simpl. unfold issue. by rewrite Hw.
    + injection H as <- <-. simpl. exists [w]. split; [done|].
      split; [apply prefix_cons, prefix_nil|]. split; [done|].
      intros _. exists [], w, ws, st, e. repeat split; try done.
      subst w. simpl. by rewrite Hw.
Qed.

End LoaderFacts.

(** ** The chunks of a table *)

Lemma concat_take_drop {A} (l : list A) b m :
  length l ≤ m * b →
  concat (map (fun k => take b (drop (k * b) l)) (seq 0 m)) = l.
Proof.
  revert l. induction m as [|m IH]; intros l Hl; simpl.
  - destruct l; [done|simpl in Hl; lia].
  - rewrite <- seq_shift, map_map.
    rewrite (map_ext _ (fun k => take b (drop (k * b) (drop b l)))).
    + rewrite IH by (rewrite length_drop; lia). apply take_drop.
    + intros k. rewrite drop_drop. f_equal.
Qed.

Lemma chunks_partition t batch_size :
  0 < batch_size →
  length (chunks t batch_size) = ceil_div (length (rows t)) batch_size ∧
  (∀ b, b ∈ chunks t batch_size → 0 < length (rows b) ≤ batch_size) ∧
  concat (map rows (chunks t batch_size)) = rows t.
Proof.
  intros Hb. unfold chunks. split; [by rewrite length_map, length_seq|]. split.
  - intros b Hin. apply list_elem_of_fmap in Hin as (k & -> & Hk).
    apply elem_of_seq in Hk. simpl.
    replace (k * batch_size + batch_size - k * batch_size) with batch_size by lia.
    rewrite length_take, length_drop.
    pose proof (ceil_div_bounds (length (rows t)) batch_size Hb). nia.
  - rewrite map_map. simpl.
    rewrite (map_ext _ (fun k => take batch_size (drop (k * batch_size) (rows t)))).
    + apply concat_take_drop. pose proof (ceil_div_bounds (length (rows t)) batch_size Hb).
      lia.
    + intros k. f_equal. lia.
Qed.

Lemma select_header df cols t : select df cols = Ok t → header t = cols.
Proof. intros H. by apply select_rows in H as (? & _). Qed.

Lemma _prepare_customers_df_header df t :
  _prepare_customers_df df = Ok t → header t = ["customer_id"].
Proof.
  unfold _prepare_customers_df. intros H. inv_bind H. injection H as <-.
  by apply select_header in H_l.
Qed.

Lemma _prepare_products_df_header df t :
  _prepare_products_df df = Ok t →
  header t = ["product_id"; "product_name"; "category"; "price"].
Proof.
  unfold _prepare_products_df. intros H. inv_bind H. injection H as <-.
  by apply select_header in H_l.
Qed.

Lemma _prepare_transactions_df_header E df t :
  _prepare_transactions_df E df = Ok t → header t = transaction_columns.
Proof.
  unfold _prepare_transactions_df. intros H. inv_bind H. inv_bind H.
  by apply select_header in H.
Qed.

(** C5: with a positive batch size, the loader issues exactly the writes of
    the plan "the chunks of customers, then those of products, then those
    of transactions", in that order, up to the first write that fails: the
    log of calls is a prefix of the plan; it is the whole plan when the
    loader returns [True]; when it returns [False] the log ends with the
    write that raised, and nothing after it is issued.  The chunks of a
    table are [ceil(n / batch_size)] consecutive slices, each of at least
    one and at most [batch_size] rows, which together are the rows of the
    table in their order. *)
Theorem batch_loading_follows_the_plan {DB : Type}
    (to_sql : DB -> string -> Table -> DB * Result ())
    (E : Externals) (df : DataFrame) (engine : DB) (batch_size : nat)
    (customers products transactions : Table) :
  0 < batch_size →
  _prepare_customers_df df = Ok customers →
  _prepare_products_df df = Ok products →
  _prepare_transactions_df E df = Ok transactions →
  let plan := chunk_writes "customers" customers batch_size
              ++ chunk_writes "products" products batch_size
              ++ chunk_writes "transactions" transactions batch_size in
  (∀ t, length (chunks t batch_size) = ceil_div (length (rows t)) batch_size ∧
        (∀ b, b ∈ chunks t batch_size → 0 < length (rows b) ≤ batch_size) ∧
        concat (map rows (chunks t batch_size)) = rows t) ∧
  ∃ st r,
    load_with_batch_processing to_sql E df (Some engine) (Z.of_nat batch_size)
      = (Some st, is_ok r) ∧
    issue_in_order to_sql plan {| db := engine; calls := [] |} = (st, r) ∧
    calls st `prefix_of` plan ∧
    (is_ok r = true → calls st = plan) ∧
    (is_ok r = false →
       ∃ before w rest st1 e,
         plan = before ++ w :: rest ∧ calls st = before ++ [w] ∧
         issue_in_order to_sql before {| db := engine; calls := [] |} = (st1, Ok ()) ∧
         (to_sql (db st1) (target w) (batch w)).2 = Raise e).
Proof.
  intros Hb Hc Hp Ht plan. split; [intros t; by apply chunks_partition|].
  assert (Hrun : load_tables to_sql E df (Z.of_nat batch_size)
                   {| db := engine; calls := [] |}
                 = issue_in_order to_sql plan {| db := engine; calls := [] |}).
  { pose proof (_prepare_customers_df_header _ _ Hc) as Hhc.
    pose proof (_prepare_products_df_header _ _ Hp) as Hhp.
    pose proof (_prepare_transactions_df_header _ _ _ Ht) as Hht.
    unfold load_tables. rewrite Hc, Hp, Ht. subst plan.
    rewrite _load_table_in_batches_in_order by (by rewrite ?Hhc).
    rewrite issue_in_order_app.
    destruct (issue_in_order to_sql (chunk_writes "customers" _ _) _) as [st1 [[]|e1]];
      [|done].
    rewrite _load_table_in_batches_in_order by (by rewrite ?Hhp).
    rewrite issue_in_order_app.
    destruct (issue_in_order to_sql (chunk_writes "products" _ _) _) as [st2 [[]|e2]];
      [|done].
    by rewrite _load_table_in_batches_in_order by (by rewrite ?Hht). }
  destruct (issue_in_order to_sql plan {| db := engine; calls := [] |}) as [st r] eqn:Hplan.
  exists st, r. split.
  { unfold load_with_batch_processing. by rewrite Hrun. }
  split; [done|].
  destruct (issue_in_order_calls _ _ _ _ _ Hplan) as (issued & Hcalls & Hpre & Hok & Hfail).
  simpl in Hcalls. subst issued. done.
Qed.

Lemma batch_loading_follows_the_plan_witness :
  ∃ st r,
    load_with_batch_processing reject_products sample_externals scenario_frame
      (Some ()) 1000 = (Some st, is_ok r) ∧
    issue_in_order reject_products
      (chunk_writes "customers" scenario_customers 1000
       ++ chunk_writes "products" scenario_products 1000
       ++ chunk_writes "transactions" scenario_transactions 1000)
      {| db := (); calls := [] |} = (st, r) ∧
    calls st `prefix_of`
      (chunk_writes "customers" scenario_customers 1000
       ++ chunk_writes "products" scenario_products 1000
       ++ chunk_writes "transactions" scenario_transactions 1000) ∧
    (is_ok r = true →
       calls st = chunk_writes "customers" scenario_customers 1000
                  ++ chunk_writes "products" scenario_products 1000
                  ++ chunk_writes "transactions" scenario_transactions 1000) ∧
    (is_ok r = false →
       ∃ before w rest st1 e,
         chunk_writes "customers" scenario_customers 1000
         ++ chunk_writes "products" scenario_products 1000
         ++ chunk_writes "transactions" scenario_transactions 1000
         = before ++ w :: rest ∧
         calls st = before ++ [w] ∧
         issue_in_order reject_products before {| db := (); calls := [] |} = (st1, Ok ()) ∧
         (reject_products (db st1) (target w) (batch w)).2 = Raise e).
Proof.
  apply (batch_loading_follows_the_plan reject_products sample_externals scenario_frame
           () 1000 scenario_customers scenario_products scenario_transactions).
  - lia.
  - apply ok_value_eq. vm_compute. reflexivity.
  - apply ok_value_eq. vm_compute. reflexivity.
  - apply ok_value_eq. vm_compute. reflexivity.
Defined.

(** The loader on the scenario, against a database that rejects the
    products: the customers are written, the write of the products is
    issued and fails, nothing is written to the transactions, and the
    loader returns [False]. *)
Example loading_stops_at_the_failed_write :
  ∃ st, load_with_batch_processing reject_products sample_externals scenario_frame
          (Some ()) 1000 = (Some st, false) ∧
        map target (calls st) = ["customers"; "products"].
Proof.
  exists (default {| db := (); calls := [] |}
            (load_with_batch_processing reject_products sample_externals scenario_frame
               (Some ()) 1000).1).
  split; vm_compute; reflexivity.
Qed.

(** ** The customer and the total value, for every input *)

Lemma add_column_same c col (m : gmap string (list Value)) :
  m !! c = None → add_column c col m !! c = col.
Proof.
  intros Hm. unfold add_column. destruct col; [by rewrite lookup_insert_eq|done].
Qed.

Lemma json_normalize_customer_id data :
  columns (json_normalize data) !! "customer_id" = column_of customer_id data.
Proof.
  unfold json_normalize. simpl. rewrite add_column_other by done.
  apply add_column_same. rewrite !add_column_other by done. apply lookup_empty.
Qed.

Lemma json_normalize_quantity data :
  columns (json_normalize data) !! "quantity" = column_of quantity data.
Proof.
  unfold json_normalize. simpl. rewrite !add_column_other by done.
  apply add_column_same. rewrite !add_column_other by done. apply lookup_empty.
Qed.

Lemma column_of_Some {A} (get : A -> option Value) data s :
  column_of get data = Some s → s = map (fun r => default VNull (get r)) data.
Proof. unfold column_of. case_match; [|done]. by intros [= <-]. Qed.

(** The flattening of the product touches the product columns only. *)
Lemma flatten_product_keeps df df' c :
  c ∉ ["product"; "product.id"; "product.name"; "product.category"; "product.price";
       "product_id"; "product_name"; "category"; "price"] →
  flatten_product df = Ok df' → columns df' !! c = columns df !! c.
Proof.
  rewrite !not_elem_of_cons. intros H. destruct_and!.
  unfold flatten_product. case_bool_decide.
  - intros [= <-]. by rewrite !rename_column_other.
  - unfold product_cols. simpl. intros Hf.
    repeat match goal with
    | H : _ ≫= _ = Ok _ |- _ => inv_bind H
    | H : mret _ = Ok _ |- _ => injection H as <-
    | H : Ok _ = Ok _ |- _ => injection H as <-
    end.
    change (col_name "id") with "product_id".
    change (col_name "name") with "product_name".
    change (col_name "category") with "category".
    change (col_name "price") with "price".
    unfold drop_column. simpl. rewrite lookup_delete_ne by done.
    by rewrite !lookup_insert_ne.
Qed.

(** The columns [_initial_prep] computes, from the input records. *)
Lemma initial_prep_columns E data f0 :
  _initial_prep E data = Ok f0 →
  ∃ p tv,
    columns f0 !! "customer_id"
      = Some (fillna (VStr "GUEST") (map (fun r => default VNull (customer_id r)) data)) ∧
    columns f0 !! "quantity" = Some (map (fun r => default VNull (quantity r)) data) ∧
    columns f0 !! "price" = Some (to_numeric E p) ∧
    columns f0 !! "total_value" = Some tv ∧
    series_mul (map (fun r => default VNull (quantity r)) data) (to_numeric E p) = Ok tv.
Proof.
  intros H. unfold _initial_prep in H. inv_bind H.
  pose proof (flatten_product_keeps _ _ "customer_id" ltac:(not_in_list) H_l) as Hc.
  pose proof (flatten_product_keeps _ _ "quantity" ltac:(not_in_list) H_l) as Hq.
  rewrite json_normalize_customer_id in Hc. rewrite json_normalize_quantity in Hq.
  repeat match goal with
  | H : _ ≫= _ = Ok _ |- _ => inv_bind H
  end.
  injection H as <-.
  repeat match goal with
  | H : getitem _ _ = Ok _ |- _ => apply getitem_Ok in H
  end.
  repeat match goal with
  | H : columns (setitem _ ?c _) !! ?c = Some _ |- _ =>
      rewrite columns_setitem_eq in H; injection H as <-
  | H : columns (setitem _ _ _) !! _ = Some _ |- _ =>
      rewrite columns_setitem_ne in H by done
  end.
  rewrite Hc in H_l0. rewrite Hq in H_l4.
  pose proof (column_of_Some _ _ _ H_l0) as ->.
  pose proof (column_of_Some _ _ _ H_l4) as ->.
  rewrite H_l0 in Hc. rewrite H_l4 in Hq.
  exists a3, a6.
  split; [rewrite !columns_setitem_ne by done; by rewrite columns_setitem_eq|].
  split; [by rewrite !columns_setitem_ne|].
  split; [rewrite !columns_setitem_ne by done; by rewrite columns_setitem_eq|].
  split; [rewrite !columns_setitem_ne by done; by rewrite columns_setitem_eq|].
  done.
Qed.

Lemma mask_sum_isna_fillna fill s :
  isna fill = false → mask_sum (map isna (fillna fill s)) = 0.
Proof.
  intros Hfill. unfold mask_sum, fillna. induction s as [|v s IH]; [done|].
  simpl. rewrite filter_cons. destruct (isna v) eqn:Hv.
  - rewrite Hfill. by rewrite decide_False.
  - rewrite Hv. by rewrite decide_False.
Qed.

Lemma series_mul_lookup a b r i u v :
  series_mul a b = Ok r → a !! i = Some u → b !! i = Some v →
  ∃ x y, to_float u = Ok x ∧ to_float v = Ok y
         ∧ r !! i = Some (VNum (PrimFloat.mul x y)).
Proof.
  unfold series_mul. intros Hr Hu Hv.
  assert (Hz : zip a b !! i = Some (u, v)) by (by apply zip_with_lookup_Some).
  destruct (mapM_Ok_lookup _ _ _ _ _ Hr Hz) as (w & Hw & Hi).
  simpl in Hw. inv_bind Hw. inv_bind Hw. injection Hw as <-. by exists a0, a1.
Qed.

Lemma series_abs_lookup s r i v :
  series_abs s = Ok r → s !! i = Some v →
  ∃ x, to_float v = Ok x ∧ r !! i = Some (VNum (PrimFloat.abs x)).
Proof.
  unfold series_abs. intros Hr Hv.
  destruct (mapM_Ok_lookup _ _ _ _ _ Hr Hv) as (w & Hw & Hi).
  inv_bind Hw. injection Hw as <-. by exists a.
Qed.

(** X1: for every input, detector 1 finds no missing customer, because
    [_initial_prep] has filled the nulls with ["GUEST"]. *)
Theorem missing_customer_never_flagged E data df :
  transform E data = Ok df →
  columns df !! "has_missing_customer" = Some (replicate (length data) (VBool false)) ∧
  columns df !! "customer_id"
    = Some (fillna (VStr "GUEST") (map (fun r => default VNull (customer_id r)) data)) ∧
  ∀ i r, data !! i = Some r →
    cell df "has_missing_customer" i = Some (VBool false) ∧
    cell df "customer_id" i
      = Some (if isna (default VNull (customer_id r)) then VStr "GUEST"
              else default VNull (customer_id r)).
Proof.
  intros Ht. apply transform_inv in Ht as (f0 & issues & Hprep & Hchecks).
  destruct (initial_prep_columns _ _ _ Hprep) as (p & tv & Hcid & _).
  destruct (well_formed_initial_prep _ _ _ Hprep) as [_ Hidx].
  apply perform_checks_inv in Hchecks
    as (f1 & f2 & f3 & f4 & f5 & f6 & f7 & n1 & n2 & n3 & n4 & n5 & n6 & n7 & n8
        & H1 & H2 & H3 & H4 & H5 & H6 & H7 & H8).
  apply _check_duplicate_transactions_inv in H3 as ->.
  apply _check_missing_product_info_inv in H4 as ->.
  apply _check_invalid_prices_inv in H5 as ->.
  apply _check_missing_transaction_ids_inv in H7 as ->.
  apply _check_missing_customer_inv in H1 as (c & Hc & Hn1 & Hf1).
  rewrite init_flags_other in Hc by done. rewrite Hcid in Hc. injection Hc as <-.
  rewrite mask_sum_isna_fillna in Hn1 by done. subst n1. simpl in Hf1. subst f1.
  assert (Hkeep : ∀ c, c ≠ "had_negative_quantity" → c ≠ "quantity" →
                    c ≠ "had_date_format_issue" → c ≠ "has_suspicious_values" →
                    columns df !! c = columns (init_flags f0) !! c).
  { intros c ? ? ? ?.
    rewrite (_check_suspicious_values_other _ _ _ c H8) by done.
    rewrite (_check_date_issues_other _ _ _ c H6) by done.
    by rewrite (_check_negative_quantities_other _ _ _ c H2). }
  assert (Hflag : columns df !! "has_missing_customer"
                  = Some (replicate (length data) (VBool false))).
  { rewrite Hkeep by done. unfold init_flags, setitem_scalar.
    rewrite !columns_setitem_ne by done. by rewrite columns_setitem_eq, Hidx. }
  assert (Hcust : columns df !! "customer_id"
                  = Some (fillna (VStr "GUEST")
                            (map (fun r => default VNull (customer_id r)) data))).
  { rewrite Hkeep by done. by rewrite init_flags_other. }
  split; [done|]. split; [done|].
  intros i r Hi. unfold cell. rewrite Hflag, Hcust. simpl. split.
  - apply lookup_replicate_2. by eapply lookup_lt_Some.
  - unfold fillna. rewrite !map_lookup, Hi. done.
Qed.

Lemma missing_customer_never_flagged_witness :
  columns scenario_frame !! "has_missing_customer"
    = Some (replicate (length [scenario_record]) (VBool false)) ∧
  columns scenario_frame !! "customer_id"
    = Some (fillna (VStr "GUEST")
              (map (fun r => default VNull (customer_id r)) [scenario_record])) ∧
  ∀ i r, [scenario_record] !! i = Some r →
    cell scenario_frame "has_missing_customer" i = Some (VBool false) ∧
    cell scenario_frame "customer_id" i
      = Some (if isna (default VNull (customer_id r)) then VStr "GUEST"
              else default VNull (customer_id r)).
Proof.
  apply (missing_customer_never_flagged sample_externals [scenario_record]).
  apply ok_value_eq. vm_compute. reflexivity.
Defined.

(** X2: for every input, the total value of a row is the product of the
    quantity as read in the record and the price, while the quantity of the
    final row is the one read or its absolute value.  The product and the
    absolute value are those of the numbers themselves for operands in the
    range where no arithmetic of pandas rounds or wraps around
    ([in_exact_range]). *)
Theorem total_value_from_the_quantity_as_read E data df :
  transform E data = Ok df →
  ∀ i r, data !! i = Some r →
    ∃ x vp y vtv vq,
      to_float (default VNull (quantity r)) = Ok x ∧
      cell df "price" i = Some vp ∧ to_float vp = Ok y ∧
      cell df "total_value" i = Some vtv ∧
      cell df "quantity" i = Some vq ∧
      (in_exact_range x = true → in_exact_range y = true →
         vtv = VNum (PrimFloat.mul x y)) ∧
      (in_exact_range x = true →
         vq = default VNull (quantity r) ∨ vq = VNum (PrimFloat.abs x)).
Proof.
  intros Ht i r Hi. apply transform_inv in Ht as (f0 & issues & Hprep & Hchecks).
  destruct (initial_prep_columns _ _ _ Hprep) as (p & tv & _ & Hq & Hp & Htv & Hmul).
  destruct (well_formed_initial_prep _ _ _ Hprep) as [Hwf Hidx].
  apply perform_checks_inv in Hchecks
    as (f1 & f2 & f3 & f4 & f5 & f6 & f7 & n1 & n2 & n3 & n4 & n5 & n6 & n7 & n8
        & H1 & H2 & H3 & H4 & H5 & H6 & H7 & H8).
  apply _check_duplicate_transactions_inv in H3 as ->.
  apply _check_missing_product_info_inv in H4 as ->.
  apply _check_invalid_prices_inv in H5 as ->.
  apply _check_missing_transaction_ids_inv in H7 as ->.
  assert (Hlate : ∀ c, c ≠ "had_date_format_issue" → c ≠ "has_suspicious_values" →
                    columns df !! c = columns f2 !! c).
  { intros c ? ?. rewrite (_check_suspicious_values_other _ _ _ c H8) by done.
    by rewrite (_check_date_issues_other _ _ _ c H6). }
  assert (Hearly : ∀ c, c ≠ "has_missing_customer" → c ≠ "customer_id" →
                     c ≠ "had_negative_quantity" → c ≠ "has_suspicious_values" →
                     columns f1 !! c = columns f0 !! c).
  { intros c ? ? ? ?. rewrite (_check_missing_customer_other _ _ _ c H1) by done.
    by rewrite init_flags_other. }
  assert (Hqi : map (fun r => default VNull (quantity r)) data !! i
                = Some (default VNull (quantity r))) by (by rewrite map_lookup, Hi).
  destruct (lookup_lt_is_Some_2 (to_numeric E p) i) as [vp Hvp].
  { rewrite (Hwf _ _ Hp), Hidx. by eapply lookup_lt_Some. }
  destruct (series_mul_lookup _ _ _ _ _ _ Hmul Hqi Hvp) as (x & y & Hx & Hy & Htvi).
  exists x, vp, y, (VNum (PrimFloat.mul x y)).
  assert (Hprice : cell df "price" i = Some vp).
  { unfold cell. rewrite Hlate by done.
    rewrite (_check_negative_quantities_other _ _ _ "price" H2) by done.
    rewrite Hearly by done. rewrite Hp. done. }
  assert (Htotal : cell df "total_value" i = Some (VNum (PrimFloat.mul x y))).
  { unfold cell. rewrite Hlate by done.
    rewrite (_check_negative_quantities_other _ _ _ "total_value" H2) by done.
    rewrite Hearly by done. rewrite Htv. done. }
  apply _check_negative_quantities_inv in H2
    as (q & negative & Hq1 & _ & _ & [[_ ->]|[_ (a & Ha & ->)]]).
  - exists (default VNull (quantity r)). do 4 (split; [done|]).
    split; [|split; [done|by left]].
    unfold cell. rewrite Hlate by done. rewrite Hearly by done. by rewrite Hq.
  - rewrite Hearly in Hq1 by done. rewrite Hq in Hq1. injection Hq1 as <-.
    destruct (series_abs_lookup _ _ _ _ Ha Hqi) as (x' & Hx' & Hai).
    rewrite Hx in Hx'. injection Hx' as <-.
    exists (VNum (PrimFloat.abs x)). do 4 (split; [done|]).
    split; [|split; [done|by right]].
    unfold cell. rewrite Hlate by done. by rewrite columns_setitem_eq.
Qed.

(** On the scenario record, whose quantity is -3 and whose price is 25:
    both are in the exact range, and the total value is their product. *)
Lemma total_value_from_the_quantity_as_read_witness :
  in_exact_range (-3) = true ∧ in_exact_range 25 = true ∧
  cell scenario_frame "total_value" 0 = Some (VNum (PrimFloat.mul (-3) 25)) ∧
  (cell scenario_frame "quantity" 0 = Some (VNum (-3)) ∨
   cell scenario_frame "quantity" 0 = Some (VNum (PrimFloat.abs (-3)))).
Proof.
  assert (Ht : transform sample_externals [scenario_record] = Ok scenario_frame)
    by (apply ok_value_eq; vm_compute; reflexivity).
  destruct (total_value_from_the_quantity_as_read sample_externals [scenario_record]
              scenario_frame Ht 0 scenario_record eq_refl)
    as (x & vp & y & vtv & vq & Hx & Hp & Hy & Htv & Hq & Hmul & Habs).
  vm_compute in Hx. injection Hx as <-.
  vm_compute in Hp. injection Hp as <-.
  vm_compute in Hy. injection Hy as <-.
  split; [reflexivity|]. split; [reflexivity|].
  rewrite Htv, Hq. split.
  - f_equal. apply Hmul; reflexivity.
  - destruct (Habs eq_refl) as [->| ->]; [by left|by right].
Defined.

(** ** Dates, given what the parser does *)

(** X3: the three examples of the specification, for a parser that reads
    ["2023-07-22"] and finds no date in the other strings. *)
Theorem standardize_date_examples E :
  date_parse E "2023-07-22" = Parsed {| year := 2023; month := 7; day := 22 |} →
  date_parse E "20 23-07-22" = ParseRaises ValueError →
  date_parse E "not a date" = ParseRaises ValueError →
  date_parse E "not-a-date" = ParseRaises ValueError →
  standardize_date E (VStr "2023-07-22") = Ok (VStr "2023-07-22") ∧
  standardize_date E (VStr "20 23-07-22") = Ok (VStr "2023-07-22") ∧
  standardize_date E (VStr "not a date") = Ok VNull.
Proof.
  intros Hiso Hsplit Hwords Hhyphens. unfold standardize_date. simpl.
  change (strip "2023-07-22") with "2023-07-22".
  change (strip "20 23-07-22") with "20 23-07-22".
  change (strip "not a date") with "not a date".
  rewrite Hiso, Hsplit, Hwords. simpl.
  change (fix_malformed "20 23-07-22") with "2023-07-22".
  change (fix_malformed "not a date") with "not-a-date".
  rewrite Hiso, Hhyphens. done.
Qed.

Lemma standardize_date_examples_witness :
  standardize_date sample_externals (VStr "2023-07-22") = Ok (VStr "2023-07-22") ∧
  standardize_date sample_externals (VStr "20 23-07-22") = Ok (VStr "2023-07-22") ∧
  standardize_date sample_externals (VStr "not a date") = Ok VNull.
Proof.
  apply (standardize_date_examples sample_externals); reflexivity.
Defined.














(** ** Records without a product, in a batch that has products *)

Lemma rename_column_new old new df :
  columns df !! new = None →
  columns (rename_column old new df) !! new = columns df !! old.
Proof.
  intros Hnew. unfold rename_column. destruct (columns df !! old) as [s|] eqn:Hold.
  - simpl. by rewrite lookup_insert_eq.
  - done.
Qed.

Lemma json_normalize_absent data c :
  c ∉ ["transaction_id"; "customer_id"; "product"; "product.id"; "product.name";
       "product.category"; "product.price"; "quantity"; "date"; "region"] →
  columns (json_normalize data) !! c = None.
Proof.
  rewrite !not_elem_of_cons. intros H. destruct_and!.
  unfold json_normalize. simpl.
  rewrite !add_column_other by done. apply lookup_empty.
Qed.

Lemma column_of_lookup {A} (get : A -> option Value) data s i r :
  column_of get data = Some s → data !! i = Some r →
  s !! i = Some (default VNull (get r)).
Proof.
  intros Hs Hr. apply column_of_Some in Hs as ->. by rewrite map_lookup, Hr.
Qed.

Lemma json_normalize_product_columns data :
  columns (json_normalize data) !! "product.id" = column_of (product_key id) data ∧
  columns (json_normalize data) !! "product.name" = column_of (product_key name) data ∧
  columns (json_normalize data) !! "product.category"
    = column_of (product_key category) data ∧
  columns (json_normalize data) !! "product.price" = column_of (product_key price) data.
Proof.
  unfold json_normalize. simpl.
  repeat split;
    rewrite !add_column_other by done;
    apply add_column_same; rewrite ?add_column_other by done; apply lookup_empty.
Qed.

(** X5: when the batch is flattened without an exception, a record with
    no key [product] has a null in each of the columns [product_id],
    [product_name], [category] and [price] that the frame has. *)
Theorem lacking_product_gives_nulls data df :
  flatten_product (json_normalize data) = Ok df →
  ∀ i r, data !! i = Some r → product r = None →
  ∀ c, c ∈ ["product_id"; "product_name"; "category"; "price"] →
  ∀ v, cell df c i = Some v → v = VNull.
Proof.
  intros Hflat i r Hi Hnone c Hc v Hv.
  destruct (json_normalize_product_columns data) as (Hid & Hname & Hcat & Hprice).
  assert (Hkey : ∀ get, product_key get r = None)
    by (intros get; unfold product_key; by rewrite Hnone).
  unfold flatten_product in Hflat. case_bool_decide as Hhas.
  - injection Hflat as <-. unfold cell in Hv.
    rewrite !elem_of_cons, elem_of_nil in Hc.
    destruct Hc as [->|[->|[->|[->|[]]]]].
    + rewrite !rename_column_other in Hv by done.
      rewrite rename_column_new in Hv by (by apply json_normalize_absent; not_in_list).
      rewrite Hid in Hv. destruct (column_of (product_key id) data) as [s|] eqn:Hs; [|done].
      simpl in Hv. rewrite (column_of_lookup _ _ _ _ _ Hs Hi), Hkey in Hv.
      by injection Hv as <-.
    + rewrite !rename_column_other in Hv by done.
      rewrite rename_column_new in Hv.
      2:{ rewrite rename_column_other by done.
          by apply json_normalize_absent; not_in_list. }
      rewrite rename_column_other in Hv by done.
      rewrite Hname in Hv.
      destruct (column_of (product_key name) data) as [s|] eqn:Hs; [|done].
      simpl in Hv. rewrite (column_of_lookup _ _ _ _ _ Hs Hi), Hkey in Hv.
      by injection Hv as <-.
    + rewrite !rename_column_other in Hv by done.
      rewrite rename_column_new in Hv.
      2:{ rewrite !rename_column_other by done.
          by apply json_normalize_absent; not_in_list. }
      rewrite !rename_column_other in Hv by done.
      rewrite Hcat in Hv.
      destruct (column_of (product_key category) data) as [s|] eqn:Hs; [|done].
      simpl in Hv. rewrite (column_of_lookup _ _ _ _ _ Hs Hi), Hkey in Hv.
      by injection Hv as <-.
    + rewrite rename_column_new in Hv.
      2:{ rewrite !rename_column_other by done.
          by apply json_normalize_absent; not_in_list. }
      rewrite !rename_column_other in Hv by done.
      rewrite Hprice in Hv.
      destruct (column_of (product_key price) data) as [s|] eqn:Hs; [|done].
      simpl in Hv. rewrite (column_of_lookup _ _ _ _ _ Hs Hi), Hkey in Hv.
      by injection Hv as <-.
  - unfold product_cols in Hflat. simpl in Hflat.
    repeat match goal with
    | H : _ ≫= _ = Ok _ |- _ => inv_bind H
    | H : mret _ = Ok _ |- _ => injection H as <-
    | H : Ok _ = Ok _ |- _ => injection H as <-
    end.
    change (col_name "id") with "product_id" in *.
    change (col_name "name") with "product_name" in *.
    change (col_name "category") with "category" in *.
    change (col_name "price") with "price" in *.
    unfold cell, drop_column in Hv. simpl in Hv.
    rewrite !elem_of_cons, elem_of_nil in Hc.
    destruct Hc as [->|[->|[->|[->|[]]]]];
      rewrite lookup_delete_ne in Hv by done;
      rewrite ?lookup_insert_ne in Hv by done;
      rewrite lookup_insert_eq in Hv; simpl in Hv;
      rewrite map_lookup in Hv;
      match type of Hv with
      | _ <$> ?o = Some _ => destruct o; [by injection Hv as <-|done]
      end.
Qed.

Lemma lacking_product_gives_nulls_witness :
  cell (ok_value empty_frame
          (flatten_product (json_normalize [scenario_record; no_product_record])))
       "product_id" 1 = Some VNull ∧
  ∀ v, cell (ok_value empty_frame
               (flatten_product (json_normalize [scenario_record; no_product_record])))
            "product_id" 1 = Some v → v = VNull.
Proof.
  split; [vm_compute; reflexivity|].
  apply (lacking_product_gives_nulls [scenario_record; no_product_record] _
           ltac:(apply ok_value_eq; vm_compute; reflexivity)
           1 no_product_record); [reflexivity|reflexivity|].
  rewrite !elem_of_cons. by left.
Defined.

(** ** Comparisons of floating-point numbers *)

Lemma eqb_refl_of_not_nan x : PrimFloat.is_nan x = false → PrimFloat.eqb x x = true.
Proof. unfold PrimFloat.is_nan. by intros ?%negb_false_iff. Qed.

Lemma SFcompare_Eq_sym a b : SFcompare a b = Some Eq → SFcompare b a = Some Eq.
Proof.
  destruct a as [[]|[]| |[] m1 e1], b as [[]|[]| |[] m2 e2]; simpl; try done.
  - destruct (Z.compare e1 e2) eqn:He; try done.
    apply Z.compare_eq in He as ->. rewrite Z.compare_refl.
    intros [= H]. f_equal. 
    destruct (Pos.compare_cont Eq m1 m2) eqn:Hm; try done.
    apply Pos.compare_eq in Hm as ->. by rewrite Pos.compare_cont_refl.
  - destruct (Z.compare e1 e2) eqn:He; try done.
    apply Z.compare_eq in He as ->. rewrite Z.compare_refl.
    intros [= H]. f_equal.
    destruct (Pos.compare_cont Eq m1 m2) eqn:Hm; try done.
    apply Pos.compare_eq in Hm as ->. by rewrite Pos.compare_cont_refl.
Qed.

Lemma float_eqb_sym x y : PrimFloat.eqb x y = PrimFloat.eqb y x.
Proof.
  rewrite !FloatAxioms.eqb_spec. unfold SFeqb.
  destruct (SFcompare (Prim2SF x) (Prim2SF y)) as [[]|] eqn:H1.
  - by rewrite (SFcompare_Eq_sym _ _ H1).
  - destruct (SFcompare (Prim2SF y) (Prim2SF x)) as [[]|] eqn:H2; try done.
    apply SFcompare_Eq_sym in H2. congruence.
  - destruct (SFcompare (Prim2SF y) (Prim2SF x)) as [[]|] eqn:H2; try done.
    apply SFcompare_Eq_sym in H2. congruence.
  - destruct (SFcompare (Prim2SF y) (Prim2SF x)) as [[]|] eqn:H2; try done.
    apply SFcompare_Eq_sym in H2. congruence.
Qed.

Lemma abs_not_negative x : PrimFloat.ltb (PrimFloat.abs x) PrimFloat.zero = false.
Proof.
  rewrite FloatAxioms.ltb_spec, FloatAxioms.abs_spec. 
  change (Prim2SF PrimFloat.zero) with (S754_zero false).
  unfold SFltb. by destruct (Prim2SF x) as [[]|[]| |[] m e].
Qed.

(** ** Negative quantities *)

(** X6: for every input on which the transform returns, the flag
    [had_negative_quantity] of a row tells whether the quantity read in the
    record is below zero; and for a quantity in the range where the
    absolute value of pandas does not wrap around ([in_exact_range]), a
    flagged row holds the absolute value of that quantity, and the quantity
    of the result is not below zero. *)
Theorem negative_quantities_flagged_and_repaired E data df :
  transform E data = Ok df →
  ∀ i r, data !! i = Some r →
    ∃ x vq y,
      to_float (default VNull (quantity r)) = Ok x ∧
      cell df "had_negative_quantity" i = Some (VBool (PrimFloat.ltb x 0)) ∧
      cell df "quantity" i = Some vq ∧ to_float vq = Ok y ∧
      (in_exact_range x = true →
         PrimFloat.ltb y 0 = false ∧
         (PrimFloat.ltb x 0 = true → vq = VNum (PrimFloat.abs x))).
Proof.
  intros Ht i r Hi. apply transform_inv in Ht as (f0 & issues & Hprep & Hchecks).
  destruct (initial_prep_columns _ _ _ Hprep) as (p & tv & _ & Hq & _).
  destruct (well_formed_initial_prep _ _ _ Hprep) as [Hwf Hidx].
  apply perform_checks_inv in Hchecks
    as (f1 & f2 & f3 & f4 & f5 & f6 & f7 & n1 & n2 & n3 & n4 & n5 & n6 & n7 & n8
        & H1 & H2 & H3 & H4 & H5 & H6 & H7 & H8).
  apply _check_duplicate_transactions_inv in H3 as ->.
  apply _check_missing_product_info_inv in H4 as ->.
  apply _check_invalid_prices_inv in H5 as ->.
  apply _check_missing_transaction_ids_inv in H7 as ->.
  assert (Hlate : ∀ c, c ≠ "had_date_format_issue" → c ≠ "has_suspicious_values" →
                    columns df !! c = columns f2 !! c).
  { intros c ? ?. rewrite (_check_suspicious_values_other _ _ _ c H8) by done.
    by rewrite (_check_date_issues_other _ _ _ c H6). }
  assert (Hq1 : columns f1 !! "quantity"
                = Some (map (fun r => default VNull (quantity r)) data)).
  { rewrite (_check_missing_customer_other _ _ _ "quantity" H1) by done.
    by rewrite init_flags_other. }
  assert (Hflag1 : columns f1 !! "had_negative_quantity"
                   = Some (replicate (length data) (VBool false))).
  { rewrite (_check_missing_customer_other _ _ _ "had_negative_quantity" H1) by done.
    unfold init_flags, setitem_scalar.
    rewrite columns_setitem_ne by done. rewrite columns_setitem_eq.
    by rewrite index_setitem, Hidx. }
  assert (Hqi : map (fun r => default VNull (quantity r)) data !! i
                = Some (default VNull (quantity r))) by (by rewrite map_lookup, Hi).
  apply _check_negative_quantities_inv in H2
    as (q & negative & Hq2 & Hneg & Hn2 & Hcases).
  rewrite Hq1 in Hq2. injection Hq2 as <-.
  destruct (compare_scalar_lookup _ _ _ _ _ _ Hneg Hqi) as (x & Hx & Hni).
  exists x.
  destruct Hcases as [[Hz ->]|[_ (a & Ha & ->)]].
  - assert (Hlt : PrimFloat.ltb x 0 = false).
    { apply (mask_sum_0 negative i); [|done].
      apply Nat.ltb_ge in Hz. lia. }
    exists (default VNull (quantity r)), x. split; [done|]. split.
    { unfold cell. rewrite Hlate by done. rewrite Hflag1. simpl. rewrite Hlt.
      apply lookup_replicate_2. by eapply lookup_lt_Some. }
    split. { unfold cell. rewrite Hlate by done. by rewrite Hq1. }
    split; [done|]. intros _. split; [done|]. by rewrite Hlt.
  - destruct (series_abs_lookup _ _ _ _ Ha Hqi) as (x' & Hx' & Hai).
    rewrite Hx in Hx'. injection Hx' as <-.
    exists (VNum (PrimFloat.abs x)), (PrimFloat.abs x). split; [done|]. split.
    { unfold cell. rewrite Hlate by done. rewrite columns_setitem_ne by done.
      rewrite columns_setitem_eq. simpl. by rewrite mask_series_lookup, Hni. }
    split. { unfold cell. rewrite Hlate by done. by rewrite columns_setitem_eq. }
    split; [done|]. intros _. split; [apply abs_not_negative|done].
Qed.

(** On the scenario record, whose quantity is -3: the row is flagged and
    holds 3. *)
Lemma negative_quantities_flagged_and_repaired_witness :
  in_exact_range (-3) = true ∧
  cell scenario_frame "had_negative_quantity" 0 = Some (VBool true) ∧
  cell scenario_frame "quantity" 0 = Some (VNum 3).
Proof.
  assert (Ht : transform sample_externals [scenario_record] = Ok scenario_frame)
    by (apply ok_value_eq; vm_compute; reflexivity).
  destruct (negative_quantities_flagged_and_repaired sample_externals [scenario_record]
              scenario_frame Ht 0 scenario_record eq_refl)
    as (x & vq & y & Hx & Hflag & Hq & Hy & Hrange).
  vm_compute in Hx. injection Hx as <-.
  split; [reflexivity|].
  rewrite Hflag, Hq. split; [reflexivity|].
  destruct (Hrange eq_refl) as [_ Habs]. by rewrite (Habs eq_refl).
Defined.

(** ** Duplicate transaction identifiers *)

Lemma py_eq_sym u v : py_eq u v = py_eq v u.
Proof.
  destruct u as [|b|x|s], v as [|c|y|t]; simpl; try done.
  - by destruct b, c.
  - apply float_eqb_sym.
  - apply float_eqb_sym.
  - apply float_eqb_sym.
  - apply String.eqb_sym.
Qed.

Lemma same_value_refl v : same_value v v = true.
Proof.
  unfold same_value. destruct (isna v) eqn:Hv; [done|]. simpl.
  destruct v as [|b|x|s]; simpl in *; try done.
  - by destruct b.
  - by apply eqb_refl_of_not_nan.
  - apply String.eqb_refl.
Qed.

Lemma same_value_sym u v : same_value u v = same_value v u.
Proof.
  unfold same_value.
  by rewrite (andb_comm (isna u)), (orb_comm (isna u)), (py_eq_sym u).
Qed.

Lemma filter_length_pos {A} (P : A → Prop) `{!∀ x, Decision (P x)} (l : list A) x :
  x ∈ l → P x → 0 < length (filter P l).
Proof.
  intros Hx HP. assert (Hin : x ∈ filter P l) by (by apply list_elem_of_filter).
  destruct (filter P l); [by apply elem_of_nil in Hin|simpl; lia].
Qed.

Lemma filter_length_pos_inv {A} (P : A → Prop) `{!∀ x, Decision (P x)} (l : list A) :
  0 < length (filter P l) → ∃ x, x ∈ l ∧ P x.
Proof.
  destruct (filter P l) as [|x k] eqn:Hf; [simpl; lia|]. intros _.
  assert (Hin : x ∈ filter P l) by (rewrite Hf; apply list_elem_of_here).
  apply list_elem_of_filter in Hin as [? ?]. by exists x.
Qed.

Lemma filter_length_middle {A} (P : A → Prop) `{!∀ x, Decision (P x)} (l : list A) i x :
  l !! i = Some x → P x →
  length (filter P l)
  = S (length (filter P (take i l)) + length (filter P (drop (S i) l))).
Proof.
  intros Hi HP. rewrite <- (take_drop_middle l i x Hi) at 1.
  rewrite filter_app, filter_cons_True by done. rewrite length_app. simpl. lia.
Qed.

(** An element counted twice by a filter has a twin at another position. *)
Lemma filter_length_twin {A} (P : A → Prop) `{!∀ x, Decision (P x)} (l : list A) i x :
  l !! i = Some x → P x →
  2 ≤ length (filter P l) ↔ ∃ j y, j ≠ i ∧ l !! j = Some y ∧ P y.
Proof.
  intros Hi HP. rewrite (filter_length_middle P l i x Hi HP). split.
  - intros Hlen.
    destruct (decide (0 < length (filter P (take i l)))) as [Ha|Ha].
    + apply filter_length_pos_inv in Ha as (y & Hy & HPy).
      apply list_elem_of_lookup in Hy as [j Hj].
      apply lookup_take_Some in Hj as [Hj Hlt]. exists j, y. split; [lia|done].
    + assert (Hb : 0 < length (filter P (drop (S i) l))) by lia.
      apply filter_length_pos_inv in Hb as (y & Hy & HPy).
      apply list_elem_of_lookup in Hy as [j Hj]. rewrite lookup_drop in Hj.
      exists (S i + j), y. split; [lia|done].
  - intros (j & y & Hne & Hj & HPy).
    destruct (decide (j < i)) as [Hlt|Hge].
    + assert (0 < length (filter P (take i l))); [|lia].
      apply (filter_length_pos P _ y); [|done].
      apply list_elem_of_lookup. exists j. by apply lookup_take_Some.
    + assert (0 < length (filter P (drop (S i) l))); [|lia].
      apply (filter_length_pos P _ y); [|done].
      apply list_elem_of_lookup. exists (j - S i). rewrite lookup_drop.
      by replace (S i + (j - S i)) with j by lia.
Qed.

Lemma mask_sum_pos m : 0 < mask_sum m → ∃ i, m !! i = Some true.
Proof.
  unfold mask_sum. intros H. apply filter_length_pos_inv in H as (b & Hb & ->).
  by apply list_elem_of_lookup in Hb.
Qed.

Lemma mask_sum_two m i j :
  i ≠ j → m !! i = Some true → m !! j = Some true → 2 ≤ mask_sum m.
Proof.
  intros Hne Hi Hj. unfold mask_sum.
  apply (filter_length_twin (fun b => b = true) m i true Hi eq_refl).
  by exists j, true.
Qed.

Lemma duplicated_all_true s i v :
  s !! i = Some v →
  duplicated_all s !! i = Some true
  ↔ ∃ j u, j ≠ i ∧ s !! j = Some u ∧ same_value v u = true.
Proof.
  intros Hi. unfold duplicated_all. rewrite map_lookup, Hi.
  change (Some (2 <=? length (filter (fun u => same_value v u = true) s)) = Some true
          ↔ ∃ j u, j ≠ i ∧ s !! j = Some u ∧ same_value v u = true).
  rewrite <- (filter_length_twin (fun u => same_value v u = true) s i v Hi
                (same_value_refl v)).
  generalize (length (filter (fun u => same_value v u = true) s)). intros n.
  rewrite <- Nat.leb_le. split.
  - intros H. by apply (inj Some) in H.
  - by intros ->.
Qed.

Lemma duplicated_all_length s : length (duplicated_all s) = length s.
Proof. unfold duplicated_all. apply length_map. Qed.

Lemma mask_sum_le m : mask_sum m ≤ length m.
Proof. unfold mask_sum. apply length_filter. Qed.

(** X7: the count of [_check_duplicate_transactions] counts every copy of
    a repeated identifier (two nulls are copies of each other): it is never
    1, it is at most the number of rows, and it is 0 exactly when the
    identifiers differ pairwise. *)
Theorem duplicate_count_is_never_one df df' n :
  _check_duplicate_transactions df = Ok (df', n) →
  ∃ t, columns df !! "transaction_id" = Some t ∧ n ≠ 1 ∧ n ≤ length t ∧
    (n = 0 ↔ ∀ i j u v, i ≠ j → t !! i = Some u → t !! j = Some v →
                         same_value u v = false).
Proof.
  unfold _check_duplicate_transactions. intros H. inv_bind H.
  apply getitem_Ok in H_l. injection H as _ <-. exists a. split; [done|].
  assert (Htwin : ∀ i, duplicated_all a !! i = Some true →
            ∃ j, j ≠ i ∧ duplicated_all a !! j = Some true ∧
                 ∃ u v, a !! i = Some u ∧ a !! j = Some v ∧ same_value u v = true).
  { intros i Hi.
    destruct (lookup_lt_is_Some_2 a i) as [u Hu].
    { rewrite <- duplicated_all_length. by eapply lookup_lt_Some. }
    pose proof Hi as Hi'.
    apply (duplicated_all_true a i u Hu) in Hi' as (j & v & Hne & Hv & Hs).
    exists j. split; [done|]. split; [|by exists u, v].
    apply (duplicated_all_true a j v Hv). exists i, u. split; [done|].
    split; [done|]. by rewrite same_value_sym. }
  split; [|split; [|split]].
  - intros Hone.
    destruct (mask_sum_pos (duplicated_all a)) as [i Hi]; [lia|].
    destruct (Htwin i Hi) as (j & Hne & Hj & _).
    pose proof (mask_sum_two _ i j ltac:(done) Hi Hj). lia.
  - rewrite <- duplicated_all_length. apply mask_sum_le.
  - intros Hz i j u v Hne Hu Hv.
    destruct (same_value u v) eqn:Hs; [|done].
    assert (Hd : duplicated_all a !! i = Some true).
    { apply (duplicated_all_true a i u Hu). by exists j, v. }
    by apply (mask_sum_0 _ _ _ Hz) in Hd.
  - intros Hall. destruct (decide (mask_sum (duplicated_all a) = 0)) as [|Hnz]; [done|].
    destruct (mask_sum_pos (duplicated_all a)) as [i Hi]; [lia|].
    destruct (Htwin i Hi) as (j & Hne & _ & u & v & Hu & Hv & Hs).
    rewrite (Hall i j u v) in Hs; done.
Qed.

Lemma duplicate_count_is_never_one_witness :
  ∃ t, columns (setitem {| index := 3; columns := ∅ |} "transaction_id"
                  [VStr "T001"; VStr "T002"; VStr "T001"]) !! "transaction_id" = Some t ∧
    2 ≠ 1 ∧ 2 ≤ length t ∧
    (2 = 0 ↔ ∀ i j u v, i ≠ j → t !! i = Some u → t !! j = Some v →
                         same_value u v = false).
Proof.
  apply (duplicate_count_is_never_one
           (setitem {| index := 3; columns := ∅ |} "transaction_id"
              [VStr "T001"; VStr "T002"; VStr "T001"])
           (setitem {| index := 3; columns := ∅ |} "transaction_id"
              [VStr "T001"; VStr "T002"; VStr "T001"]) 2).
  reflexivity.
Defined.

(** ** The projections of customers and products *)

Lemma same_row_refl r : same_row r r = true.
Proof.
  unfold same_row. rewrite bool_decide_eq_true_2 by done. simpl.
  induction r as [|v r IH]; [done|]. simpl. by rewrite same_value_refl.
Qed.

Lemma same_row_sym r1 r2 : same_row r1 r2 = same_row r2 r1.
Proof.
  unfold same_row. f_equal.
  - apply bool_decide_ext. split; intros; done.
  - revert r2. induction r1 as [|u r1 IH]; intros [|v r2]; simpl; try done.
    by rewrite same_value_sym, IH.
Qed.

Lemma existsb_elem_of {A} (f : A → bool) (l : list A) :
  existsb f l = true ↔ ∃ x, x ∈ l ∧ f x = true.
Proof.
  induction l as [|a l IH]; simpl.
  - split; [done|]. intros (x & Hx & _). by apply elem_of_nil in Hx.
  - rewrite orb_true_iff, IH. split.
    + intros [Ha|(x & Hx & Hf)]; [exists a|exists x]; split; try done.
      * apply list_elem_of_here.
      * by apply list_elem_of_further.
    + intros (x & Hx & Hf). apply elem_of_cons in Hx as [->|Hx]; [by left|].
      right. by exists x.
Qed.

(** The rows [drop_duplicates] keeps are rows of the table, none of which
    was seen before. *)
Lemma drop_duplicates_from_elem seen rs r :
  r ∈ drop_duplicates_from seen rs → r ∈ rs ∧ existsb (same_row r) seen = false.
Proof.
  revert seen. induction rs as [|r0 rs IH]; intros seen; simpl.
  - intros H. by apply elem_of_nil in H.
  - destruct (existsb (same_row r0) seen) eqn:Hseen.
    + intros H. apply IH in H as [? ?]. split; [by apply list_elem_of_further|done].
    + intros H. apply elem_of_cons in H as [->|H].
      * split; [apply list_elem_of_here|done].
      * apply IH in H as [? Hex]. split; [by apply list_elem_of_further|].
        simpl in Hex. by apply orb_false_iff in Hex as [_ ?].
Qed.

Lemma drop_duplicates_from_distinct seen rs :
  ForallOrdPairs (fun r1 r2 => same_row r1 r2 = false) (drop_duplicates_from seen rs).
Proof.
  revert seen. induction rs as [|r0 rs IH]; intros seen; simpl; [constructor|].
  destruct (existsb (same_row r0) seen); [apply IH|].
  constructor; [|apply IH]. apply Forall_forall. intros r Hr.
  apply drop_duplicates_from_elem in Hr as [_ Hex]. simpl in Hex.
  apply orb_false_iff in Hex as [Hr _]. by rewrite same_row_sym.
Qed.

(** Every row of the table is represented among the rows seen or kept. *)
Lemma drop_duplicates_from_covers seen rs r :
  r ∈ rs →
  existsb (same_row r) seen = true
  ∨ ∃ r', r' ∈ drop_duplicates_from seen rs ∧ same_row r r' = true.
Proof.
  revert seen. induction rs as [|r0 rs IH]; intros seen Hr.
  - by apply elem_of_nil in Hr.
  - simpl. apply elem_of_cons in Hr as [->|Hr].
    + destruct (existsb (same_row r0) seen) eqn:Hseen; [by left|].
      right. exists r0. split; [apply list_elem_of_here|apply same_row_refl].
    + destruct (existsb (same_row r0) seen) eqn:Hseen; [by apply IH|].
      destruct (IH (r0 :: seen) Hr) as [Hex|(r' & Hr' & Hs)].
      * simpl in Hex. apply orb_true_iff in Hex as [Hs|Hex]; [|by left].
        right. exists r0. split; [apply list_elem_of_here|done].
      * right. exists r'. split; [by apply list_elem_of_further|done].
Qed.

Lemma ForallOrdPairs_filter {A} (R : A → A → Prop) (P : A → Prop)
    `{!∀ x, Decision (P x)} (l : list A) :
  ForallOrdPairs R l → ForallOrdPairs R (filter P l).
Proof.
  induction 1 as [|a l Ha Hl IH]; [constructor|].
  rewrite filter_cons. destruct (decide (P a)); [|done].
  constructor; [|done]. apply Forall_forall. intros x Hx.
  apply list_elem_of_filter in Hx as [_ Hx]. by eapply Forall_forall in Ha.
Qed.

Lemma ForallOrdPairs_lookup {A} (R : A → A → Prop) (l : list A) i j x y :
  ForallOrdPairs R l → i < j → l !! i = Some x → l !! j = Some y → R x y.
Proof.
  intros Hl. revert i j. induction Hl as [|a l Ha Hl IH]; intros i j Hij Hi Hj.
  - done.
  - destruct j as [|j]; [lia|]. destruct i as [|i].
    + injection Hi as ->. simpl in Hj. eapply Forall_forall in Ha; [done|].
      by eapply list_elem_of_lookup_2.
    + simpl in *. apply (IH i j); [lia|done..].
Qed.

(** Rows that differ pairwise, whatever the order they are taken in. *)
Lemma distinct_rows_lookup (l : list (list Value)) i j r1 r2 :
  ForallOrdPairs (fun r1 r2 => same_row r1 r2 = false) l →
  i ≠ j → l !! i = Some r1 → l !! j = Some r2 → same_row r1 r2 = false.
Proof.
  intros Hl Hne Hi Hj. destruct (decide (i < j)).
  - by apply (ForallOrdPairs_lookup _ l i j r1 r2 Hl).
  - rewrite same_row_sym. apply (ForallOrdPairs_lookup _ l j i r2 r1 Hl); [lia|done..].
Qed.

Lemma select_rows_elem df cols t row :
  select df cols = Ok t →
  row ∈ rows t ↔ ∃ k, k < index df ∧ row = map (fun c => default VNull (cell df c k)) cols.
Proof.
  intros Hsel. destruct (select_rows _ _ _ Hsel) as (_ & Hlen & Hrows). split.
  - intros Hr. apply list_elem_of_lookup in Hr as [k Hk].
    assert (k < index df) by (rewrite <- Hlen; by eapply lookup_lt_Some).
    exists k. split; [done|]. rewrite Hrows in Hk by done. by injection Hk as <-.
  - intros (k & Hk & ->). apply list_elem_of_lookup. exists k. by apply Hrows.
Qed.

Lemma _prepare_customers_df_rows df customers :
  _prepare_customers_df df = Ok customers →
  (∀ row, row ∈ rows customers →
     ∃ k v, k < index df ∧ row = [v] ∧ notna v = true
            ∧ v = default VNull (cell df "customer_id" k)) ∧
  ForallOrdPairs (fun r1 r2 => same_row r1 r2 = false) (rows customers) ∧
  (∀ k, k < index df → notna (default VNull (cell df "customer_id" k)) = true →
     ∃ row, row ∈ rows customers
            ∧ same_row [default VNull (cell df "customer_id" k)] row = true).
Proof.
  unfold _prepare_customers_df. intros H. inv_bind H. injection H as <-.
  pose proof (fun row => select_rows_elem _ _ _ row H_l) as Hel. simpl.
  split; [|split].
  - intros row Hr. apply drop_duplicates_from_elem in Hr as [Hr _].
    apply list_elem_of_filter in Hr as [Hna Hr]. apply Hel in Hr as (k & Hk & ->).
    simpl in Hna. rewrite andb_true_r in Hna.
    exists k, (default VNull (cell df "customer_id" k)). done.
  - apply drop_duplicates_from_distinct.
  - intros k Hk Hna.
    destruct (drop_duplicates_from_covers []
                (filter (fun r => forallb notna r = true) (rows a))
                [default VNull (cell df "customer_id" k)]) as [Hex|Hrow]; [|done..].
    apply list_elem_of_filter. split.
    + simpl. by rewrite Hna.
    + apply Hel. by exists k.
Qed.

Lemma same_value_notna u v : same_value u v = true → notna u = true → notna v = true.
Proof.
  unfold same_value, notna. destruct (isna u), (isna v); simpl; done.
Qed.

Lemma transform_customer_id E data df :
  transform E data = Ok df →
  columns df !! "customer_id"
  = Some (fillna (VStr "GUEST") (map (fun r => default VNull (customer_id r)) data)).
Proof.
  intros Ht. apply transform_inv in Ht as (f0 & issues & Hprep & Hchecks).
  destruct (initial_prep_columns _ _ _ Hprep) as (p & tv & Hcid & _).
  apply perform_checks_inv in Hchecks
    as (f1 & f2 & f3 & f4 & f5 & f6 & f7 & n1 & n2 & n3 & n4 & n5 & n6 & n7 & n8
        & H1 & H2 & H3 & H4 & H5 & H6 & H7 & H8).
  apply _check_duplicate_transactions_inv in H3 as ->.
  apply _check_missing_product_info_inv in H4 as ->.
  apply _check_invalid_prices_inv in H5 as ->.
  apply _check_missing_transaction_ids_inv in H7 as ->.
  apply _check_missing_customer_inv in H1 as (c & Hc & Hn1 & Hf1).
  rewrite init_flags_other in Hc by done. rewrite Hcid in Hc. injection Hc as <-.
  rewrite mask_sum_isna_fillna in Hn1 by done. subst n1. simpl in Hf1. subst f1.
  rewrite (_check_suspicious_values_other _ _ _ _ H8) by done.
  rewrite (_check_date_issues_other _ _ _ _ H6) by done.
  rewrite (_check_negative_quantities_other _ _ _ _ H2) by done.
  by rewrite init_flags_other.
Qed.

Lemma transform_customers_cover E data df customers :
  transform E data = Ok df → _prepare_customers_df df = Ok customers →
  ∀ i r, data !! i = Some r →
     ∃ v row, cell df "customer_id" i = Some v ∧ notna v = true ∧
              row ∈ rows customers ∧ same_row [v] row = true.
Proof.
  intros Ht Hc i r Hi. pose proof (transform_customer_id _ _ _ Ht) as Hcid.
  destruct (transform_well_formed _ _ _ Ht) as [_ Hidx].
  destruct (_prepare_customers_df_rows _ _ Hc) as (_ & _ & Hcover).
  assert (Hci : cell df "customer_id" i
            = Some (if isna (default VNull (customer_id r)) then VStr "GUEST"
                    else default VNull (customer_id r))).
  { unfold cell. rewrite Hcid. simpl. unfold fillna. by rewrite !map_lookup, Hi. }
  assert (Hlt : i < index df) by (rewrite Hidx; by eapply lookup_lt_Some).
  specialize (Hcover i Hlt). rewrite Hci in Hcover. simpl in Hcover.
  assert (Hna : notna (if isna (default VNull (customer_id r)) then VStr "GUEST"
                       else default VNull (customer_id r)) = true).
  { unfold notna. by destruct (isna (default VNull (customer_id r))) eqn:Hn; [|rewrite Hn]. }
  destruct (Hcover Hna) as (row & Hrow & Hsame).
  eexists _, row. done.
Qed.

(** X8: on the table of a transform, the Customers projection holds one
    row per customer: every row is the non-null customer of some record
    (['GUEST'] for a null one), no two rows are the same, and the customer
    of every row of the table is a row of the projection. *)
Theorem every_transaction_has_its_customer E data df customers :
  transform E data = Ok df → _prepare_customers_df df = Ok customers →
  (∀ row, row ∈ rows customers →
     ∃ v i r, row = [v] ∧ notna v = true ∧ data !! i = Some r ∧
              v = if isna (default VNull (customer_id r)) then VStr "GUEST"
                  else default VNull (customer_id r)) ∧
  (∀ i j r1 r2, i ≠ j → rows customers !! i = Some r1 → rows customers !! j = Some r2 →
     same_row r1 r2 = false) ∧
  (∀ i r, data !! i = Some r →
     ∃ v row, cell df "customer_id" i = Some v ∧ notna v = true ∧
              row ∈ rows customers ∧ same_row [v] row = true).
Proof.
  intros Ht Hc. pose proof (transform_customer_id _ _ _ Ht) as Hcid.
  destruct (transform_well_formed _ _ _ Ht) as [_ Hidx].
  destruct (_prepare_customers_df_rows _ _ Hc) as (Hrows & Hdistinct & _).
  split; [|split].
  - intros row Hr. destruct (Hrows row Hr) as (k & v & Hk & -> & Hna & Hv).
    destruct (lookup_lt_is_Some_2 data k) as [r Hkr]; [lia|].
    exists v, k, r. do 3 (split; [done|]). rewrite Hv. unfold cell.
    rewrite Hcid. simpl. unfold fillna. by rewrite !map_lookup, Hkr.
  - intros i j r1 r2. by apply distinct_rows_lookup.
  - by apply (transform_customers_cover E).
Qed.

Lemma every_transaction_has_its_customer_witness :
  (∀ row, row ∈ rows scenario_customers →
     ∃ v i r, row = [v] ∧ notna v = true ∧ [scenario_record] !! i = Some r ∧
              v = if isna (default VNull (customer_id r)) then VStr "GUEST"
                  else default VNull (customer_id r)) ∧
  (∀ i j r1 r2, i ≠ j → rows scenario_customers !! i = Some r1 →
     rows scenario_customers !! j = Some r2 → same_row r1 r2 = false) ∧
  (∀ i r, [scenario_record] !! i = Some r →
     ∃ v row, cell scenario_frame "customer_id" i = Some v ∧ notna v = true ∧
              row ∈ rows scenario_customers ∧ same_row [v] row = true).
Proof.
  apply (every_transaction_has_its_customer sample_externals [scenario_record]
           scenario_frame scenario_customers).
  - apply ok_value_eq. vm_compute. reflexivity.
  - apply ok_value_eq. vm_compute. reflexivity.
Defined.

(** X9: the Products projection of a table holds the rows of the four
    product columns whose [product_id] is not null, each once: every row
    of the projection is such a row of the table, no two rows are the same
    in all four columns, and every row of the table with a [product_id] is
    a row of the projection. *)
Theorem products_have_an_id_and_differ df products :
  _prepare_products_df df = Ok products →
  (∀ row, row ∈ rows products →
     ∃ k, k < index df ∧ row = product_row df k
          ∧ notna (default VNull (cell df "product_id" k)) = true) ∧
  (∀ i j r1 r2, i ≠ j → rows products !! i = Some r1 → rows products !! j = Some r2 →
     same_row r1 r2 = false) ∧
  (∀ k, k < index df → notna (default VNull (cell df "product_id" k)) = true →
     ∃ row, row ∈ rows products ∧ same_row (product_row df k) row = true).
Proof.
  unfold _prepare_products_df, product_row. intros H. inv_bind H. injection H as <-.
  pose proof (fun row => select_rows_elem _ _ _ row H_l) as Hel. simpl.
  split; [|split].
  - intros row Hr. apply list_elem_of_filter in Hr as [Hna Hr].
    apply drop_duplicates_from_elem in Hr as [Hr _].
    apply Hel in Hr as (k & Hk & ->). by exists k.
  - intros i j r1 r2. apply distinct_rows_lookup.
    apply ForallOrdPairs_filter, drop_duplicates_from_distinct.
  - intros k Hk Hna.
    set (r := map (fun c => default VNull (cell df c k))
                  ["product_id"; "product_name"; "category"; "price"]).
    destruct (drop_duplicates_from_covers [] (rows a) r) as [Hex|(r' & Hr' & Hs)];
      [apply Hel; by exists k|done|].
    exists r'. split; [|done]. apply list_elem_of_filter. split; [|done].
    pose proof Hr' as Hin. apply drop_duplicates_from_elem in Hin as [Hin _].
    apply Hel in Hin as (k' & Hk' & ->). simpl.
    unfold same_row in Hs. simpl in Hs.
    apply andb_true_iff in Hs as [Hs _].
    by apply (same_value_notna _ _ Hs).
Qed.

Lemma products_have_an_id_and_differ_witness :
  (∀ row, row ∈ rows scenario_products →
     ∃ k, k < index scenario_frame ∧ row = product_row scenario_frame k
          ∧ notna (default VNull (cell scenario_frame "product_id" k)) = true) ∧
  (∀ i j r1 r2, i ≠ j → rows scenario_products !! i = Some r1 →
     rows scenario_products !! j = Some r2 → same_row r1 r2 = false) ∧
  (∀ k, k < index scenario_frame →
     notna (default VNull (cell scenario_frame "product_id" k)) = true →
     ∃ row, row ∈ rows scenario_products
            ∧ same_row (product_row scenario_frame k) row = true).
Proof.
  apply (products_have_an_id_and_differ scenario_frame scenario_products).
  apply ok_value_eq. vm_compute. reflexivity.
Defined.

(** ** Runs of the pipeline *)

Lemma transform_customers_not_empty E data df customers :
  transform E data = Ok df → _prepare_customers_df df = Ok customers →
  length data ≠ 0 → table_empty customers = false.
Proof.
  intros Ht Hc Hdata. destruct data as [|r data]; [done|].
  destruct (transform_customers_cover _ _ _ _ Ht Hc 0 r eq_refl)
    as (v & row & _ & _ & Hrow & _).
  unfold table_empty. rewrite (_prepare_customers_df_header _ _ Hc).
  destruct (rows customers); [by apply elem_of_nil in Hrow|done].
Qed.

Section RunFacts.
Context {DB : Type}.
Context (to_sql : DB -> string -> Table -> DB * Result ()).

Lemma load_tables_in_order E df (batch_size : nat) customers products transactions st :
  0 < batch_size →
  _prepare_customers_df df = Ok customers →
  _prepare_products_df df = Ok products →
  _prepare_transactions_df E df = Ok transactions →
  load_tables to_sql E df (Z.of_nat batch_size) st
  = issue_in_order to_sql
      (chunk_writes "customers" customers batch_size
       ++ chunk_writes "products" products batch_size
       ++ chunk_writes "transactions" transactions batch_size) st.
Proof.
  intros Hb Hc Hp Ht.
  pose proof (_prepare_customers_df_header _ _ Hc) as Hhc.
  pose proof (_prepare_products_df_header _ _ Hp) as Hhp.
  pose proof (_prepare_transactions_df_header _ _ _ Ht) as Hht.
  unfold load_tables. rewrite Hc, Hp, Ht.
  rewrite _load_table_in_batches_in_order by (by rewrite ?Hhc).
  rewrite issue_in_order_app.
  destruct (issue_in_order to_sql (chunk_writes "customers" _ _) _) as [st1 [[]|e1]];
    [|done].
  rewrite _load_table_in_batches_in_order by (by rewrite ?Hhp).
  rewrite issue_in_order_app.
  destruct (issue_in_order to_sql (chunk_writes "products" _ _) _) as [st2 [[]|e2]];
    [|done].
  by rewrite _load_table_in_batches_in_order by (by rewrite ?Hht).
Qed.

(** With a batch size of zero the first table that has rows stops the
    loader before any write. *)
Lemma load_tables_zero_batch_size E data df st :
  transform E data = Ok df → length data ≠ 0 →
  ∃ e, load_tables to_sql E df 0 st = (st, Raise e).
Proof.
  intros Ht Hdata. unfold load_tables.
  destruct (_prepare_customers_df df) as [customers|e] eqn:Hc; [|by exists e].
  destruct (_prepare_products_df df) as [products|e]; [|by exists e].
  destruct (_prepare_transactions_df E df) as [transactions|e]; [|by exists e].
  unfold _load_table_in_batches at 1.
  rewrite (transform_customers_not_empty _ _ _ _ Ht Hc Hdata). simpl.
  by exists ZeroDivisionError.
Qed.

(** With a negative batch size [range] is empty: no table is written, and
    nothing raises. *)
Lemma _load_table_in_batches_negative t table_name (batch_size : Z) st :
  (batch_size < 0)%Z →
  _load_table_in_batches to_sql t table_name batch_size st = (st, Ok ()).
Proof.
  intros Hb. unfold _load_table_in_batches, floor_div, py_range.
  destruct (table_empty t); [done|].
  destruct (batch_size =? 0)%Z eqn:Hz; [apply Z.eqb_eq in Hz; lia|].
  destruct (batch_size <? 0)%Z eqn:Hn; [done|apply Z.ltb_ge in Hn; lia].
Qed.

Lemma load_tables_negative_batch_size E df (batch_size : Z) st :
  (batch_size < 0)%Z → (load_tables to_sql E df batch_size st).1 = st.
Proof.
  intros Hb. unfold load_tables.
  destruct (_prepare_customers_df df); [|done].
  destruct (_prepare_products_df df); [|done].
  destruct (_prepare_transactions_df E df); [|done].
  by rewrite !_load_table_in_batches_negative.
Qed.

End RunFacts.

(** X10: with a batch size of zero the loader writes nothing and returns
    [False] on the table of any non-empty input: the Customers projection
    has a row, and the number of batches is a division by zero, which the
    loader catches. *)
Theorem zero_batch_size_loads_nothing {DB : Type}
    (to_sql : DB -> string -> Table -> DB * Result ())
    (E : Externals) (data : list RawRecord) (df : DataFrame) (engine : DB) :
  transform E data = Ok df → length data ≠ 0 →
  load_with_batch_processing to_sql E df (Some engine) 0
  = (Some {| db := engine; calls := [] |}, false).
Proof.
  intros Ht Hdata. unfold load_with_batch_processing.
  destruct (load_tables_zero_batch_size to_sql E data df {| db := engine; calls := [] |}
              Ht Hdata) as [e ->]. done.
Qed.

Lemma zero_batch_size_loads_nothing_witness :
  load_with_batch_processing accept_all sample_externals scenario_frame (Some ()) 0
  = (Some {| db := (); calls := [] |}, false).
Proof.
  apply (zero_batch_size_loads_nothing accept_all sample_externals [scenario_record]).
  - apply ok_value_eq. vm_compute. reflexivity.
  - simpl. lia.
Defined.

(** X11: a run that returns [True] had a schema, an engine, a non-empty
    input, a transform that returned, and a batch size that is not zero.
    With a positive batch size it issued every write of the plan: the
    chunks of the customers, then of the products, then of the
    transactions.  With a negative one it issued no write at all: [range]
    is empty, nothing raises, and the loader reports a success.  The
    analytics stage is entered after the load when it is asked for. *)
Theorem a_successful_run_wrote_every_batch {DB : Type} (E : Externals)
    (create_schema_and_indexes : DB -> Attempt (DB * bool))
    (create_sqlalchemy_engine : DB -> option DB)
    (to_sql : DB -> string -> Table -> DB * Result ())
    (fs : gmap string FileContent) (input_file : string)
    (server : DB) (batch_size : Z) (run_analytics : bool) :
  returned (run E create_schema_and_indexes create_sqlalchemy_engine to_sql
              fs input_file server batch_size run_analytics)
    = Returned (Ok true) →
  batch_size ≠ 0%Z ∧
  ∃ server' engine df customers products transactions,
    create_schema_and_indexes server = Returned (server', true) ∧
    create_sqlalchemy_engine server' = Some engine ∧
    from_json fs input_file ≠ [] ∧
    transform E (from_json fs input_file) = Ok df ∧
    _prepare_customers_df df = Ok customers ∧
    _prepare_products_df df = Ok products ∧
    _prepare_transactions_df E df = Ok transactions ∧
    writes (run E create_schema_and_indexes create_sqlalchemy_engine to_sql
              fs input_file server batch_size run_analytics)
    = (if (0 <? batch_size)%Z
       then chunk_writes "customers" customers (Z.to_nat batch_size)
            ++ chunk_writes "products" products (Z.to_nat batch_size)
            ++ chunk_writes "transactions" transactions (Z.to_nat batch_size)
       else []) ∧
    stages (run E create_schema_and_indexes create_sqlalchemy_engine to_sql
              fs input_file server batch_size run_analytics)
    = [SchemaSetup; Extraction; Transformation; Loading]
      ++ (if run_analytics then [Analytics] else []).
Proof.
  unfold run.
  destruct (create_schema_and_indexes server) as [[server' [|]]|] eqn:Hschema;
    [|done..].
  simpl. case_bool_decide as Hdata; [done|].
  destruct (transform E (from_json fs input_file)) as [df|e] eqn:Ht; [|done].
  destruct (empty df); [done|].
  unfold load_with_batch_processing.
  destruct (create_sqlalchemy_engine server') as [engine|] eqn:Hengine; [|done].
  destruct (load_tables to_sql E df batch_size {| db := engine; calls := [] |})
    as [st res] eqn:Hload.
  destruct res as [[]|e]; simpl; [|done].
  assert (Hb : batch_size ≠ 0%Z).
  { intros ->.
    destruct (load_tables_zero_batch_size to_sql E _ df {| db := engine; calls := [] |}
                Ht Hdata) as [e He]. congruence. }
  pose proof Hload as Hload'. unfold load_tables in Hload'.
  destruct (_prepare_customers_df df) as [customers|] eqn:Hc; [|done].
  destruct (_prepare_products_df df) as [products|] eqn:Hp; [|done].
  destruct (_prepare_transactions_df E df) as [transactions|] eqn:Hp3; [|done].
  clear Hload'.
  assert (Hwrites : calls st
            = if (0 <? batch_size)%Z
              then chunk_writes "customers" customers (Z.to_nat batch_size)
                   ++ chunk_writes "products" products (Z.to_nat batch_size)
                   ++ chunk_writes "transactions" transactions (Z.to_nat batch_size)
              else []).
  { destruct (0 <? batch_size)%Z eqn:Hpos.
    - apply Z.ltb_lt in Hpos.
      rewrite <- (Z2Nat.id batch_size) in Hload by lia.
      rewrite (load_tables_in_order to_sql E df (Z.to_nat batch_size)
                 customers products transactions) in Hload by (done || lia).
      destruct (issue_in_order_calls _ _ _ _ _ Hload) as (issued & Hcalls & _ & Hok & _).
      simpl in Hcalls. by rewrite Hok in Hcalls.
    - apply Z.ltb_ge in Hpos.
      pose proof (load_tables_negative_batch_size to_sql E df batch_size
                    {| db := engine; calls := [] |} ltac:(lia)) as Hneg.
      rewrite Hload in Hneg. simpl in Hneg. by subst st. }
  intros Hret. split; [done|].
  exists server', engine, df, customers, products, transactions.
  do 2 (split; [done|]). split; [by destruct (from_json fs input_file)|].
  do 4 (split; [done|]).
  by destruct run_analytics.
Qed.

Lemma a_successful_run_wrote_every_batch_witness :
  1000%Z ≠ 0%Z ∧
  ∃ server' engine df customers products transactions,
    schema_created () = Returned (server', true) ∧
    engine_made server' = Some engine ∧
    from_json {[ "sales_data.json" := JsonArray [scenario_record] ]} "sales_data.json"
      ≠ [] ∧
    transform sample_externals
      (from_json {[ "sales_data.json" := JsonArray [scenario_record] ]} "sales_data.json")
      = Ok df ∧
    _prepare_customers_df df = Ok customers ∧
    _prepare_products_df df = Ok products ∧
    _prepare_transactions_df sample_externals df = Ok transactions ∧
    writes (run sample_externals schema_created engine_made accept_all
              {[ "sales_data.json" := JsonArray [scenario_record] ]}
              "sales_data.json" () 1000 true)
    = (if (0 <? 1000)%Z
       then chunk_writes "customers" customers (Z.to_nat 1000)
            ++ chunk_writes "products" products (Z.to_nat 1000)
            ++ chunk_writes "transactions" transactions (Z.to_nat 1000)
       else []) ∧
    stages (run sample_externals schema_created engine_made accept_all
              {[ "sales_data.json" := JsonArray [scenario_record] ]}
              "sales_data.json" () 1000 true)
    = [SchemaSetup; Extraction; Transformation; Loading]
      ++ (if true then [Analytics] else []).
Proof.
  apply (a_successful_run_wrote_every_batch sample_externals schema_created engine_made
           accept_all {[ "sales_data.json" := JsonArray [scenario_record] ]}
           "sales_data.json" () 1000 true).
  vm_compute. reflexivity.
Defined.

(** The scenario with a batch size of [-5]: the run returns [True] and has
    written nothing. *)
Example negative_batch_size_reports_success :
  returned (run sample_externals schema_created engine_made accept_all
              {[ "sales_data.json" := JsonArray [scenario_record] ]}
              "sales_data.json" () (-5) true) = Returned (Ok true) ∧
  writes (run sample_externals schema_created engine_made accept_all
            {[ "sales_data.json" := JsonArray [scenario_record] ]}
            "sales_data.json" () (-5) true) = [].
Proof. split; vm_compute; reflexivity. Qed.

(** X12: an exception leaves [run] in two cases and no other: the
    [RecursionError] of the schema setup, which asks for its connection
    outside any handler; and an exception of the transform, on a non-empty
    input after the schema was set up.  The loader and the analytics catch
    their own.  The stages of a run are an initial part of schema setup,
    extraction, transformation, loading, analytics; nothing is written
    before the loading stage, and the analytics stage is entered only in a
    run that returns [True]. *)
Theorem run_raises_only_from_the_transform {DB : Type} (E : Externals)
    (create_schema_and_indexes : DB -> Attempt (DB * bool))
    (create_sqlalchemy_engine : DB -> option DB)
    (to_sql : DB -> string -> Table -> DB * Result ())
    (fs : gmap string FileContent) (input_file : string)
    (server : DB) (batch_size : Z) (run_analytics : bool) :
  let r := run E create_schema_and_indexes create_sqlalchemy_engine to_sql
               fs input_file server batch_size run_analytics in
  (returned r = RecursionError ↔ create_schema_and_indexes server = RecursionError) ∧
  (∀ e, returned r = Returned (Raise e) ↔
        (∃ server', create_schema_and_indexes server = Returned (server', true)) ∧
        from_json fs input_file ≠ [] ∧
        transform E (from_json fs input_file) = Raise e) ∧
  stages r `prefix_of` [SchemaSetup; Extraction; Transformation; Loading; Analytics] ∧
  (Loading ∉ stages r → writes r = []) ∧
  (Analytics ∈ stages r → returned r = Returned (Ok true)).
Proof.
  intros r. subst r. unfold run.
  destruct (create_schema_and_indexes server) as [[server' [|]]|] eqn:Hschema; simpl.
  3:{ split; [done|]. split; [intros e; split; [done|by intros [[? ?] _]]|].
      split; [by eexists|]. split; [done|]. intros H.
      repeat (apply elem_of_cons in H as [H|H]; [done|]). by apply elem_of_nil in H. }
  2:{ split; [done|]. split; [intros e; split; [done|by intros [[? [= ]] _]]|].
      split; [by eexists|]. split; [done|]. intros H.
      repeat (apply elem_of_cons in H as [H|H]; [done|]). by apply elem_of_nil in H. }
  case_bool_decide as Hdata.
  { simpl. split; [done|]. split; [intros e; split; [done|]|].
    - intros (_ & Hne & _). by destruct (from_json fs input_file).
    - split; [by eexists|]. split; [done|]. intros H.
      repeat (apply elem_of_cons in H as [H|H]; [done|]). by apply elem_of_nil in H. }
  assert (Hne : from_json fs input_file ≠ []) by (by destruct (from_json fs input_file)).
  destruct (transform E (from_json fs input_file)) as [df|e0] eqn:Ht.
  2:{ simpl. split; [done|].
      split; [intros e; split; [intros [= ->]; by eauto|by intros (_ & _ & [= ->])]|].
      split; [by eexists|]. split; [done|]. intros H.
      repeat (apply elem_of_cons in H as [H|H]; [done|]). by apply elem_of_nil in H. }
  destruct (empty df).
  { simpl. split; [done|]. split; [intros e; split; [done|by intros (_ & _ & ?)]|].
    split; [by eexists|]. split; [done|]. intros H.
    repeat (apply elem_of_cons in H as [H|H]; [done|]). by apply elem_of_nil in H. }
  destruct (load_with_batch_processing to_sql E df (create_sqlalchemy_engine server')
              batch_size) as [st [|]]; simpl.
  - destruct run_analytics; simpl.
    + split; [done|]. split; [intros e; split; [done|by intros (_ & _ & ?)]|].
      split; [by eexists|]. split; [|done]. intros H. exfalso. apply H.
      do 3 apply list_elem_of_further. apply list_elem_of_here.
    + split; [done|]. split; [intros e; split; [done|by intros (_ & _ & ?)]|].
      split; [by eexists|]. split; [|done]. intros H. exfalso. apply H.
      do 3 apply list_elem_of_further. apply list_elem_of_here.
  - split; [done|]. split; [intros e; split; [done|by intros (_ & _ & ?)]|].
    split; [by eexists|]. split.
    + intros H. exfalso. apply H.
      do 3 apply list_elem_of_further. apply list_elem_of_here.
    + intros H. repeat (apply elem_of_cons in H as [H|H]; [done|]).
      by apply elem_of_nil in H.
Qed.

(** ** The repair of malformed dates *)

Lemma lstrip_no_space l :
  forallb (fun c => negb (is_space c)) l = true → lstrip l = l.
Proof.
  destruct l as [|c l]; [done|]. simpl. intros H.
  apply andb_true_iff in H as [Hc _]. apply negb_true_iff in Hc. by rewrite Hc.
Qed.

Lemma forallb_rev {A} (f : A → bool) l : forallb f (rev l) = forallb f l.
Proof.
  induction l as [|a l IH]; [done|]. simpl. rewrite forallb_app, IH. simpl.
  rewrite andb_true_r. apply andb_comm.
Qed.

Lemma strip_no_whitespace s : no_whitespace s = true → strip s = s.
Proof.
  unfold no_whitespace, strip. intros H.
  rewrite (lstrip_no_space _ H).
  rewrite lstrip_no_space by (by rewrite forallb_rev).
  by rewrite rev_involutive, string_of_list_ascii_of_string.
Qed.

Lemma match_split_year_no_space l :
  forallb (fun c => negb (is_space c)) l = true → match_split_year l = None.
Proof.
  destruct l as [|a [|b [|w rest]]]; try done. simpl. intros H.
  repeat match goal with
  | H : _ && _ = true |- _ => apply andb_true_iff in H as [? ?]
  end.
  match goal with H : negb (is_space w) = true |- _ => apply negb_true_iff in H; rewrite H end.
  by rewrite !andb_false_r.
Qed.

Lemma sub_split_year_0_cons c s :
  sub_split_year 0 (c :: s)
  = match match_split_year (c :: s) with
    | Some (repl, n) => repl ++ sub_split_year (pred n) s
    | None => c :: sub_split_year 0 s
    end.
Proof. reflexivity. Qed.

Lemma sub_split_year_no_space l :
  forallb (fun c => negb (is_space c)) l = true → sub_split_year 0 l = l.
Proof.
  induction l as [|c l IH]; [done|]. intros H.
  rewrite sub_split_year_0_cons, (match_split_year_no_space _ H).
  simpl in H. apply andb_true_iff in H as [_ H]. by rewrite IH.
Qed.

Lemma sub_spaces_no_space b l :
  forallb (fun c => negb (is_space c)) l = true → sub_spaces b l = l.
Proof.
  revert b. induction l as [|c l IH]; intros b; [done|]. simpl. intros H.
  apply andb_true_iff in H as [Hc H]. apply negb_true_iff in Hc. rewrite Hc.
  by rewrite IH.
Qed.

Lemma sub_spaces_leaves_no_space b l :
  forallb (fun c => negb (is_space c)) (sub_spaces b l) = true.
Proof.
  revert b. induction l as [|c l IH]; intros b; [done|]. simpl.
  destruct (is_space c) eqn:Hc.
  - destruct b; [apply IH|]. simpl. apply IH.
  - simpl. by rewrite Hc, IH.
Qed.

Lemma fix_malformed_no_whitespace s : no_whitespace s = true → fix_malformed s = s.
Proof.
  unfold no_whitespace, fix_malformed. intros H.
  rewrite (sub_split_year_no_space _ H), (sub_spaces_no_space _ _ H).
  apply string_of_list_ascii_of_string.
Qed.

(** X13: the two rewrites applied before the second parse leave no white
    space in the string, and applying them again changes nothing. *)
Theorem fix_malformed_leaves_no_whitespace s :
  no_whitespace (fix_malformed s) = true ∧
  fix_malformed (fix_malformed s) = fix_malformed s.
Proof.
  assert (H : no_whitespace (fix_malformed s) = true).
  { unfold no_whitespace, fix_malformed. rewrite list_ascii_of_string_of_list_ascii.
    apply sub_spaces_leaves_no_space. }
  split; [done|]. by apply fix_malformed_no_whitespace.
Qed.

(** X14: the second parse can only help a string that holds white space:
    on a string of ASCII characters without any, the rewrites change
    nothing, the parser fails again, and [standardize_date] returns null.
    (Outside ASCII, Python's white space has further characters, such as
    the no-break space, that the rewrites do replace.) *)
Theorem the_retry_needs_whitespace E s e :
  is_ascii s = true →
  no_whitespace s = true →
  date_parse E s = ParseRaises e → is_value_or_type_error e = true →
  standardize_date E (VStr s) = Ok VNull.
Proof.
  intros _ Hs Hparse He. unfold standardize_date. simpl.
  rewrite (strip_no_whitespace _ Hs), Hparse, He.
  by rewrite (fix_malformed_no_whitespace _ Hs), Hparse.
Qed.

Lemma the_retry_needs_whitespace_witness :
  standardize_date sample_externals (VStr "not-a-date") = Ok VNull.
Proof.
  apply (the_retry_needs_whitespace sample_externals "not-a-date" ValueError);
    reflexivity.
Defined.

Lemma is_digit_not_space c : is_digit c = true → is_space c = false.
Proof.
  unfold is_digit, is_space. generalize (nat_of_ascii c). intros n H.
  apply andb_true_iff in H as [H1 H2]. apply Nat.leb_le in H1.
  apply orb_false_iff. split; apply andb_false_iff; right; apply Nat.leb_gt; lia.
Qed.

Lemma canonical_date_no_whitespace s :
  is_canonical_date s = true → no_whitespace s = true.
Proof.
  unfold is_canonical_date, no_whitespace.
  destruct (list_ascii_of_string s)
    as [|y1 [|y2 [|y3 [|y4 [|s1 [|m1 [|m2 [|s2 [|d1 [|d2 [|]]]]]]]]]]]; try done.
  simpl. intros H.
  repeat match goal with
  | H : _ && _ = true |- _ => apply andb_true_iff in H as [? ?]
  | H : Ascii.eqb _ _ = true |- _ => apply Ascii.eqb_eq in H; subst
  | H : is_digit _ = true |- _ => apply is_digit_not_space in H
  end.
  repeat match goal with
  | H : is_space _ = false |- _ => rewrite H; clear H
  end.
  done.
Qed.






(** A parser that reads ["999-01-05"] as the fifth of January of the year
    999, and back: the result of [standardize_date] has three digits for
    the year, and is standardized to itself. *)
Example standardize_date_idempotent_before_1000 :
  let E := {| date_parse := fun s =>
                if String.eqb s "5 Jan 999" || String.eqb s "999-01-05"
                then Parsed {| year := 999; month := 1; day := 5 |}
                else ParseRaises ValueError;
              numeric_of_string := fun _ => None;
              str_of_float := fun _ => "nan";
              to_datetime := fun v => v |} in
  standardize_date E (VStr "5 Jan 999") = Ok (VStr "999-01-05") ∧
  standardize_date E (VStr "999-01-05") = Ok (VStr "999-01-05").
Proof. split; vm_compute; reflexivity. Qed.

(** ** Part 1: the flags and the total value *)

Lemma to_float_abs_if_negative v x :
  to_float v = Ok x →
  to_float (Part1.abs_if_negative v)
  = Ok (if PrimFloat.ltb x 0 then PrimFloat.abs x else x).
Proof.
  destruct v as [|b|n|s]; simpl; try done.
  - by intros [= <-].
  - intros [= <-]. by destruct b.
  - intros [= <-]. unfold PrimFloat.zero. by destruct (PrimFloat.ltb n 0).
Qed.

Lemma columns_drop_column_ne df c c' :
  c ≠ c' → columns (drop_column df c) !! c' = columns df !! c'.
Proof. intros H. unfold drop_column. simpl. by rewrite lookup_delete_ne. Qed.

(** The columns Part 1's [transform] computes, from the input records. *)
Lemma part1_transform_columns E data df :
  Part1.transform E data = Ok df →
  ∃ p negative tv,
    columns df !! "customer_id"
      = Some (map (fun r => default VNull (customer_id r)) data) ∧
    columns df !! "has_missing_customer"
      = Some (mask_series (map isna (map (fun r => default VNull (customer_id r)) data))) ∧
    columns df !! "quantity"
      = Some (map Part1.abs_if_negative
                (map (fun r => default VNull (quantity r)) data)) ∧
    series_lt (map (fun r => default VNull (quantity r)) data) 0 = Ok negative ∧
    columns df !! "had_negative_quantity" = Some (mask_series negative) ∧
    columns df !! "price" = Some (to_numeric E p) ∧ length p = length data ∧
    series_mul (map Part1.abs_if_negative
                  (map (fun r => default VNull (quantity r)) data))
               (to_numeric E p) = Ok tv ∧
    columns df !! "total_value" = Some tv ∧
    columns df !! "original_quantity" = None.
Proof.
  unfold Part1.transform. intros H.
  apply bind_Ok in H as (f & Hflat & H).
  destruct (well_formed_flatten_product _ _ (well_formed_json_normalize data) Hflat)
    as [Hwf Hidx]. simpl in Hidx.
  pose proof (flatten_product_keeps _ _ "customer_id" ltac:(not_in_list) Hflat) as Hc.
  pose proof (flatten_product_keeps _ _ "quantity" ltac:(not_in_list) Hflat) as Hq.
  rewrite json_normalize_customer_id in Hc. rewrite json_normalize_quantity in Hq.
  apply bind_Ok in H as (d & Hd & H).
  apply bind_Ok in H as (ds & Hds & H).
  apply bind_Ok in H as (p & Hp & H).
  apply bind_Ok in H as (q & Hq1 & H).
  apply bind_Ok in H as (q' & Hq2 & H).
  apply bind_Ok in H as (c & Hc1 & H).
  apply bind_Ok in H as (oq & Hoq & H).
  apply bind_Ok in H as (negative & Hneg & H).
  apply bind_Ok in H as (d' & Hd' & H).
  apply bind_Ok in H as (ds' & Hds' & H).
  apply bind_Ok in H as (q'' & Hq3 & H).
  apply bind_Ok in H as (p' & Hp' & H).
  apply bind_Ok in H as (tv & Htv & H).
  injection H as <-.
  repeat match goal with
  | H : getitem _ _ = Ok _ |- _ => apply getitem_Ok in H
  end.
  repeat match goal with
  | H : columns (setitem _ ?c _) !! ?c = Some _ |- _ =>
      rewrite columns_setitem_eq in H; injection H as <-
  | H : columns (setitem _ _ _) !! _ = Some _ |- _ =>
      rewrite columns_setitem_ne in H by done
  end.
  rewrite Hq in Hq1, Hq2. pose proof (column_of_Some _ _ _ Hq1) as ->.
  rewrite Hq1 in Hq2. injection Hq2 as <-.
  rewrite Hc in Hc1. pose proof (column_of_Some _ _ _ Hc1) as ->.
  assert (Hplen : length p = length data) by (rewrite <- Hidx; by eapply Hwf).
  rewrite Hq1 in Hq. rewrite Hc1 in Hc.
  set (g := setitem _ "total_value" tv).
  assert (Hoq : columns g !! "original_quantity" = Some
                  (map (fun r => default VNull (quantity r)) data)).
  { subst g. rewrite !columns_setitem_ne by done. by rewrite columns_setitem_eq. }
  assert (Hstd : columns g !! "standardized_date" = Some ds).
  { subst g. rewrite !columns_setitem_ne by done. by rewrite columns_setitem_eq. }
  assert (Hren : ∀ c, c ≠ "standardized_date" → c ≠ "date_std" →
            columns (rename_column "standardized_date" "date_std" g) !! c
            = columns g !! c).
  { intros c0 ? ?. by apply rename_column_other. }
  rewrite bool_decide_eq_true_2 by (rewrite Hren by done; by rewrite Hoq).
  exists p, negative, tv.
  assert (Hfinal : ∀ c, c ≠ "standardized_date" → c ≠ "date_std" →
            c ≠ "original_quantity" →
            columns (drop_column (rename_column "standardized_date" "date_std" g)
                       "original_quantity") !! c = columns g !! c).
  { intros c0 ? ? ?. rewrite columns_drop_column_ne by done. by apply Hren. }
  rewrite !Hfinal by done. subst g.
  split; [by rewrite !columns_setitem_ne|].
  split; [rewrite !columns_setitem_ne by done; by rewrite columns_setitem_eq|].
  split; [rewrite !columns_setitem_ne by done; by rewrite columns_setitem_eq|].
  split; [done|].
  split; [rewrite !columns_setitem_ne by done; by rewrite columns_setitem_eq|].
  split; [rewrite !columns_setitem_ne by done; by rewrite columns_setitem_eq|].
  split; [done|]. split; [done|].
  split; [by rewrite columns_setitem_eq|].
  unfold drop_column. simpl. apply lookup_delete_eq.
Qed.

(** X16: Part 1's transform, on every input on which it returns: a null
    customer stays null and is flagged; a quantity below zero is flagged
    and replaced by its absolute value, row by row; [total_value] is the
    product of the repaired quantity and the price, for operands in the
    range where no arithmetic of pandas rounds or wraps around
    ([in_exact_range]); the helper column [original_quantity] is not in the
    result. *)
Theorem part1_flags_and_total_value E data df :
  Part1.transform E data = Ok df →
  columns df !! "original_quantity" = None ∧
  ∀ i r, data !! i = Some r →
    ∃ x vp y vtv,
      to_float (default VNull (quantity r)) = Ok x ∧
      cell df "customer_id" i = Some (default VNull (customer_id r)) ∧
      cell df "has_missing_customer" i
        = Some (VBool (isna (default VNull (customer_id r)))) ∧
      cell df "had_negative_quantity" i = Some (VBool (PrimFloat.ltb x 0)) ∧
      cell df "quantity" i
        = Some (Part1.abs_if_negative (default VNull (quantity r))) ∧
      cell df "price" i = Some vp ∧ to_float vp = Ok y ∧
      cell df "total_value" i = Some vtv ∧
      (in_exact_range x = true → in_exact_range y = true →
         vtv = VNum (PrimFloat.mul
                       (if PrimFloat.ltb x 0 then PrimFloat.abs x else x) y)).
Proof.
  intros Ht.
  destruct (part1_transform_columns _ _ _ Ht)
    as (p & negative & tv & Hc & Hmc & Hq & Hneg & Hnq & Hp & Hplen & Hmul & Htv & Hoq).
  split; [done|]. intros i r Hi.
  assert (Hqi : map (fun r => default VNull (quantity r)) data !! i
                = Some (default VNull (quantity r))) by (by rewrite map_lookup, Hi).
  destruct (compare_scalar_lookup _ _ _ _ _ _ Hneg Hqi) as (x & Hx & Hni).
  destruct (lookup_lt_is_Some_2 (to_numeric E p) i) as [vp Hvp].
  { unfold to_numeric. rewrite length_map, Hplen. by eapply lookup_lt_Some. }
  assert (Hai : map Part1.abs_if_negative
                  (map (fun r => default VNull (quantity r)) data) !! i
                = Some (Part1.abs_if_negative (default VNull (quantity r))))
    by (by rewrite map_lookup, Hqi).
  destruct (series_mul_lookup _ _ _ _ _ _ Hmul Hai Hvp) as (x' & y & Hx' & Hy & Htvi).
  rewrite (to_float_abs_if_negative _ _ Hx) in Hx'. injection Hx' as <-.
  exists x, vp, y,
    (VNum (PrimFloat.mul (if PrimFloat.ltb x 0 then PrimFloat.abs x else x) y)).
  unfold cell. rewrite Hc, Hmc, Hnq, Hq, Hp, Htv. simpl.
  split; [done|]. split; [by rewrite map_lookup, Hi|].
  split; [by rewrite mask_series_lookup, !map_lookup, Hi|].
  split; [by rewrite mask_series_lookup, Hni|].
  done.
Qed.

(** On the scenario record: the customer stays null, the quantity -3
    becomes 3, and the total value is the product of 3 and 25. *)
Lemma part1_flags_and_total_value_witness :
  in_exact_range (-3) = true ∧ in_exact_range 25 = true ∧
  cell (ok_value empty_frame (Part1.transform sample_externals [scenario_record]))
       "customer_id" 0 = Some VNull ∧
  cell (ok_value empty_frame (Part1.transform sample_externals [scenario_record]))
       "has_missing_customer" 0 = Some (VBool true) ∧
  cell (ok_value empty_frame (Part1.transform sample_externals [scenario_record]))
       "had_negative_quantity" 0 = Some (VBool true) ∧
  cell (ok_value empty_frame (Part1.transform sample_externals [scenario_record]))
       "quantity" 0 = Some (VNum 3) ∧
  cell (ok_value empty_frame (Part1.transform sample_externals [scenario_record]))
       "total_value" 0 = Some (VNum (PrimFloat.mul 3 25)).
Proof.
  set (df := ok_value empty_frame (Part1.transform sample_externals [scenario_record])).
  assert (Ht : Part1.transform sample_externals [scenario_record] = Ok df)
    by (apply ok_value_eq; vm_compute; reflexivity).
  destruct (part1_flags_and_total_value sample_externals [scenario_record] df Ht)
    as [_ Hrows].
  destruct (Hrows 0 scenario_record eq_refl)
    as (x & vp & y & vtv & Hx & Hc & Hmc & Hnq & Hq & Hp & Hy & Htv & Hmul).
  vm_compute in Hx. injection Hx as <-.
  vm_compute in Hp. injection Hp as <-.
  vm_compute in Hy. injection Hy as <-.
  split; [reflexivity|]. split; [reflexivity|].
  rewrite Hc, Hmc, Hnq, Hq, Htv, (Hmul eq_refl eq_refl).
  repeat split; reflexivity.
Defined.

(** ** The connection to the database *)

Section DatabaseFacts.
Context {Server : Type}.
Context (connect : Server -> option string -> ConnectOutcome).
Context (execute : Server -> Statement -> Server * bool).
Context (commit : Server -> Server * bool).

(** X17: when [create_connection] returns, it is with the last answer of
    the server: a connection exactly when the server gave one that is
    connected, and [None] only when the server gave a connection that is
    not connected or an error other than an unknown database. *)
Theorem create_connection_returns_the_last_answer depth s database s' r :
  create_connection connect execute depth s database = Returned (s', r) →
  connect s' (Some database) ≠ ConnectError true ∧
  (r = Some () ↔ connect s' (Some database) = Connection true).
Proof.
  revert s. induction depth as [|depth IH]; intros s; [done|]. simpl.
  destruct (connect s (Some database)) as [[|]|[|]] eqn:Hc.
  - intros [= <- <-]. rewrite Hc. done.
  - intros [= <- <-]. rewrite Hc. done.
  - apply IH.
  - intros [= <- <-]. rewrite Hc. done.
Qed.

(** X18: on a server that keeps answering that the database is unknown,
    [create_connection] never returns: every failed attempt is followed by
    another one, whatever became of the creation of the database, until
    the recursion limit. *)
Theorem create_connection_is_retried_without_bound database :
  (∀ s, connect s (Some database) = ConnectError true) →
  ∀ depth s, create_connection connect execute depth s database = RecursionError.
Proof.
  intros Hunknown depth. induction depth as [|depth IH]; intros s; [done|].
  simpl. rewrite Hunknown. apply IH.
Qed.

(** X19: Part 1's [create_connection] tries again only after a
    [CREATE DATABASE] that was executed: on a server that knows a database
    it has created, two calls are enough for it to return. *)
Theorem part1_create_connection_returns database :
  (∀ s s', execute s (CreateDatabase database) = (s', true) →
           connect s' (Some database) ≠ ConnectError true) →
  ∀ depth s, ∃ r,
    Part1.create_connection connect execute (2 + depth) s database = Returned r.
Proof.
  intros Hcreated depth s. simpl.
  destruct (connect s (Some database)) as [[|]|[|]]; try by eexists.
  destruct (connect s None) as [[|]|?]; try by eexists.
  destruct (execute s (CreateDatabase database)) as [s' [|]] eqn:He; [|by eexists].
  pose proof (Hcreated s s' He) as Hknown.
  destruct (connect s' (Some database)) as [[|]|[|]];
    [by eexists|by eexists|by destruct Hknown|by eexists].
Qed.

Lemma create_connection_keeps (P : Server → Prop) depth s database s' r :
  (∀ s c, P s → P (execute s c).1) →
  create_connection connect execute depth s database = Returned (s', r) →
  P s → P s'.
Proof.
  intros Hkeep. revert s. induction depth as [|depth IH]; intros s; [done|]. simpl.
  destruct (connect s (Some database)) as [[|]|[|]].
  - by intros [= <- <-].
  - by intros [= <- <-].
  - intros H HP. apply (IH _ H). unfold _create_database.
    destruct (connect s None) as [[|]|?]; [by apply Hkeep|done..].
  - by intros [= <- <-].
Qed.

Lemma execute_each_keeps (P : Server → Prop) commands s :
  (∀ s c, P s → P (execute s c).1) →
  P s → P (execute_each execute commands s).1.
Proof.
  intros Hkeep. revert s. induction commands as [|c commands IH]; intros s HP; [done|].
  simpl. pose proof (Hkeep s c HP) as Hc.
  destruct (execute s c) as [s' [|]]; [by apply IH|done].
Qed.

(** X20: the schema setup cannot be repeated.  On a server where
    [CREATE INDEX] fails on the name of an index that exists, and where no
    statement of the pipeline drops an index, a setup that returned [True]
    is followed only by setups that return [False]: the tables are guarded
    by [IF NOT EXISTS], the indexes are not. *)
Theorem schema_setup_cannot_be_repeated
    (has_index : Server → string → bool) depth s database s1 :
  (∀ s i t c, has_index s i = true → (execute s (CreateIndex i t c)).2 = false) →
  (∀ s i t c s', execute s (CreateIndex i t c) = (s', true) → has_index s' i = true) →
  (∀ s c i, has_index s i = true → has_index (execute s c).1 i = true) →
  (∀ s i, has_index s i = true → has_index (commit s).1 i = true) →
  create_schema_and_indexes connect execute commit depth s database
    = Returned (s1, true) →
  has_index s1 "idx_transactions_region" = true ∧
  ∀ depth' s2 r,
    create_schema_and_indexes connect execute commit depth' s1 database
      = Returned (s2, r) → r = false.
Proof.
  intros Hdup Hmade Hexec Hcommit Hfirst.
  set (P := fun s => has_index s "idx_transactions_region" = true).
  assert (Hkeep : ∀ s c, P s → P (execute s c).1) by (intros ? ? ?; by apply Hexec).
  assert (Hs1 : P s1).
  { unfold create_schema_and_indexes in Hfirst.
    destruct (create_connection _ _ _ _ _) as [[sa [[]|]]|]; try done.
    destruct (execute_each execute schema_commands sa) as [sb [|]]; [|done].
    unfold index_commands in Hfirst.
    change (execute_each execute (?c :: ?cs) sb)
      with (match execute sb c with
            | (s', true) => execute_each execute cs s'
            | (s', false) => (s', false)
            end) in Hfirst.
    destruct (execute sb _) as [sc [|]] eqn:Hfirst_index; [|done].
    apply Hmade in Hfirst_index.
    pose proof (execute_each_keeps P
                  [CreateIndex "idx_transactions_date_std" "transactions" "date_std";
                   CreateIndex "idx_transactions_product_id" "transactions" "product_id"]
                  sc Hkeep Hfirst_index) as Hrest.
    destruct (execute_each execute _ sc) as [sd [|]]; [|done].
    pose proof (Hcommit sd _ Hrest) as Hc.
    destruct (commit sd) as [se [|]]; [|done]. by injection Hfirst as <-. }
  split; [done|]. intros depth' s2 r. unfold create_schema_and_indexes.
  destruct (create_connection _ _ depth' s1 database) as [[sa [[]|]]|] eqn:Hconn;
    [|by intros [= _ <-]|done].
  pose proof (create_connection_keeps P _ _ _ _ _ Hkeep Hconn Hs1) as Hsa.
  pose proof (execute_each_keeps P schema_commands sa Hkeep Hsa) as Hsb.
  destruct (execute_each execute schema_commands sa) as [sb [|]]; [|by intros [= _ <-]].
  unfold index_commands.
  change (execute_each execute (?c :: ?cs) sb)
    with (match execute sb c with
          | (s', true) => execute_each execute cs s'
          | (s', false) => (s', false)
          end).
  pose proof (Hdup sb _ "transactions" "region" Hsb) as Hfail.
  destruct (execute sb _) as [sc [|]]; [done|]. by intros [= _ <-].
Qed.

End DatabaseFacts.

Lemma create_connection_returns_the_last_answer_witness :
  sample_connect {| databases := ["sales_db"]; indexes := [] |} (Some "sales_db")
    ≠ ConnectError true ∧
  (Some () = Some ()
   ↔ sample_connect {| databases := ["sales_db"]; indexes := [] |} (Some "sales_db")
     = Connection true).
Proof.
  apply (create_connection_returns_the_last_answer sample_connect sample_execute 2
           {| databases := []; indexes := [] |} "sales_db").
  vm_compute. reflexivity.
Defined.

Lemma create_connection_is_retried_without_bound_witness :
  create_connection no_database_connect (fun s _ => (s, false)) 1000 () "sales_db"
  = RecursionError.
Proof.
  apply (create_connection_is_retried_without_bound no_database_connect
           (fun s _ => (s, false)) "sales_db").
  reflexivity.
Defined.

Lemma part1_create_connection_returns_witness :
  ∃ r, Part1.create_connection sample_connect sample_execute (2 + 0)
         {| databases := []; indexes := [] |} "sales_db" = Returned r.
Proof.
  apply (part1_create_connection_returns sample_connect sample_execute "sales_db").
  intros s s'. simpl. case_bool_decide; [done|]. intros [= <-].
  unfold sample_connect. simpl. done.
Defined.

Lemma schema_setup_cannot_be_repeated_witness :
  sample_has_index sample_server_set_up "idx_transactions_region" = true ∧
  ∀ depth' s2 r,
    create_schema_and_indexes sample_connect sample_execute sample_commit depth'
      sample_server_set_up "sales_db" = Returned (s2, r) → r = false.
Proof.
  apply (schema_setup_cannot_be_repeated sample_connect sample_execute sample_commit
           sample_has_index 2 {| databases := []; indexes := [] |} "sales_db"
           sample_server_set_up).
  - intros s i t c H. unfold sample_has_index in H. simpl. by rewrite H.
  - intros s i t c s'. simpl. case_bool_decide; [done|]. intros [= <-].
    apply bool_decide_eq_true_2, list_elem_of_here.
  - intros s c i H. apply bool_decide_eq_true in H.
    destruct c; simpl; repeat case_bool_decide; simpl;
      apply bool_decide_eq_true_2; try done; by apply list_elem_of_further.
  - done.
  - vm_compute. reflexivity.
Defined.

(** ** The summary of the issues *)

(** The run of the eight detectors, with the counts it stores. *)
Lemma perform_checks_issues_inv df df' issues :
  perform_checks df = Ok (df', issues) →
  ∃ f1 f2 f3 f4 f5 f6 f7 n1 n2 n3 n4 n5 n6 n7 n8,
    _check_missing_customer (init_flags df) = Ok (f1, n1) ∧
    _check_negative_quantities f1 = Ok (f2, n2) ∧
    _check_duplicate_transactions f2 = Ok (f3, n3) ∧
    _check_missing_product_info f3 = Ok (f4, n4) ∧
    _check_invalid_prices f4 = Ok (f5, n5) ∧
    _check_date_issues f5 = Ok (f6, n6) ∧
    _check_missing_transaction_ids f6 = Ok (f7, n7) ∧
    _check_suspicious_values f7 = Ok (df', n8) ∧
    issues = [ ("missing_customer", n1); ("negative_quantities", n2);
               ("duplicate_transactions", n3); ("missing_product_info", n4);
               ("invalid_prices", n5); ("date_issues", n6);
               ("missing_transaction_ids", n7); ("suspicious_values", n8) ].
Proof.
  unfold perform_checks, detectors. simpl. unfold run_detector. simpl.
  intros H.
  repeat match goal with
  | H : _ ≫= _ = Ok _ |- _ => inv_bind H
  | a : (DataFrame * nat)%type |- _ => destruct a; simpl in *
  | a : (DataFrame * list (string * nat))%type |- _ => destruct a; simpl in *
  | H : mret _ = Ok _ |- _ => injection H as <- <-
  | H : Ok _ = Ok _ |- _ => injection H as <- <-
  end.
  do 15 eexists. repeat (split; [eassumption|]). reflexivity.
Qed.

Lemma mask_sum_0_replicate m : mask_sum m = 0 → m = replicate (length m) false.
Proof.
  unfold mask_sum. induction m as [|b m IH]; [done|]. rewrite filter_cons.
  destruct b; simpl; [lia|]. intros H. f_equal. by apply IH.
Qed.

Lemma mask_series_replicate n :
  mask_series (replicate n false) = replicate n (VBool false).
Proof. unfold mask_series. induction n as [|n IH]; [done|]. simpl. by rewrite IH. Qed.

(** X21: the counts stored for a batch agree with the flags of its table.
    The count of missing customers is 0 and the summary never has its line;
    the counts of negative quantities and of suspicious values are the
    numbers of rows flagged [had_negative_quantity] and
    [has_suspicious_values]; a count of date issues that is not 0 is the
    number of rows flagged [had_date_format_issue]. *)
Theorem issue_counts_agree_with_the_flags E data f0 df issues :
  _initial_prep E data = Ok f0 → perform_checks f0 = Ok (df, issues) →
  ∃ negative suspicious n3 n4 n5 n6 n7,
    issues = [ ("missing_customer", 0); ("negative_quantities", mask_sum negative);
               ("duplicate_transactions", n3); ("missing_product_info", n4);
               ("invalid_prices", n5); ("date_issues", n6);
               ("missing_transaction_ids", n7);
               ("suspicious_values", mask_sum suspicious) ] ∧
    columns df !! "had_negative_quantity" = Some (mask_series negative) ∧
    columns df !! "has_suspicious_values" = Some (mask_series suspicious) ∧
    (n6 = 0 ∨ ∃ dated, n6 = mask_sum dated ∧
                columns df !! "had_date_format_issue" = Some (mask_series dated)) ∧
    (∀ n, ("missing_customer", n) ∉ _log_issues issues).
Proof.
  intros Hprep Hchecks.
  destruct (initial_prep_columns _ _ _ Hprep) as (p & tv & Hcid & Hq & _).
  destruct (well_formed_initial_prep _ _ _ Hprep) as [Hwf Hidx].
  apply perform_checks_issues_inv in Hchecks
    as (f1 & f2 & f3 & f4 & f5 & f6 & f7 & n1 & n2 & n3 & n4 & n5 & n6 & n7 & n8
        & H1 & H2 & H3 & H4 & H5 & H6 & H7 & H8 & ->).
  destruct (before_suspicious_values _ _ _ _ _ _ _ _ _ _ _ _ _ _ _
              Hwf H1 H2 H3 H4 H5 H6 H7) as (Hwf7 & Hidx7 & Hsusp7).
  apply _check_duplicate_transactions_inv in H3 as ->.
  apply _check_missing_product_info_inv in H4 as ->.
  apply _check_invalid_prices_inv in H5 as ->.
  apply _check_missing_transaction_ids_inv in H7 as ->.
  pose proof H1 as H1'.
  apply _check_missing_customer_inv in H1' as (c & Hc & Hn1 & Hf1).
  rewrite init_flags_other in Hc by done. rewrite Hcid in Hc. injection Hc as <-.
  rewrite mask_sum_isna_fillna in Hn1 by done. subst n1. simpl in Hf1. subst f1.
  assert (Hflag1 : columns (init_flags f0) !! "had_negative_quantity"
                   = Some (replicate (index f0) (VBool false))).
  { unfold init_flags, setitem_scalar.
    rewrite columns_setitem_ne by done. rewrite columns_setitem_eq.
    by rewrite index_setitem. }
  assert (Hq0 : columns (init_flags f0) !! "quantity"
                = Some (map (fun r => default VNull (quantity r)) data))
    by (by rewrite init_flags_other).
  pose proof H2 as H2'.
  apply _check_negative_quantities_inv in H2'
    as (q & negative & Hq2 & Hneg & Hn2 & Hcases).
  rewrite Hq0 in Hq2. injection Hq2 as <-.
  pose proof (compare_scalar_length _ _ _ _ Hneg) as Hlen. rewrite length_map in Hlen.
  pose proof H8 as H8'.
  apply _check_suspicious_values_inv in H8'
    as (q8 & p8 & tv8 & hq & lp & htv & Hq8 & Hp8 & Htv8 & Hhq & Hlp & Hhtv & Hn8 & Hdf).
  set (suspicious := mask_or (mask_or hq lp) htv) in *.
  assert (Hslen : length suspicious = index f0).
  { subst suspicious. apply compare_scalar_length in Hhq, Hlp, Hhtv.
    rewrite !mask_or_length, Hhq, Hlp, Hhtv.
    rewrite (Hwf7 _ _ Hq8), (Hwf7 _ _ Hp8), (Hwf7 _ _ Htv8). lia. }
  exists negative, suspicious, n3, n4, n5, n6, n7.
  split; [by rewrite Hn2, Hn8|]. split; [|split; [|split]].
  - rewrite (_check_suspicious_values_other _ _ _ _ H8) by done.
    rewrite (_check_date_issues_other _ _ _ _ H6) by done.
    destruct Hcases as [[Hz ->]|[_ (a & Ha & ->)]].
    + rewrite Hflag1. f_equal.
      rewrite (mask_sum_0_replicate negative)
        by (subst n2; apply Nat.ltb_ge in Hz; lia).
      by rewrite mask_series_replicate, Hlen, Hidx.
    + rewrite columns_setitem_ne by done. by rewrite columns_setitem_eq.
  - rewrite Hdf. destruct (0 <? n8)%nat eqn:Hz.
    + by rewrite columns_setitem_eq.
    + rewrite Hsusp7. f_equal.
      rewrite (mask_sum_0_replicate suspicious)
        by (rewrite <- Hn8; apply Nat.ltb_ge in Hz; lia).
      by rewrite mask_series_replicate, Hslen.
  - destruct (decide (n6 = 0)) as [|Hn6]; [by left|]. right.
    apply _check_date_issues_inv in H6 as (ds & d & _ & _ & Hn6' & ->).
    exists (mask_and (map isna ds) (map notna d)). split; [done|].
    rewrite (_check_suspicious_values_other _ _ _ _ H8) by done.
    assert ((0 <? n6)%nat = true) as -> by (apply Nat.ltb_lt; lia).
    by rewrite columns_setitem_eq.
  - intros n Hin. unfold _log_issues in Hin.
    apply list_elem_of_filter in Hin as [Hpos Hin]. simpl in Hpos.
    apply elem_of_cons in Hin as [[= ->]|Hin]; [lia|].
    repeat (apply elem_of_cons in Hin as [[=]|Hin]). by apply elem_of_nil in Hin.
Qed.

Lemma issue_counts_agree_with_the_flags_witness :
  ∃ negative suspicious n3 n4 n5 n6 n7,
    (ok_value (empty_frame, [])
       (perform_checks
          (ok_value empty_frame (_initial_prep sample_externals [scenario_record])))).2
    = [ ("missing_customer", 0); ("negative_quantities", mask_sum negative);
        ("duplicate_transactions", n3); ("missing_product_info", n4);
        ("invalid_prices", n5); ("date_issues", n6);
        ("missing_transaction_ids", n7);
        ("suspicious_values", mask_sum suspicious) ] ∧
    columns (ok_value (empty_frame, [])
       (perform_checks
          (ok_value empty_frame (_initial_prep sample_externals [scenario_record])))).1
      !! "had_negative_quantity" = Some (mask_series negative) ∧
    columns (ok_value (empty_frame, [])
       (perform_checks
          (ok_value empty_frame (_initial_prep sample_externals [scenario_record])))).1
      !! "has_suspicious_values" = Some (mask_series suspicious) ∧
    (n6 = 0 ∨ ∃ dated, n6 = mask_sum dated ∧
       columns (ok_value (empty_frame, [])
          (perform_checks
             (ok_value empty_frame (_initial_prep sample_externals [scenario_record])))).1
         !! "had_date_format_issue" = Some (mask_series dated)) ∧
    (∀ n, ("missing_customer", n)
          ∉ _log_issues
              (ok_value (empty_frame, [])
                 (perform_checks
                    (ok_value empty_frame
                       (_initial_prep sample_externals [scenario_record])))).2).
Proof.
  apply (issue_counts_agree_with_the_flags sample_externals [scenario_record]
           (ok_value empty_frame (_initial_prep sample_externals [scenario_record]))).
  - apply ok_value_eq. vm_compute. reflexivity.
  - rewrite <- surjective_pairing. apply ok_value_eq. vm_compute. reflexivity.
Defined.

(** ** Keys that no record has *)

Lemma column_of_None {A} (get : A → option Value) (data : list A) :
  (∀ r, r ∈ data → get r = None) → column_of get data = None.
Proof.
  intros Hnone. unfold column_of.
  destruct (existsb _ data) eqn:Hex; [|done].
  apply existsb_elem_of in Hex as (r & Hr & Hsome).
  apply bool_decide_eq_true in Hsome. rewrite (Hnone r Hr) in Hsome.
  by destruct Hsome.
Qed.

Lemma json_normalize_region data :
  columns (json_normalize data) !! "region" = column_of region data.
Proof.
  unfold json_normalize. simpl. rewrite !add_column_other by done.
  apply add_column_same. apply lookup_empty.
Qed.

(** [_initial_prep] sets five columns and flattens the product; it leaves
    the other columns of the normalised records as they are. *)
Lemma initial_prep_keeps E data f0 c :
  c ∉ ["product"; "product.id"; "product.name"; "product.category"; "product.price";
       "product_id"; "product_name"; "category"; "price";
       "customer_id"; "date_std"; "total_value"; "had_date_format_issue"] →
  _initial_prep E data = Ok f0 →
  columns f0 !! c = columns (json_normalize data) !! c.
Proof.
  intros Hc H. rewrite !not_elem_of_cons in Hc. destruct_and!.
  unfold _initial_prep in H. inv_bind H.
  assert (Hflat : columns a !! c = columns (json_normalize data) !! c).
  { apply (flatten_product_keeps _ _ c); [|done].
    rewrite !not_elem_of_cons. repeat split; try done; apply not_elem_of_nil. }
  rewrite <- Hflat.
  repeat match goal with
  | H : _ ≫= _ = Ok _ |- _ => inv_bind H
  end.
  injection H as <-. by rewrite !columns_setitem_ne.
Qed.

Lemma transform_keeps E data df c :
  c ∉ ["product"; "product.id"; "product.name"; "product.category"; "product.price";
       "product_id"; "product_name"; "category"; "price";
       "customer_id"; "date_std"; "total_value"; "had_date_format_issue";
       "has_missing_customer"; "had_negative_quantity"; "has_suspicious_values";
       "quantity"] →
  transform E data = Ok df →
  columns df !! c = columns (json_normalize data) !! c.
Proof.
  intros Hc Ht. apply transform_inv in Ht as (f0 & issues & Hprep & Hchecks).
  rewrite !not_elem_of_cons in Hc. destruct_and!.
  assert (Hkept : columns f0 !! c = columns (json_normalize data) !! c).
  { apply (initial_prep_keeps E); [|done].
    rewrite !not_elem_of_cons. repeat split; try done; apply not_elem_of_nil. }
  rewrite <- Hkept.
  apply perform_checks_inv in Hchecks
    as (f1 & f2 & f3 & f4 & f5 & f6 & f7 & n1 & n2 & n3 & n4 & n5 & n6 & n7 & n8
        & D1 & D2 & D3 & D4 & D5 & D6 & D7 & D8).
  apply _check_duplicate_transactions_inv in D3 as ->.
  apply _check_missing_product_info_inv in D4 as ->.
  apply _check_invalid_prices_inv in D5 as ->.
  apply _check_missing_transaction_ids_inv in D7 as ->.
  rewrite (_check_suspicious_values_other _ _ _ c D8) by done.
  rewrite (_check_date_issues_other _ _ _ c D6) by done.
  rewrite (_check_negative_quantities_other _ _ _ c D2) by done.
  rewrite (_check_missing_customer_other _ _ _ c D1) by done.
  by rewrite init_flags_other.
Qed.

Lemma mapM_getitem_Raise df cols c :
  c ∈ cols → columns df !! c = None → ∃ e, mapM (getitem df) cols = Raise e.
Proof.
  intros Hc Hnone. induction cols as [|c0 cols IH]; [by apply elem_of_nil in Hc|].
  simpl. apply elem_of_cons in Hc as [<-|Hc].
  - assert (getitem df c = Raise (KeyError c)) as ->
      by (unfold getitem; by rewrite Hnone).
    by eexists.
  - destruct (getitem df c0) as [s|e]; [|by eexists]. simpl.
    destruct (IH Hc) as [e ->]. by eexists.
Qed.

(** X22: a batch in which no record has the key [region] is transformed,
    and then nothing of it is loaded: the Transactions projection raises
    the [KeyError] of its column before the first write, and the loader
    returns [False]. *)
Theorem without_a_region_nothing_is_loaded {DB : Type}
    (to_sql : DB -> string -> Table -> DB * Result ())
    (E : Externals) (data : list RawRecord) (df : DataFrame)
    (engine : DB) (batch_size : Z) :
  transform E data = Ok df →
  (∀ r, r ∈ data → region r = None) →
  columns df !! "region" = None ∧
  (∃ e, _prepare_transactions_df E df = Raise e) ∧
  load_with_batch_processing to_sql E df (Some engine) batch_size
  = (Some {| db := engine; calls := [] |}, false).
Proof.
  intros Ht Hnone.
  assert (Hregion : columns df !! "region" = None).
  { rewrite (transform_keeps E data df "region") by (try done; not_in_list).
    rewrite json_normalize_region. by apply column_of_None. }
  assert (Hraise : ∃ e, _prepare_transactions_df E df = Raise e).
  { unfold _prepare_transactions_df, select.
    destruct (mapM_getitem_Raise df transaction_columns "region") as [e ->];
      [|done|by exists e].
    unfold transaction_columns. do 6 apply list_elem_of_further. apply list_elem_of_here. }
  split; [done|]. split; [done|].
  unfold load_with_batch_processing, load_tables.
  destruct Hraise as [e ->].
  destruct (_prepare_customers_df df); [|done].
  by destruct (_prepare_products_df df).
Qed.

Lemma without_a_region_nothing_is_loaded_witness :
  columns (ok_value empty_frame
             (transform sample_externals [regionless_record])) !! "region" = None ∧
  (∃ e, _prepare_transactions_df sample_externals
          (ok_value empty_frame (transform sample_externals [regionless_record]))
        = Raise e) ∧
  load_with_batch_processing accept_all sample_externals
    (ok_value empty_frame (transform sample_externals [regionless_record]))
    (Some ()) 1000
  = (Some {| db := (); calls := [] |}, false).
Proof.
  apply (without_a_region_nothing_is_loaded accept_all sample_externals
           [regionless_record]).
  - apply ok_value_eq. vm_compute. reflexivity.
  - intros r Hr. apply list_elem_of_singleton in Hr as ->. reflexivity.
Defined.

(** X23: when the product structure of a batch is flattened and no record
    has the key [customer_id], the transform raises [KeyError] on it. *)
Theorem without_a_customer_id_the_transform_raises E data f :
  flatten_product (json_normalize data) = Ok f →
  (∀ r, r ∈ data → customer_id r = None) →
  transform E data = Raise (KeyError "customer_id").
Proof.
  intros Hflat Hnone. unfold transform, _initial_prep. rewrite Hflat. simpl.
  assert (getitem f "customer_id" = Raise (KeyError "customer_id")) as ->; [|done].
  unfold getitem.
  rewrite (flatten_product_keeps _ _ "customer_id" ltac:(not_in_list) Hflat).
  by rewrite json_normalize_customer_id, column_of_None.
Qed.

Lemma without_a_customer_id_the_transform_raises_witness :
  transform sample_externals [anonymous_record] = Raise (KeyError "customer_id").
Proof.
  apply (without_a_customer_id_the_transform_raises sample_externals [anonymous_record]
           (ok_value empty_frame (flatten_product (json_normalize [anonymous_record])))).
  - apply ok_value_eq. vm_compute. reflexivity.
  - intros r Hr. apply list_elem_of_singleton in Hr as ->. reflexivity.
Defined.

(** ** The Transactions projection of a transformed table *)

Lemma is_Some_setitem df c c' s :
  is_Some (columns df !! c) → is_Some (columns (setitem df c' s) !! c).
Proof.
  intros H. unfold setitem. simpl. destruct (decide (c' = c)) as [->|Hne].
  - by rewrite lookup_insert_eq.
  - by rewrite lookup_insert_ne.
Qed.

Lemma _check_missing_customer_present df df' n c :
  _check_missing_customer df = Ok (df', n) →
  is_Some (columns df !! c) → is_Some (columns df' !! c).
Proof.
  intros H Hc. apply _check_missing_customer_inv in H as (s & _ & _ & ->).
  destruct (0 <? n)%nat; [by do 2 apply is_Some_setitem|done].
Qed.

Lemma _check_negative_quantities_present df df' n c :
  _check_negative_quantities df = Ok (df', n) →
  is_Some (columns df !! c) → is_Some (columns df' !! c).
Proof.
  intros H Hc. apply _check_negative_quantities_inv in H
    as (q & negative & _ & _ & _ & [[_ ->]|[_ (a & _ & ->)]]); [done|].
  by do 2 apply is_Some_setitem.
Qed.

Lemma _check_date_issues_present df df' n c :
  _check_date_issues df = Ok (df', n) →
  is_Some (columns df !! c) → is_Some (columns df' !! c).
Proof.
  intros H Hc. apply _check_date_issues_inv in H as (ds & d & _ & _ & _ & ->).
  destruct (0 <? n)%nat; [by apply is_Some_setitem|done].
Qed.

Lemma _check_suspicious_values_present df df' n c :
  _check_suspicious_values df = Ok (df', n) →
  is_Some (columns df !! c) → is_Some (columns df' !! c).
Proof.
  intros H Hc. apply _check_suspicious_values_inv in H
    as (q & p & tv & hq & lp & htv & _ & _ & _ & _ & _ & _ & _ & ->).
  destruct (0 <? n)%nat; [by apply is_Some_setitem|done].
Qed.

(** The transform has read or written every column of the Transactions
    projection but [region]: on a table it returns, they exist. *)
Lemma transform_transaction_columns E data df c :
  transform E data = Ok df → c ∈ transaction_columns → c ≠ "region" →
  is_Some (columns df !! c).
Proof.
  intros Ht Hc Hregion. apply transform_inv in Ht as (f0 & issues & Hprep & Hchecks).
  destruct (initial_prep_seed _ _ _ Hprep) as (d & ds & Hd & Hds & Hseed).
  apply perform_checks_inv in Hchecks
    as (f1 & f2 & f3 & f4 & f5 & f6 & f7 & n1 & n2 & n3 & n4 & n5 & n6 & n7 & n8
        & D1 & D2 & D3 & D4 & D5 & D6 & D7 & D8).
  pose proof D3 as D3'. pose proof D4 as D4'.
  apply _check_duplicate_transactions_inv in D3' as ->.
  apply _check_missing_product_info_inv in D4' as ->.
  apply _check_invalid_prices_inv in D5 as ->.
  apply _check_missing_transaction_ids_inv in D7 as ->.
  assert (Hfrom6 : ∀ c, is_Some (columns f6 !! c) → is_Some (columns df !! c))
    by (intros c'; apply (_check_suspicious_values_present _ _ _ _ D8)).
  assert (Hfrom2 : ∀ c, is_Some (columns f2 !! c) → is_Some (columns df !! c))
    by (intros c' H; by apply Hfrom6, (_check_date_issues_present _ _ _ _ D6)).
  assert (Hfrom0 : ∀ c, is_Some (columns (init_flags f0) !! c) →
                        is_Some (columns df !! c)).
  { intros c' H. by apply Hfrom2, (_check_negative_quantities_present _ _ _ _ D2),
      (_check_missing_customer_present _ _ _ _ D1). }
  assert (Hflags : ∀ c, is_Some (columns f0 !! c) →
                        is_Some (columns (init_flags f0) !! c)).
  { intros c' H. unfold init_flags, setitem_scalar. by do 3 apply is_Some_setitem. }
  apply _check_missing_customer_inv in D1 as (cid & Hcid & _).
  apply _check_date_issues_inv in D6 as (ds' & d' & Hds' & Hd' & _).
  apply _check_suspicious_values_inv in D8
    as (q & p & tv & hq & lp & htv & Hq & Hp & Htv & _).
  unfold _check_duplicate_transactions in D3. inv_bind D3. apply getitem_Ok in D3_l.
  unfold _check_missing_product_info in D4. inv_bind D4. apply getitem_Ok in D4_l.
  unfold transaction_columns in Hc.
  repeat (apply elem_of_cons in Hc as [->|Hc]);
    [..|by apply elem_of_nil in Hc].
  - by apply Hfrom2.
  - by apply Hfrom0.
  - by apply Hfrom2.
  - by apply Hfrom6.
  - by apply Hfrom2.
  - by apply Hfrom2.
  - done.
  - by apply Hfrom6.
  - apply Hfrom0. unfold init_flags, setitem_scalar.
    do 2 apply is_Some_setitem. by rewrite columns_setitem_eq.
  - apply Hfrom0. unfold init_flags, setitem_scalar.
    apply is_Some_setitem. by rewrite columns_setitem_eq.
  - by apply Hfrom0, Hflags.
  - apply Hfrom0. unfold init_flags, setitem_scalar. by rewrite columns_setitem_eq.
Qed.

Lemma mapM_getitem_Ok df cols :
  (∀ c, c ∈ cols → is_Some (columns df !! c)) → ∃ ss, mapM (getitem df) cols = Ok ss.
Proof.
  induction cols as [|c cols IH]; intros H; [by eexists|].
  destruct (H c) as [s Hs]; [apply list_elem_of_here|].
  destruct IH as [ss Hss]; [intros c' Hc'; by apply H, list_elem_of_further|].
  exists (s :: ss). simpl.
  assert (getitem df c = Ok s) as -> by (by apply getitem_Ok).
  simpl. by rewrite Hss.
Qed.

Lemma select_returns df cols :
  (∀ c, c ∈ cols → is_Some (columns df !! c)) → ∃ t, select df cols = Ok t.
Proof.
  intros H. destruct (mapM_getitem_Ok df cols H) as [ss Hss].
  unfold select. rewrite Hss. by eexists.
Qed.

(** The Transactions projection returns when its columns exist. *)
Lemma _prepare_transactions_df_returns E df :
  (∀ c, c ∈ transaction_columns → is_Some (columns df !! c)) →
  ∃ t, _prepare_transactions_df E df = Ok t.
Proof.
  intros H. unfold _prepare_transactions_df.
  destruct (select_returns df transaction_columns H) as [t0 ->]. simpl.
  destruct (H "date_std") as [ds Hds].
  { unfold transaction_columns. do 5 apply list_elem_of_further. apply list_elem_of_here. }
  assert (getitem df "date_std" = Ok ds) as -> by (by apply getitem_Ok).
  simpl. apply select_returns. intros c Hc. by apply is_Some_setitem, H.
Qed.

(** A run of [transform] that returns has gone through its ten frames. *)
Lemma transform_frames_returns E data df :
  transform E data = Ok df → ∃ frames, transform_frames E data = Ok frames.
Proof.
  intros Ht. apply transform_inv in Ht as (f0 & issues & Hprep & Hchecks).
  apply perform_checks_inv in Hchecks
    as (f1 & f2 & f3 & f4 & f5 & f6 & f7 & n1 & n2 & n3 & n4 & n5 & n6 & n7 & n8
        & D1 & D2 & D3 & D4 & D5 & D6 & D7 & D8).
  unfold transform_frames. rewrite Hprep. simpl.
  unfold detectors. simpl.
  rewrite D1. simpl. rewrite D2. simpl. rewrite D3. simpl. rewrite D4. simpl.
  rewrite D5. simpl. rewrite D6. simpl. rewrite D7. simpl. rewrite D8. simpl.
  by eexists.
Qed.

(** C9: detectors 3 (duplicate transaction IDs), 4 (missing product info),
    5 (invalid prices) and 7 (missing transaction IDs) return the frame
    they were given, with a count; so in the run of a transform, which
    goes through ten frames, the frame is the same before and after each
    of them.  When a record of the batch has the key [region], the
    Transactions projection of the transformed table returns, and has one
    row for each input record: row [i] of the projection is built from
    row [i] of the table, whatever its flags. *)
Theorem diagnostic_detectors_and_projection_keep_rows E data df :
  transform E data = Ok df →
  (∃ r, r ∈ data ∧ is_Some (region r)) →
  (∀ f f' n, _check_duplicate_transactions f = Ok (f', n) → f' = f) ∧
  (∀ f f' n, _check_missing_product_info f = Ok (f', n) → f' = f) ∧
  (∀ f f' n, _check_invalid_prices f = Ok (f', n) → f' = f) ∧
  (∀ f f' n, _check_missing_transaction_ids f = Ok (f', n) → f' = f) ∧
  (∃ frames, transform_frames E data = Ok frames ∧ length frames = 10 ∧
     frames !! 4 = frames !! 3 ∧ frames !! 5 = frames !! 3 ∧
     frames !! 6 = frames !! 3 ∧ frames !! 8 = frames !! 7 ∧
     frames !! 9 = Some df) ∧
  index df = length data ∧
  (∃ t, _prepare_transactions_df E df = Ok t ∧
     header t = transaction_columns ∧
     length (rows t) = length data ∧
     ∀ i, i < length data → rows t !! i = Some (transaction_row E df i)).
Proof.
  intros Ht (r & Hr & Hregion).
  split; [apply _check_duplicate_transactions_inv|].
  split; [apply _check_missing_product_info_inv|].
  split; [apply _check_invalid_prices_inv|].
  split; [apply _check_missing_transaction_ids_inv|].
  split.
  - destruct (transform_frames_returns _ _ _ Ht) as [frames Hf].
    exists frames. split; [done|].
    destruct (transform_frames_last _ _ _ Hf) as (df' & Ht' & Hlast).
    rewrite Ht in Ht'. injection Ht' as <-.
    apply transform_frames_inv in Hf
      as (f0 & f1 & f2 & f3 & f4 & f5 & f6 & f7 & f8
          & n1 & n2 & n3 & n4 & n5 & n6 & n7 & n8
          & H0 & H1 & H2 & H3 & H4 & H5 & H6 & H7 & H8 & ->).
    apply _check_duplicate_transactions_inv in H3 as ->.
    apply _check_missing_product_info_inv in H4 as ->.
    apply _check_invalid_prices_inv in H5 as ->.
    apply _check_missing_transaction_ids_inv in H7 as ->.
    simpl in Hlast. injection Hlast as ->. done.
  - destruct (transform_well_formed _ _ _ Ht) as [Hwf Hidx].
    split; [done|].
    assert (Hcolumn : is_Some (columns df !! "region")).
    { rewrite (transform_keeps E data df "region") by (try done; not_in_list).
      rewrite json_normalize_region. unfold column_of.
      assert (existsb (fun r => bool_decide (is_Some (region r))) data = true) as ->;
        [|done].
      apply existsb_elem_of. exists r. split; [done|]. by apply bool_decide_eq_true. }
    destruct (_prepare_transactions_df_returns E df) as [t Hprep].
    { intros c Hc. destruct (decide (c = "region")) as [->|Hne]; [done|].
      by apply (transform_transaction_columns E data). }
    exists t. split; [done|].
    destruct (_prepare_transactions_df_rows _ _ _ Hwf Hprep) as (Hh & Hl & Hrows).
    rewrite Hidx in Hl, Hrows. done.
Qed.

Lemma diagnostic_detectors_and_projection_keep_rows_witness :
  (∃ frames, transform_frames sample_externals [scenario_record] = Ok frames ∧
     length frames = 10 ∧
     frames !! 4 = frames !! 3 ∧ frames !! 5 = frames !! 3 ∧
     frames !! 6 = frames !! 3 ∧ frames !! 8 = frames !! 7 ∧
     frames !! 9 = Some scenario_frame) ∧
  index scenario_frame = length [scenario_record] ∧
  (∃ t, _prepare_transactions_df sample_externals scenario_frame = Ok t ∧
     header t = transaction_columns ∧
     length (rows t) = length [scenario_record] ∧
     ∀ i, i < length [scenario_record] →
       rows t !! i = Some (transaction_row sample_externals scenario_frame i)).
Proof.
  apply (diagnostic_detectors_and_projection_keep_rows sample_externals
           [scenario_record] scenario_frame).
  - apply ok_value_eq. vm_compute. reflexivity.
  - exists scenario_record. split; [apply list_elem_of_here|]. by eexists.
Defined.

(** ** Part 1: the load *)

Lemma index_rename_column old new df : index (rename_column old new df) = index df.
Proof. unfold rename_column. by destruct (columns df !! old). Qed.

(** Part 1's [transform] keeps the rows of the batch and the column
    [region] of the normalised records. *)
Lemma part1_transform_region E data df :
  Part1.transform E data = Ok df →
  index df = length data ∧ columns df !! "region" = column_of region data.
Proof.
  unfold Part1.transform. intros H.
  apply bind_Ok in H as (f & Hflat & H).
  destruct (well_formed_flatten_product _ _ (well_formed_json_normalize data) Hflat)
    as [_ Hidx]. simpl in Hidx.
  pose proof (flatten_product_keeps _ _ "region" ltac:(not_in_list) Hflat) as Hr.
  rewrite json_normalize_region in Hr.
  repeat match goal with
  | H : _ ≫= _ = Ok _ |- _ => inv_bind H
  end.
  injection H as <-.
  match goal with
  | |- index (if ?b then _ else _) = _ ∧ _ => destruct b
  end.
  - split.
    + unfold drop_column. simpl. by rewrite index_rename_column, !index_setitem.
    + rewrite columns_drop_column_ne by done.
      rewrite rename_column_other by done. by rewrite !columns_setitem_ne.
  - split.
    + by rewrite index_rename_column, !index_setitem.
    + rewrite rename_column_other by done. by rewrite !columns_setitem_ne.
Qed.

(** [mapM (getitem df)] raises the [KeyError] of the first column that the
    frame does not have. *)
Lemma mapM_getitem_first_missing df cols e :
  mapM (getitem df) cols = Raise e ↔
  ∃ before c rest, cols = before ++ c :: rest ∧
    (∀ c', c' ∈ before → is_Some (columns df !! c')) ∧
    columns df !! c = None ∧ e = KeyError c.
Proof.
  induction cols as [|c0 cols IH].
  - split; [done|]. intros (before & c & rest & Hcols & _). by destruct before.
  - change (mapM (getitem df) (c0 :: cols))
      with (getitem df c0 ≫= fun y => mapM (getitem df) cols ≫= fun k => mret (y :: k)).
    destruct (columns df !! c0) as [s0|] eqn:Hc0.
    + assert (getitem df c0 = Ok s0) as -> by (by apply getitem_Ok).
      change (Ok s0 ≫= fun y => mapM (getitem df) cols ≫= fun k => mret (y :: k))
        with (mapM (getitem df) cols ≫= fun k => mret (s0 :: k)).
      split.
      * intros H. destruct (mapM (getitem df) cols) as [k|e'] eqn:Hm; [done|].
        injection H as ->. destruct (proj1 IH eq_refl)
          as (before & c & rest & -> & Hbefore & Hc & ->).
        exists (c0 :: before), c, rest. split; [done|]. split; [|done].
        intros c' Hc'. apply elem_of_cons in Hc' as [->|Hc']; [by rewrite Hc0|auto].
      * intros (before & c & rest & Hcols & Hbefore & Hc & ->).
        destruct before as [|b before]; simpl in Hcols; injection Hcols as <- ->.
        { by rewrite Hc in Hc0. }
        assert (Hm : mapM (getitem df) (before ++ c :: rest) = Raise (KeyError c)).
        { apply IH. exists before, c, rest. split; [done|]. split; [|done].
          intros c' Hc'. apply Hbefore. by apply list_elem_of_further. }
        by rewrite Hm.
    + assert (getitem df c0 = Raise (KeyError c0)) as ->
        by (unfold getitem; by rewrite Hc0).
      split.
      * intros [= <-]. exists [], c0, cols. split; [done|]. split; [|done].
        intros c' Hc'. by apply elem_of_nil in Hc'.
      * intros (before & c & rest & Hcols & Hbefore & Hc & ->).
        destruct before as [|b before]; simpl in Hcols; injection Hcols as <- ->.
        { done. }
        destruct (Hbefore c0) as [s0 Hs0]; [apply list_elem_of_here|]. congruence.
Qed.

Lemma _prepare_data_for_insertion_raises df e :
  Part1._prepare_data_for_insertion df = Raise e ↔
  index df ≠ 0 ∧
  ∃ before c rest, Part1.sales_columns = before ++ c :: rest ∧
    (∀ c', c' ∈ before → is_Some (columns df !! c')) ∧
    columns df !! c = None ∧ e = KeyError c.
Proof.
  unfold Part1._prepare_data_for_insertion, select.
  rewrite <- mapM_getitem_first_missing. case_bool_decide as Hidx.
  - split; [done|]. by intros [? _].
  - destruct (mapM (getitem df) Part1.sales_columns) as [ss|e']; simpl.
    + split; [done|]. by intros [_ ?].
    + split; [by intros [= ->]|by intros [_ [= ->]]].
Qed.

Section Part1LoaderFacts.
Context {Server : Type}.
Context (connect : Server -> option string -> ConnectOutcome).
Context (execute : Server -> Statement -> Server * bool).
Context (executemany : Server -> list (list Value) -> Server * bool).
Context (commit : Server -> Server * bool).

(** X24: Part 1's [to_mysql] is left without a result in two cases and no
    other.  An exception leaves it exactly when a connection was made, the
    table was created, the [DELETE] was executed, the frame has rows and
    lacks a column of the table [sales]: the exception is the [KeyError]
    of the first such column, which the handler of the connector's
    [Error]s does not catch.  And it ends in a [RecursionError] exactly
    when [create_connection] does, which is called before the [try]. *)
Theorem part1_to_mysql_raises_on_a_missing_column depth s database df s' e :
  (Part1.to_mysql connect execute executemany commit depth s database df
     = Returned (s', Raise e)
   ↔ ∃ sa sb,
       Part1.create_connection connect execute depth s database
         = Returned (sa, Some ()) ∧
       execute sa (CreateTableIfNotExists "sales") = (sb, true) ∧
       execute sb (DeleteFrom "sales") = (s', true) ∧
       index df ≠ 0 ∧
       ∃ before c rest, Part1.sales_columns = before ++ c :: rest ∧
         (∀ c', c' ∈ before → is_Some (columns df !! c')) ∧
         columns df !! c = None ∧ e = KeyError c) ∧
  (Part1.to_mysql connect execute executemany commit depth s database df
     = RecursionError
   ↔ Part1.create_connection connect execute depth s database = RecursionError).
Proof.
  unfold Part1.to_mysql. split; split.
  - destruct (Part1.create_connection _ _ _ _ _) as [[sa [[]|]]|]; try done.
    destruct (execute sa _) as [sb [|]] eqn:Htable; [|done].
    destruct (execute sb _) as [sc [|]] eqn:Hdelete; [|done].
    destruct (Part1._prepare_data_for_insertion df) as [data_values|e'] eqn:Hprep.
    + destruct (executemany sc data_values) as [sd [|]]; [|done].
      by destruct (commit sd) as [se [|]].
    + intros [= <- <-]. apply _prepare_data_for_insertion_raises in Hprep as [Hidx Hcol].
      by exists sa, sb.
  - intros (sa & sb & -> & -> & -> & Hidx & Hcol).
    by rewrite (proj2 (_prepare_data_for_insertion_raises df e) (conj Hidx Hcol)).
  - destruct (Part1.create_connection _ _ _ _ _) as [[sa [[]|]]|]; try done.
    destruct (execute sa _) as [sb [|]]; [|done].
    destruct (execute sb _) as [sc [|]]; [|done].
    destruct (Part1._prepare_data_for_insertion df) as [data_values|e']; [|done].
    destruct (executemany sc data_values) as [sd [|]]; [|done].
    by destruct (commit sd) as [se [|]].
  - by intros ->.
Qed.

(** X25: Part 1's [run] on a batch in which no record has the key
    [region]: when the transform returns, the connection is made, the
    table is created and the [DELETE] is executed, [run] raises the
    [KeyError] of a column the table lacks, where Part 3's loader returns
    [False]; nothing is inserted and nothing is committed. *)
Theorem part1_run_raises_without_a_region E fs input_file depth s database df sa sb sc :
  Part1.transform E (from_json fs input_file) = Ok df →
  from_json fs input_file ≠ [] →
  (∀ r, r ∈ from_json fs input_file → region r = None) →
  Part1.create_connection connect execute depth s database = Returned (sa, Some ()) →
  execute sa (CreateTableIfNotExists "sales") = (sb, true) →
  execute sb (DeleteFrom "sales") = (sc, true) →
  ∃ c, c ∈ Part1.sales_columns ∧ columns df !! c = None ∧
    Part1.run E connect execute executemany commit fs input_file depth s database
    = Returned (sc, Raise (KeyError c)).
Proof.
  intros Ht Hdata Hnone Hconn Htable Hdelete.
  destruct (part1_transform_region _ _ _ Ht) as [Hidx Hregion].
  rewrite column_of_None in Hregion by done.
  destruct (part1_transform_columns _ _ _ Ht) as (p & negative & tv & Hcid & _).
  assert (Hlen : length (from_json fs input_file) ≠ 0)
    by (by destruct (from_json fs input_file)).
  destruct (mapM (getitem df) Part1.sales_columns) as [ss|e] eqn:Hm.
  { assert (Hsome : is_Some (columns df !! "region")); [|by rewrite Hregion in Hsome; destruct Hsome].
    clear -Hm. unfold Part1.sales_columns in Hm. simpl in Hm.
    repeat match goal with
    | H : _ ≫= _ = Ok _ |- _ => inv_bind H
    end.
    repeat match goal with
    | H : getitem _ _ = Ok _ |- _ => apply getitem_Ok in H
    end.
    eauto. }
  pose proof Hm as Hfirst.
  apply mapM_getitem_first_missing in Hfirst as (before & c & rest & Hcols & _ & Hc & ->).
  exists c. split; [rewrite Hcols; apply elem_of_app; right; apply list_elem_of_here|].
  split; [done|].
  unfold Part1.run. rewrite bool_decide_eq_false_2 by done. rewrite Ht.
  assert (empty df = false) as ->.
  { unfold empty. rewrite bool_decide_eq_false_2 by (by rewrite Hidx).
    rewrite bool_decide_eq_false_2; [done|]. intros Hempty.
    by rewrite Hempty in Hcid. }
  unfold Part1.to_mysql. rewrite Hconn, Htable, Hdelete.
  unfold Part1._prepare_data_for_insertion, select.
  rewrite bool_decide_eq_false_2 by (by rewrite Hidx). by rewrite Hm.
Qed.

End Part1LoaderFacts.

Lemma part1_run_raises_without_a_region_witness :
  ∃ c, c ∈ Part1.sales_columns ∧
    columns (ok_value empty_frame
               (Part1.transform sample_externals [regionless_record])) !! c = None ∧
    Part1.run sample_externals sample_connect sample_execute
      (fun s _ => (s, true)) sample_commit
      {[ "sales_data.json" := JsonArray [regionless_record] ]} "sales_data.json"
      2 {| databases := []; indexes := [] |} "sales_db"
    = Returned ({| databases := ["sales_db"]; indexes := [] |}, Raise (KeyError c)).
Proof.
  apply (part1_run_raises_without_a_region sample_connect sample_execute
           (fun s _ => (s, true)) sample_commit sample_externals
           {[ "sales_data.json" := JsonArray [regionless_record] ]} "sales_data.json"
           2 {| databases := []; indexes := [] |} "sales_db"
           (ok_value empty_frame (Part1.transform sample_externals [regionless_record]))
           {| databases := ["sales_db"]; indexes := [] |}
           {| databases := ["sales_db"]; indexes := [] |}).
  - apply ok_value_eq. vm_compute. reflexivity.
  - vm_compute. discriminate.
  - intros r Hr. vm_compute in Hr. apply list_elem_of_singleton in Hr as ->. reflexivity.
  - vm_compute. reflexivity.
  - reflexivity.
  - reflexivity.
Defined.
